(** * The asynchronous file-system bridge of the Wren CLI ([src/module/io.c])

    A shallow embedding of the module: every C function becomes a
    computation in a small state-and-error monad over a [World] holding the
    C heap, the VM's API slots and the module's four static variables.
    Every call with an effect outside the module (libc [free], libuv, the
    VM's slot API, the scheduler) is recorded, in program order, in the list
    of events the computation returns. *)

From Stdlib Require Import ZArith Lia Btauto.
From stdpp Require Import base gmap list strings.

Local Open Scope Z_scope.
Set Warnings "-register-all".

(** ** Host constants

    [fcntl.h], [sys/stat.h], libuv's [uv_strerror] and [uv_guess_handle]
    and the capacity of [malloc] are not part of the module; they are taken
    as parameters. *)

(** [uv_handle_type], as far as [uv_guess_handle] reports it. *)
Inductive HandleType := UV_TTY | UV_NAMED_PIPE | UV_FILE | UV_UNKNOWN_HANDLE.

Record Platform := mkPlatform {
  O_RDONLY : Z;
  O_WRONLY : Z;
  O_RDWR : Z;
  O_SYNC : Z;
  O_CREAT : Z;
  O_TRUNC : Z;
  O_EXCL : Z;
  S_IRUSR : Z;
  S_IWUSR : Z;
  uv_strerror : Z -> string;
  uv_guess_handle : Z -> HandleType;
  malloc_ok : Z -> bool
}.

(** libuv's end-of-file status, the same on every host ([uv-errno.h]). *)
Definition UV_EOF : Z := -4095.

(** [static const int stdinDescriptor = 0;] *)
Definition stdinDescriptor : Z := 0.

(** C truth of an integer used as a condition. *)
Definition truthy (z : Z) : bool := negb (z =? 0).

(** ** Conversions between numbers

    The VM's numbers are doubles. The model keeps those whose value is an
    integer ([VNum] below): the module converts every number it reads to
    an integer type and every number it writes from one. *)

Definition INT_MIN : Z := -2147483648.
Definition INT_MAX : Z := 2147483647.
Definition SIZE_MAX : Z := 18446744073709551615.

(** [(double)x] for a 64-bit integer [x]: the nearest double, which has a
    significand of 53 bits; a tie goes to the even significand. *)
Definition toDouble (x : Z) : Z :=
  let a := Z.abs x in
  if a <? 2 ^ 53 then x
  else
    let e := Z.log2 a - 52 in
    let q := Z.shiftr a e in
    let r := Z.land a (Z.ones e) in
    let half := 2 ^ (e - 1) in
    let q :=
      if r <? half then q
      else if half <? r then q + 1
      else if Z.even q then q else q + 1 in
    Z.sgn x * Z.shiftl q e.

(** A [size_t] passed where an [int64_t] is expected: values from [2^63]
    on wrap around to negative ones. *)
Definition toInt64 (x : Z) : Z :=
  if x <? 2 ^ 63 then x else x - 2 ^ 64.

(** ** Data model *)

(** Heap addresses. A C pointer that may be [NULL] is an [option loc]. *)
Abbreviation loc := positive.

(** The values the VM's slots can hold, as far as this module touches them. *)
Inductive Value :=
| VNull
| VBool (b : bool)
| VNum (n : Z)
| VString (s : string)
| VBytes (bs : list Z)
| VList (vs : list Value)
| VForeign (l : loc)
| VClass (module name : string)
| VFiber (id : nat)
| VMethod (signature : string).

(** [uv_stat_t], restricted to the fields the module reads. *)
Record uv_stat_t := mkStat {
  st_dev : Z;
  st_mode : Z;
  st_nlink : Z;
  st_uid : Z;
  st_gid : Z;
  st_rdev : Z;
  st_ino : Z;
  st_size : Z;
  st_blksize : Z;
  st_blocks : Z
}.

Definition zeroStat : uv_stat_t := mkStat 0 0 0 0 0 0 0 0 0 0.

(** [uv_buf_t]: a base pointer and a length. *)
Record uv_buf_t := mkBuf {
  buf_base : option loc;
  buf_len : Z
}.

(** [struct sFileRequestData]. *)
Record FileRequestData := mkData {
  fiber : loc;
  buffer : uv_buf_t
}.

(** What [uv_fs_t.ptr] points to once a request has completed. *)
Inductive FsPtr :=
| PNull
| PPath (s : string)
| PDirents (names : list string).

(** [uv_fs_t], restricted to the fields the module reads; [fs_nbufs] is the
    cursor [uv_fs_scandir_next] advances. *)
Record uv_fs_t := mkReq {
  fs_result : Z;
  fs_data : option loc;
  fs_statbuf : uv_stat_t;
  fs_ptr : FsPtr;
  fs_nbufs : nat
}.

Inductive StreamKind := TTY | Pipe.

(** [uv_stream_t]: the kind of handle behind it and whether it is reading. *)
Record uv_stream_t := mkStream {
  stream_kind : StreamKind;
  stream_reading : bool
}.

(** The payload of a foreign object: a [File]'s descriptor or a [Stat]'s
    snapshot. *)
Inductive Foreign :=
| FInt (fd : Z)
| FStat (st : uv_stat_t).

(** A live heap block. [BHandle] is a [WrenValue*]: a handle keeping a VM
    value alive until it is released. [BRaw] is a [uv_fs_t] as [malloc]
    returns it, of which at most the [data] field has been written: its
    other fields are indeterminate until a [uv_fs_*] function initialises
    the request, which makes it a [BReq]. *)
Inductive Block :=
| BReq (q : uv_fs_t)
| BData (d : FileRequestData)
| BBuf (bs : list Z)
| BStream (s : uv_stream_t)
| BHandle (v : Value)
| BForeign (cls : Value) (f : Foreign)
| BRaw (data : option loc).

(** The completion callbacks the module registers with libuv. *)
Inductive Callback :=
| CbDirectoryList
| CbFileDelete
| CbFileOpen
| CbFileSize
| CbFileClose
| CbFileReadBytes
| CbRealPath
| CbStat
| CbFileWriteBytes.

(** Calls into libuv. [UvFsCloseSync] and [UvFsReqCleanupLocal] are the two
    calls [fileFinalize] makes on a request in automatic storage. *)
Inductive UvCall :=
| UvFsScandir (req : loc) (path : string) (flags : Z) (cb : Callback)
| UvFsUnlink (req : loc) (path : string) (cb : Callback)
| UvFsOpen (req : loc) (path : string) (flags mode : Z) (cb : Callback)
| UvFsStat (req : loc) (path : string) (cb : Callback)
| UvFsFstat (req : loc) (fd : Z) (cb : Callback)
| UvFsClose (req : loc) (fd : Z) (cb : Callback)
| UvFsCloseSync (fd : Z)
| UvFsRead (req : loc) (fd : Z) (buf : uv_buf_t) (offset : Z) (cb : Callback)
| UvFsWrite (req : loc) (fd : Z) (buf : uv_buf_t) (offset : Z) (cb : Callback)
| UvFsRealpath (req : loc) (path : string) (cb : Callback)
| UvFsScandirNext (req : loc)
| UvFsReqCleanup (req : loc)
| UvFsReqCleanupLocal
| UvClose (stream : loc)
| UvTtyInit (stream : loc) (fd : Z) (readable : bool)
| UvPipeInit (stream : loc) (ipc : bool)
| UvPipeOpen (stream : loc) (fd : Z)
| UvReadStart (stream : loc)
| UvReadStop (stream : loc).

(** The effects a computation has on its collaborators, in program order. *)
Inductive Event :=
| EvMalloc (l : loc)
| EvFree (l : loc)
| EvUv (c : UvCall)
| EvResume (fiber : loc) (hasArgument : bool)
| EvFinishResume
| EvResumeError (fiber : loc) (message : string)
| EvEnsureSlots (n : Z)
| EvSetSlot (slot : Z) (v : Value)
| EvInsertInList (listSlot index elementSlot : Z)
| EvForeignWrite (l : loc) (f : Foreign)
| EvMakeHandle (h : loc) (v : Value)
| EvReleaseValue (h : loc)
| EvCall (method : loc) (receiver argument : option Value).

(** The state the module runs in: the C heap with its allocation pointer,
    the VM's API slots, and the module's static variables. *)
Record World := mkWorld {
  heap : gmap loc Block;
  next : loc;
  slots : gmap Z Value;
  statClass : option loc;
  stdinClass : option loc;
  stdinOnData : option loc;
  stdinStream : option loc
}.

(** What makes a computation undefined behaviour in C, or impossible for
    the reactor. *)
Inductive Err :=
| ErrNull
| ErrDangling (l : loc)
| ErrBlock (l : loc)
| ErrSlot (slot : Z)
| ErrBounds
| ErrCast
| ErrFuel
| ErrReactor.

(** ** The monad *)

Inductive Res (A : Type) :=
| Ok (a : A) (w : World) (t : list Event)
| Fault (e : Err).

Arguments Ok {A} a w t.
Arguments Fault {A} e.

Definition M (A : Type) : Type := World -> Res A.

Definition ret {A} (a : A) : M A := fun w => Ok a w [].

Definition bind {A B} (c : M A) (k : A -> M B) : M B :=
  fun w =>
    match c w with
    | Ok a w1 t1 =>
        match k a w1 with
        | Ok b w2 t2 => Ok b w2 (t1 ++ t2)
        | Fault e => Fault e
        end
    | Fault e => Fault e
    end.

Notation "x <- c1 ;; c2" := (bind c1 (fun x => c2))
  (at level 100, c1 at next level, right associativity).
Notation "c1 ;; c2" := (bind c1 (fun _ => c2))
  (at level 100, right associativity).

Definition fault {A} (e : Err) : M A := fun _ => Fault e.

Definition emit (e : Event) : M unit := fun w => Ok tt w [e].

(** [(int)d] and [(size_t)d] for a double [d]: undefined when the value
    is outside the range of the type. *)
Definition castInt (d : Z) : M Z :=
  if (INT_MIN <=? d) && (d <=? INT_MAX) then ret d else fault ErrCast.

Definition castSize (d : Z) : M Z :=
  if (0 <=? d) && (d <=? SIZE_MAX) then ret d else fault ErrCast.

Definition setHeap (h : gmap loc Block) (w : World) : World :=
  mkWorld h (next w) (slots w) (statClass w) (stdinClass w) (stdinOnData w)
    (stdinStream w).

Definition setSlots (s : gmap Z Value) (w : World) : World :=
  mkWorld (heap w) (next w) s (statClass w) (stdinClass w) (stdinOnData w)
    (stdinStream w).

(** ** The C heap *)

(** Allocation: the block at the allocation pointer. *)
Definition alloc (b : Block) : M loc :=
  fun w =>
    Ok (next w)
       (mkWorld (<[next w := b]> (heap w)) (Pos.succ (next w)) (slots w)
          (statClass w) (stdinClass w) (stdinOnData w) (stdinStream w))
       [].

(** [malloc]. *)
Definition malloc (b : Block) : M loc :=
  l <- alloc b ;;
  emit (EvMalloc l) ;;
  ret l.

(** Reading through a pointer: undefined for a block that is not live. *)
Definition load (l : loc) : M Block :=
  fun w =>
    match heap w !! l with
    | Some b => Ok b w []
    | None => Fault (ErrDangling l)
    end.

(** Writing through a pointer to a live block. *)
Definition store (l : loc) (b : Block) : M unit :=
  fun w =>
    match heap w !! l with
    | Some _ => Ok tt (setHeap (<[l := b]> (heap w)) w) []
    | None => Fault (ErrDangling l)
    end.

(** [free]: undefined for a block that is not live. *)
Definition free (l : loc) : M unit :=
  fun w =>
    match heap w !! l with
    | Some _ => Ok tt (setHeap (delete l (heap w)) w) [EvFree l]
    | None => Fault (ErrDangling l)
    end.

(** [free] of a pointer that may be [NULL], for which it does nothing. *)
Definition freePtr (p : option loc) : M unit :=
  match p with
  | Some l => free l
  | None => ret tt
  end.

(** Dereferencing a pointer that may be [NULL]. *)
Definition deref (p : option loc) : M loc :=
  match p with
  | Some l => ret l
  | None => fault ErrNull
  end.

Definition loadReq (l : loc) : M uv_fs_t :=
  b <- load l ;;
  match b with
  | BReq q => ret q
  | _ => fault (ErrBlock l)
  end.

(** [request->data], which the module reads from a request it has just
    created as well as from a completed one. *)
Definition requestData (l : loc) : M (option loc) :=
  b <- load l ;;
  match b with
  | BReq q => ret (fs_data q)
  | BRaw d => ret d
  | _ => fault (ErrBlock l)
  end.

Definition loadData (l : loc) : M FileRequestData :=
  b <- load l ;;
  match b with
  | BData d => ret d
  | _ => fault (ErrBlock l)
  end.

Definition loadBuf (l : loc) : M (list Z) :=
  b <- load l ;;
  match b with
  | BBuf bs => ret bs
  | _ => fault (ErrBlock l)
  end.

Definition loadStream (l : loc) : M uv_stream_t :=
  b <- load l ;;
  match b with
  | BStream s => ret s
  | _ => fault (ErrBlock l)
  end.

Definition loadHandle (l : loc) : M Value :=
  b <- load l ;;
  match b with
  | BHandle v => ret v
  | _ => fault (ErrBlock l)
  end.

Definition loadForeign (l : loc) : M (Value * Foreign) :=
  b <- load l ;;
  match b with
  | BForeign cls f => ret (cls, f)
  | _ => fault (ErrBlock l)
  end.

(** ** The VM's slot API ([wren.h])

    The VM is a collaborator of the module; its slot functions are modelled
    by what they do to the slots and to the values they hand out. *)

Definition getSlot (slot : Z) : M Value :=
  fun w =>
    match slots w !! slot with
    | Some v => Ok v w []
    | None => Fault (ErrSlot slot)
    end.

Definition setSlot (slot : Z) (v : Value) : M unit :=
  fun w => Ok tt (setSlots (<[slot := v]> (slots w)) w) [EvSetSlot slot v].

Definition wrenEnsureSlots (numSlots : Z) : M unit :=
  emit (EvEnsureSlots numSlots).

Definition wrenGetSlotString (slot : Z) : M string :=
  v <- getSlot slot ;;
  match v with
  | VString s => ret s
  | _ => fault (ErrSlot slot)
  end.

Definition wrenGetSlotDouble (slot : Z) : M Z :=
  v <- getSlot slot ;;
  match v with
  | VNum n => ret n
  | _ => fault (ErrSlot slot)
  end.

Definition wrenGetSlotBytes (slot : Z) : M (list Z) :=
  v <- getSlot slot ;;
  match v with
  | VBytes bs => ret bs
  | _ => fault (ErrSlot slot)
  end.

Definition wrenGetSlotForeign (slot : Z) : M loc :=
  v <- getSlot slot ;;
  match v with
  | VForeign l => ret l
  | _ => fault (ErrSlot slot)
  end.

(** [wrenGetSlotValue] creates a new handle for the value in the slot. *)
Definition wrenGetSlotValue (slot : Z) : M loc :=
  v <- getSlot slot ;;
  h <- alloc (BHandle v) ;;
  emit (EvMakeHandle h v) ;;
  ret h.

Definition wrenMakeCallHandle (signature : string) : M loc :=
  h <- alloc (BHandle (VMethod signature)) ;;
  emit (EvMakeHandle h (VMethod signature)) ;;
  ret h.

Definition wrenReleaseValue (value : loc) : M unit :=
  loadHandle value ;;
  (fun w => Ok tt (setHeap (delete value (heap w)) w) [EvReleaseValue value]).

Definition wrenSetSlotBool (slot : Z) (b : bool) : M unit :=
  setSlot slot (VBool b).

Definition wrenSetSlotDouble (slot : Z) (n : Z) : M unit :=
  setSlot slot (VNum n).

Definition wrenSetSlotNull (slot : Z) : M unit :=
  setSlot slot VNull.

Definition wrenSetSlotString (slot : Z) (text : string) : M unit :=
  setSlot slot (VString text).

(** [wrenSetSlotBytes] copies [length] bytes starting at [bytes]; reading
    past the end of the block is undefined. *)
Definition wrenSetSlotBytes (slot : Z) (bytes : option loc) (length : Z)
  : M unit :=
  l <- deref bytes ;;
  bs <- loadBuf l ;;
  if (0 <=? length) && (length <=? Z.of_nat (List.length bs))
  then setSlot slot (VBytes (take (Z.to_nat length) bs))
  else fault ErrBounds.

Definition wrenSetSlotValue (slot : Z) (value : option loc) : M unit :=
  h <- deref value ;;
  v <- loadHandle h ;;
  setSlot slot v.

Definition wrenSetSlotNewList (slot : Z) : M unit :=
  setSlot slot (VList []).

(** [wrenInsertInList]: a negative index counts from the end, [-1] being
    the position after the last element. *)
Definition wrenInsertInList (listSlot index elementSlot : Z) : M unit :=
  lv <- getSlot listSlot ;;
  e <- getSlot elementSlot ;;
  match lv with
  | VList vs =>
      let count := Z.of_nat (List.length vs) in
      let i := if index <? 0 then count + 1 + index else index in
      if (0 <=? i) && (i <=? count)
      then
        (fun w =>
           Ok tt
              (setSlots
                 (<[listSlot :=
                      VList (take (Z.to_nat i) vs ++ e :: drop (Z.to_nat i) vs)]>
                    (slots w)) w)
              [EvInsertInList listSlot index elementSlot])
      else fault ErrBounds
  | _ => fault (ErrSlot listSlot)
  end.

Definition wrenGetVariable (module name : string) (slot : Z) : M unit :=
  setSlot slot (VClass module name).

(** [wrenSetSlotNewForeign] creates an instance of the class in
    [classSlot], stores it in [slot] and returns its payload's address. *)
Definition wrenSetSlotNewForeign (slot classSlot : Z) (init : Foreign)
  : M loc :=
  cls <- getSlot classSlot ;;
  l <- alloc (BForeign cls init) ;;
  setSlot slot (VForeign l) ;;
  ret l.

(** [wrenCall] runs the method behind the handle on the receiver in slot 0
    and the argument in slot 1. *)
Definition wrenCall (method : option loc) : M unit :=
  h <- deref method ;;
  loadHandle h ;;
  (fun w => Ok tt w [EvCall h (slots w !! 0) (slots w !! 1)]).

(** Reading and writing a foreign object's payload through its address. *)
Definition readForeign (l : loc) : M Foreign :=
  cf <- loadForeign l ;;
  ret (snd cf).

Definition writeForeign (l : loc) (f : Foreign) : M unit :=
  cf <- loadForeign l ;;
  store l (BForeign (fst cf) f) ;;
  emit (EvForeignWrite l f).

Definition readInt (l : loc) : M Z :=
  f <- readForeign l ;;
  match f with
  | FInt n => ret n
  | FStat _ => fault (ErrBlock l)
  end.

(** ** The scheduler ([scheduler.h]) *)

Definition schedulerResume (fiber : loc) (hasArgument : bool) : M unit :=
  emit (EvResume fiber hasArgument).

Definition schedulerFinishResume : M unit :=
  emit EvFinishResume.

Definition schedulerResumeError (fiber : loc) (error : string) : M unit :=
  emit (EvResumeError fiber error).

(** ** libuv ([uv.h]) *)

Definition setPtr (p : FsPtr) (q : uv_fs_t) : uv_fs_t :=
  mkReq (fs_result q) (fs_data q) (fs_statbuf q) p (fs_nbufs q).

Definition setNbufs (n : nat) (q : uv_fs_t) : uv_fs_t :=
  mkReq (fs_result q) (fs_data q) (fs_statbuf q) (fs_ptr q) n.

Definition setData (d : option loc) (q : uv_fs_t) : uv_fs_t :=
  mkReq (fs_result q) d (fs_statbuf q) (fs_ptr q) (fs_nbufs q).

(** [uv_fs_req_cleanup] releases what [ptr] points to. *)
Definition uv_fs_req_cleanup (req : loc) : M unit :=
  q <- loadReq req ;;
  store req (BReq (setPtr PNull q)) ;;
  emit (EvUv (UvFsReqCleanup req)).

(** [uv_fs_scandir_next]: the request's own status if it failed, [UV_EOF]
    once the cursor has passed the last entry, else [0] and the entry. *)
Definition uv_fs_scandir_next (req : loc) : M (Z * string) :=
  q <- loadReq req ;;
  emit (EvUv (UvFsScandirNext req)) ;;
  if fs_result q <? 0 then ret (fs_result q, EmptyString)
  else
    match fs_ptr q with
    | PDirents names =>
        match names !! fs_nbufs q with
        | Some name =>
            store req (BReq (setNbufs (S (fs_nbufs q)) q)) ;;
            ret (0, name)
        | None => ret (UV_EOF, EmptyString)
        end
    | _ => ret (UV_EOF, EmptyString)
    end.

Definition uv (c : UvCall) : M unit := emit (EvUv c).

(** What every asynchronous [uv_fs_*] function does to the request it is
    given before it queues the operation: it clears [result] and [ptr] and
    leaves [data], which is the caller's, alone. The stat buffer and the
    cursor, which libuv writes when the operation completes and which
    nothing reads before, are cleared here as well. *)
Definition uv_fs_init (req : loc) : M unit :=
  b <- load req ;;
  match b with
  | BRaw d => store req (BReq (mkReq 0 d zeroStat PNull 0))
  | BReq q => store req (BReq (mkReq 0 (fs_data q) zeroStat PNull 0))
  | _ => fault (ErrBlock req)
  end.

Definition uv_fs_scandir (req : loc) (path : string) (flags : Z)
    (cb : Callback) : M unit :=
  uv_fs_init req ;;
  uv (UvFsScandir req path flags cb).

Definition uv_fs_unlink (req : loc) (path : string) (cb : Callback) : M unit :=
  uv_fs_init req ;;
  uv (UvFsUnlink req path cb).

Definition uv_fs_open (req : loc) (path : string) (flags mode : Z)
    (cb : Callback) : M unit :=
  uv_fs_init req ;;
  uv (UvFsOpen req path flags mode cb).

Definition uv_fs_stat (req : loc) (path : string) (cb : Callback) : M unit :=
  uv_fs_init req ;;
  uv (UvFsStat req path cb).

Definition uv_fs_fstat (req : loc) (fd : Z) (cb : Callback) : M unit :=
  uv_fs_init req ;;
  uv (UvFsFstat req fd cb).

Definition uv_fs_close (req : loc) (fd : Z) (cb : Callback) : M unit :=
  uv_fs_init req ;;
  uv (UvFsClose req fd cb).

Definition uv_fs_read (req : loc) (fd : Z) (buf : uv_buf_t) (offset : Z)
    (cb : Callback) : M unit :=
  uv_fs_init req ;;
  uv (UvFsRead req fd buf offset cb).

Definition uv_fs_write (req : loc) (fd : Z) (buf : uv_buf_t) (offset : Z)
    (cb : Callback) : M unit :=
  uv_fs_init req ;;
  uv (UvFsWrite req fd buf offset cb).

Definition uv_fs_realpath (req : loc) (path : string) (cb : Callback)
  : M unit :=
  uv_fs_init req ;;
  uv (UvFsRealpath req path cb).

Definition setReading (b : bool) (s : uv_stream_t) : uv_stream_t :=
  mkStream (stream_kind s) b.

Definition uv_close (handle : loc) : M unit :=
  loadStream handle ;;
  uv (UvClose handle).

Definition uv_read_start (stream : option loc) : M unit :=
  l <- deref stream ;;
  s <- loadStream l ;;
  store l (BStream (setReading true s)) ;;
  uv (UvReadStart l).

Definition uv_read_stop (stream : option loc) : M unit :=
  l <- deref stream ;;
  s <- loadStream l ;;
  store l (BStream (setReading false s)) ;;
  uv (UvReadStop l).

(** ** The module ([src/module/io.c]) *)

Definition setStatClass (h : option loc) : M unit :=
  fun w =>
    Ok tt
       (mkWorld (heap w) (next w) (slots w) h (stdinClass w) (stdinOnData w)
          (stdinStream w)) [].

Definition setStdinClass (h : option loc) : M unit :=
  fun w =>
    Ok tt
       (mkWorld (heap w) (next w) (slots w) (statClass w) h (stdinOnData w)
          (stdinStream w)) [].

Definition setStdinOnData (h : option loc) : M unit :=
  fun w =>
    Ok tt
       (mkWorld (heap w) (next w) (slots w) (statClass w) (stdinClass w) h
          (stdinStream w)) [].

Definition setStdinStream (s : option loc) : M unit :=
  fun w =>
    Ok tt
       (mkWorld (heap w) (next w) (slots w) (statClass w) (stdinClass w)
          (stdinOnData w) s) [].

(** Reading one of the module's static variables. *)
Definition static {A} (f : World -> A) : M A := fun w => Ok (f w) w [].

Definition setBuffer (b : uv_buf_t) (d : FileRequestData) : FileRequestData :=
  mkData (fiber d) b.

(** Frees all resources related to stdin. *)
Definition shutdownStdin : M unit :=
  (s <- static stdinStream ;;
   match s with
   | Some l =>
       uv_close l ;;
       free l ;;
       setStdinStream None
   | None => ret tt
   end) ;;
  (c <- static stdinClass ;;
   match c with
   | Some h =>
       wrenReleaseValue h ;;
       setStdinClass None
   | None => ret tt
   end) ;;
  (m <- static stdinOnData ;;
   match m with
   | Some h =>
       wrenReleaseValue h ;;
       setStdinOnData None
   | None => ret tt
   end).

Definition ioShutdown : M unit :=
  shutdownStdin ;;
  c <- static statClass ;;
  match c with
  | Some h =>
      wrenReleaseValue h ;;
      setStatClass None
  | None => ret tt
  end.

Section Module.

Variable host : Platform.

(** If [request] failed with an error, sends the runtime error to the VM
    and frees the request. Returns true if an error was reported. *)
Definition handleRequestError (request : loc) : M bool :=
  q <- loadReq request ;;
  if fs_result q >=? 0 then ret false
  else
    d <- deref (fs_data q) ;;
    data <- loadData d ;;
    schedulerResumeError (fiber data) (uv_strerror host (fs_result q)) ;;
    free d ;;
    uv_fs_req_cleanup request ;;
    free request ;;
    ret true.

(** Allocates a new request that resumes [fiber] when it completes. Of the
    request only [data] is written, and of the [FileRequestData] only
    [fiber]; its buffer, which no operation but read and write ever looks
    at, and those two only after writing it, stands here as the null
    buffer. *)
Definition createRequest (fiber : loc) : M loc :=
  request <- malloc (BRaw None) ;;
  data <- malloc (BData (mkData fiber (mkBuf None 0))) ;;
  store request (BRaw (Some data)) ;;
  ret request.

(** [malloc] of a number of bytes the caller chose: [NULL] when the host
    cannot provide them. The block's contents are indeterminate; they stand
    here as zeros, and nothing reads them before they are written. The
    allocations of the module's own structures, which it never checks
    either, are taken to succeed. *)
Definition mallocBytes (length : Z) : M (option loc) :=
  if malloc_ok host length
  then
    l <- malloc (BBuf (replicate (Z.to_nat length) 0)) ;;
    ret (Some l)
  else ret None.

(** Releases resources used by [request]. Returns the fiber that should be
    resumed after [request] completes. *)
Definition freeRequest (request : loc) : M loc :=
  q <- loadReq request ;;
  d <- deref (fs_data q) ;;
  data <- loadData d ;;
  free d ;;
  uv_fs_req_cleanup request ;;
  free request ;;
  ret (fiber data).

(** The [while] loop of [directoryListCallback]; [fuel] bounds the number
    of iterations. *)
Fixpoint scanEntries (fuel : nat) (request : loc) : M unit :=
  match fuel with
  | O => fault ErrFuel
  | S fuel' =>
      r <- uv_fs_scandir_next request ;;
      if fst r =? UV_EOF then ret tt
      else
        wrenSetSlotString 1 (snd r) ;;
        wrenInsertInList 2 (-1) 1 ;;
        scanEntries fuel' request
  end.

Definition directoryListCallback (fuel : nat) (request : loc) : M unit :=
  handled <- handleRequestError request ;;
  if handled then ret tt
  else
    wrenEnsureSlots 3 ;;
    wrenSetSlotNewList 2 ;;
    scanEntries fuel request ;;
    f <- freeRequest request ;;
    schedulerResume f true ;;
    schedulerFinishResume.

Definition directoryList : M unit :=
  path <- wrenGetSlotString 1 ;;
  v <- wrenGetSlotValue 2 ;;
  request <- createRequest v ;;
  uv_fs_scandir request path 0 CbDirectoryList.

Definition fileAllocate : M unit :=
  fd <- wrenSetSlotNewForeign 0 0 (FInt 0) ;;
  d <- wrenGetSlotDouble 1 ;;
  n <- castInt d ;;
  writeForeign fd (FInt n).

Definition fileFinalize (data : loc) : M unit :=
  fd <- readInt data ;;
  if fd =? -1 then ret tt
  else
    uv (UvFsCloseSync fd) ;;
    uv UvFsReqCleanupLocal.

Definition fileDeleteCallback (request : loc) : M unit :=
  handled <- handleRequestError request ;;
  if handled then ret tt
  else
    f <- freeRequest request ;;
    schedulerResume f false.

Definition fileDelete : M unit :=
  path <- wrenGetSlotString 1 ;;
  v <- wrenGetSlotValue 2 ;;
  request <- createRequest v ;;
  uv_fs_unlink request path CbFileDelete.

Definition fileOpenCallback (request : loc) : M unit :=
  handled <- handleRequestError request ;;
  if handled then ret tt
  else
    q <- loadReq request ;;
    let fd := toDouble (fs_result q) in
    f <- freeRequest request ;;
    schedulerResume f true ;;
    wrenSetSlotDouble 2 fd ;;
    schedulerFinishResume.

(** The UNIX file flags have specified names but not values, so the module
    defines its own values and remaps them to the host's here. *)
Definition mapFileFlags (flags : Z) : Z :=
  let result := 0 in
  let result :=
    if truthy (Z.land flags 0x01) then Z.lor result (O_RDONLY host)
    else result in
  let result :=
    if truthy (Z.land flags 0x02) then Z.lor result (O_WRONLY host)
    else result in
  let result :=
    if truthy (Z.land flags 0x04) then Z.lor result (O_RDWR host)
    else result in
  let result :=
    if truthy (Z.land flags 0x08) then Z.lor result (O_SYNC host)
    else result in
  let result :=
    if truthy (Z.land flags 0x10) then Z.lor result (O_CREAT host)
    else result in
  let result :=
    if truthy (Z.land flags 0x20) then Z.lor result (O_TRUNC host)
    else result in
  let result :=
    if truthy (Z.land flags 0x40) then Z.lor result (O_EXCL host)
    else result in
  result.

Definition fileOpen : M unit :=
  path <- wrenGetSlotString 1 ;;
  d <- wrenGetSlotDouble 2 ;;
  flags <- castInt d ;;
  v <- wrenGetSlotValue 3 ;;
  request <- createRequest v ;;
  uv_fs_open request path (mapFileFlags flags)
    (Z.lor (S_IRUSR host) (S_IWUSR host)) CbFileOpen.

(** Called by libuv when the stat call for size completes. *)
Definition fileSizeCallback (request : loc) : M unit :=
  handled <- handleRequestError request ;;
  if handled then ret tt
  else
    q <- loadReq request ;;
    let size := toDouble (st_size (fs_statbuf q)) in
    f <- freeRequest request ;;
    schedulerResume f true ;;
    wrenSetSlotDouble 2 size ;;
    schedulerFinishResume.

Definition fileSizePath : M unit :=
  path <- wrenGetSlotString 1 ;;
  v <- wrenGetSlotValue 2 ;;
  request <- createRequest v ;;
  uv_fs_stat request path CbFileSize.

Definition fileCloseCallback (request : loc) : M unit :=
  handled <- handleRequestError request ;;
  if handled then ret tt
  else
    f <- freeRequest request ;;
    schedulerResume f false.

Definition fileClose : M unit :=
  foreign <- wrenGetSlotForeign 0 ;;
  fd <- readInt foreign ;;
  if fd =? -1 then wrenSetSlotBool 0 true
  else
    writeForeign foreign (FInt (-1)) ;;
    v <- wrenGetSlotValue 1 ;;
    request <- createRequest v ;;
    uv_fs_close request fd CbFileClose ;;
    wrenSetSlotBool 0 false.

Definition fileDescriptor : M unit :=
  foreign <- wrenGetSlotForeign 0 ;;
  fd <- readInt foreign ;;
  wrenSetSlotDouble 0 fd.

Definition fileReadBytesCallback (request : loc) : M unit :=
  handled <- handleRequestError request ;;
  if handled then ret tt
  else
    q <- loadReq request ;;
    d <- deref (fs_data q) ;;
    data <- loadData d ;;
    let buffer := buffer data in
    let count := fs_result q in
    f <- freeRequest request ;;
    schedulerResume f true ;;
    wrenSetSlotBytes 2 (buf_base buffer) count ;;
    schedulerFinishResume ;;
    freePtr (buf_base buffer).

Definition fileReadBytes : M unit :=
  v <- wrenGetSlotValue 3 ;;
  request <- createRequest v ;;
  foreign <- wrenGetSlotForeign 0 ;;
  fd <- readInt foreign ;;
  p <- requestData request ;;
  d <- deref p ;;
  n <- wrenGetSlotDouble 1 ;;
  length <- castSize n ;;
  n <- wrenGetSlotDouble 2 ;;
  offset <- castSize n ;;
  data <- loadData d ;;
  store d (BData (setBuffer (mkBuf (buf_base (buffer data)) length) data)) ;;
  base <- mallocBytes length ;;
  data <- loadData d ;;
  store d (BData (setBuffer (mkBuf base (buf_len (buffer data))) data)) ;;
  data <- loadData d ;;
  uv_fs_read request fd (buffer data) (toInt64 offset) CbFileReadBytes.

Definition realPathCallback (request : loc) : M unit :=
  handled <- handleRequestError request ;;
  if handled then ret tt
  else
    wrenEnsureSlots 3 ;;
    q <- loadReq request ;;
    match fs_ptr q with
    | PPath s =>
        wrenSetSlotString 2 s ;;
        f <- freeRequest request ;;
        schedulerResume f true ;;
        schedulerFinishResume
    | _ => fault ErrNull
    end.

Definition fileRealPath : M unit :=
  path <- wrenGetSlotString 1 ;;
  v <- wrenGetSlotValue 2 ;;
  request <- createRequest v ;;
  uv_fs_realpath request path CbRealPath.

(** Called by libuv when the stat call completes. *)
Definition statCallback (request : loc) : M unit :=
  handled <- handleRequestError request ;;
  if handled then ret tt
  else
    wrenEnsureSlots 3 ;;
    c <- static statClass ;;
    match c with
    | None =>
        wrenGetVariable "io" "Stat" 0 ;;
        h <- wrenGetSlotValue 0 ;;
        setStatClass (Some h)
    | Some _ => ret tt
    end ;;
    c <- static statClass ;;
    wrenSetSlotValue 2 c ;;
    wrenSetSlotNewForeign 2 2 (FStat zeroStat) ;;
    data <- wrenGetSlotForeign 2 ;;
    q <- loadReq request ;;
    writeForeign data (FStat (fs_statbuf q)) ;;
    f <- freeRequest request ;;
    schedulerResume f true ;;
    schedulerFinishResume.

Definition fileStat : M unit :=
  foreign <- wrenGetSlotForeign 0 ;;
  fd <- readInt foreign ;;
  v <- wrenGetSlotValue 1 ;;
  request <- createRequest v ;;
  uv_fs_fstat request fd CbStat.

Definition fileSize : M unit :=
  foreign <- wrenGetSlotForeign 0 ;;
  fd <- readInt foreign ;;
  v <- wrenGetSlotValue 1 ;;
  request <- createRequest v ;;
  uv_fs_fstat request fd CbFileSize.

Definition fileWriteBytesCallback (request : loc) : M unit :=
  handled <- handleRequestError request ;;
  if handled then ret tt
  else
    q <- loadReq request ;;
    d <- deref (fs_data q) ;;
    data <- loadData d ;;
    freePtr (buf_base (buffer data)) ;;
    f <- freeRequest request ;;
    schedulerResume f false.

Definition fileWriteBytes : M unit :=
  foreign <- wrenGetSlotForeign 0 ;;
  fd <- readInt foreign ;;
  bytes <- wrenGetSlotBytes 1 ;;
  let length := Z.of_nat (List.length bytes) in
  n <- wrenGetSlotDouble 2 ;;
  offset <- castSize n ;;
  v <- wrenGetSlotValue 3 ;;
  request <- createRequest v ;;
  p <- requestData request ;;
  d <- deref p ;;
  data <- loadData d ;;
  store d (BData (setBuffer (mkBuf (buf_base (buffer data)) length) data)) ;;
  base <- mallocBytes length ;;
  data <- loadData d ;;
  store d (BData (setBuffer (mkBuf base (buf_len (buffer data))) data)) ;;
  data <- loadData d ;;
  b <- deref (buf_base (buffer data)) ;;
  store b (BBuf bytes) ;;
  data <- loadData d ;;
  uv_fs_write request fd (buffer data) (toInt64 offset) CbFileWriteBytes.

Definition statPath : M unit :=
  path <- wrenGetSlotString 1 ;;
  v <- wrenGetSlotValue 2 ;;
  request <- createRequest v ;;
  uv_fs_stat request path CbStat.

Definition allocCallback (suggestedSize : Z) : M uv_buf_t :=
  base <- malloc (BBuf (replicate (Z.to_nat suggestedSize) 0)) ;;
  ret (mkBuf (Some base) suggestedSize).

Definition stdinReadCallback (stream : loc) (numRead : Z) (buffer : uv_buf_t)
  : M unit :=
  c <- static stdinClass ;;
  match c with
  | None =>
      wrenEnsureSlots 1 ;;
      wrenGetVariable "io" "Stdin" 0 ;;
      h <- wrenGetSlotValue 0 ;;
      setStdinClass (Some h)
  | Some _ => ret tt
  end ;;
  m <- static stdinOnData ;;
  match m with
  | None =>
      h <- wrenMakeCallHandle "onData_(_)" ;;
      setStdinOnData (Some h)
  | Some _ => ret tt
  end ;;
  if numRead =? UV_EOF then
    wrenEnsureSlots 2 ;;
    c <- static stdinClass ;;
    wrenSetSlotValue 0 c ;;
    wrenSetSlotNull 1 ;;
    m <- static stdinOnData ;;
    wrenCall m ;;
    shutdownStdin
  else
    wrenEnsureSlots 2 ;;
    c <- static stdinClass ;;
    wrenSetSlotValue 0 c ;;
    wrenSetSlotBytes 1 (buf_base buffer) numRead ;;
    m <- static stdinOnData ;;
    wrenCall m ;;
    freePtr (buf_base buffer).

Definition stdinReadStart : M unit :=
  s <- static stdinStream ;;
  match s with
  | None =>
      match uv_guess_handle host stdinDescriptor with
      | UV_TTY =>
          handle <- malloc (BStream (mkStream TTY false)) ;;
          uv (UvTtyInit handle stdinDescriptor true) ;;
          setStdinStream (Some handle)
      | _ =>
          handle <- malloc (BStream (mkStream Pipe false)) ;;
          uv (UvPipeInit handle false) ;;
          uv (UvPipeOpen handle stdinDescriptor) ;;
          setStdinStream (Some handle)
      end
  | Some _ => ret tt
  end ;;
  s <- static stdinStream ;;
  uv_read_start s.

Definition stdinReadStop : M unit :=
  s <- static stdinStream ;;
  uv_read_stop s.

(** Dispatch of a completion to the callback registered for it. *)
Definition invoke (fuel : nat) (cb : Callback) (request : loc) : M unit :=
  match cb with
  | CbDirectoryList => directoryListCallback fuel request
  | CbFileDelete => fileDeleteCallback request
  | CbFileOpen => fileOpenCallback request
  | CbFileSize => fileSizeCallback request
  | CbFileClose => fileCloseCallback request
  | CbFileReadBytes => fileReadBytesCallback request
  | CbRealPath => realPathCallback request
  | CbStat => statCallback request
  | CbFileWriteBytes => fileWriteBytesCallback request
  end.

End Module.

(** ** The reactor's side of stdin

    libuv calls [allocCallback] and then [stdinReadCallback], and only for
    a stream on which reading has been started and not stopped. *)

Inductive StdinOp :=
| OpReadStart
| OpReadStop
| OpData (suggestedSize : Z) (bytes : list Z)
| OpEof (suggestedSize : Z)
| OpIoShutdown.

(** The stream the reactor is reading from, if it is reading. *)
Definition readingStream : M loc :=
  fun w =>
    match stdinStream w with
    | Some l =>
        match heap w !! l with
        | Some (BStream s) =>
            if stream_reading s then Ok l w [] else Fault ErrReactor
        | _ => Fault ErrReactor
        end
    | None => Fault ErrReactor
    end.

Section Reactor.

Variable host : Platform.

(** One delivery: the reactor obtains a buffer, fills its first bytes and
    calls the read callback with the count (or status) [numRead]. *)
Definition deliver (suggestedSize numRead : Z) (bytes : list Z) : M unit :=
  stream <- readingStream ;;
  buf <- allocCallback suggestedSize ;;
  base <- deref (buf_base buf) ;;
  old <- loadBuf base ;;
  store base (BBuf (bytes ++ drop (List.length bytes) old)) ;;
  stdinReadCallback stream numRead buf.

Definition stepStdin (op : StdinOp) : M unit :=
  match op with
  | OpReadStart => stdinReadStart host
  | OpReadStop => stdinReadStop
  | OpData suggestedSize bytes =>
      if Z.of_nat (List.length bytes) <=? suggestedSize
      then deliver suggestedSize (Z.of_nat (List.length bytes)) bytes
      else fault ErrReactor
  | OpEof suggestedSize => deliver suggestedSize UV_EOF []
  | OpIoShutdown => ioShutdown
  end.

Fixpoint runStdin (ops : list StdinOp) : M unit :=
  match ops with
  | [] => ret tt
  | op :: rest => stepStdin op ;; runStdin rest
  end.

End Reactor.

(** The state of a process that has not used the module yet. *)
Definition initialWorld : World :=
  mkWorld ∅ 1%positive ∅ None None None None.

(** ** Observing a trace *)

(** The fiber an event resumes, on either path. *)
Definition resumed (e : Event) : option loc :=
  match e with
  | EvResume f _ => Some f
  | EvResumeError f _ => Some f
  | _ => None
  end.

Definition isValueResume (e : Event) : bool :=
  match e with
  | EvResume _ _ => true
  | _ => false
  end.

Definition isErrorResume (e : Event) : bool :=
  match e with
  | EvResumeError _ _ => true
  | _ => false
  end.

Definition isFinish (e : Event) : bool :=
  match e with
  | EvFinishResume => true
  | _ => false
  end.

Definition isUvCall (e : Event) : bool :=
  match e with
  | EvUv _ => true
  | _ => false
  end.

Definition isHandlerCall (e : Event) : bool :=
  match e with
  | EvCall _ _ _ => true
  | _ => false
  end.

(** A call of the data handler with the null payload. *)
Definition isEofDelivery (e : Event) : bool :=
  match e with
  | EvCall _ _ (Some VNull) => true
  | _ => false
  end.

Definition isStreamClose (e : Event) : bool :=
  match e with
  | EvUv (UvClose _) => true
  | _ => false
  end.

Definition isRelease (e : Event) : bool :=
  match e with
  | EvReleaseValue _ => true
  | _ => false
  end.

Definition count (p : Event -> bool) (t : list Event) : nat :=
  List.length (List.filter p t).

(** [a] occurs in [t] strictly before a later occurrence of [b]. *)
Definition precedes (a b : Event) (t : list Event) : Prop :=
  exists t1 t2 t3, t = t1 ++ a :: t2 ++ b :: t3.

(** ** What the reactor guarantees at a completion *)

(** Every live block lies below the allocation pointer. *)
Definition heapWf (w : World) : Prop :=
  forall l, (next w <= l)%positive -> heap w !! l = None.

(** Request [r] is in flight: it and its [FileRequestData] are live. *)
Record Pending (w : World) (r : loc) (q : uv_fs_t) (d : loc)
    (data : FileRequestData) : Prop := mkPending {
  pending_wf : heapWf w;
  pending_req : heap w !! r = Some (BReq q);
  pending_ptr : fs_data q = Some d;
  pending_data : heap w !! d = Some (BData data)
}.

(** The entries [uv_fs_scandir_next] has yet to report. *)
Definition entriesOf (q : uv_fs_t) : list string :=
  match fs_ptr q with
  | PDirents names => drop (fs_nbufs q) names
  | _ => []
  end.

(** What a successful completion of each kind carries. *)
Definition Payload (fuel : nat) (cb : Callback) (w : World) (q : uv_fs_t)
    (data : FileRequestData) : Prop :=
  match cb with
  | CbDirectoryList => (List.length (entriesOf q) < fuel)%nat
  | CbFileReadBytes =>
      exists b bs,
        buf_base (buffer data) = Some b /\
        heap w !! b = Some (BBuf bs) /\
        fs_result q <= Z.of_nat (List.length bs)
  | CbFileWriteBytes =>
      exists b bs,
        buf_base (buffer data) = Some b /\ heap w !! b = Some (BBuf bs)
  | CbRealPath => exists s, fs_ptr q = PPath s
  | CbStat =>
      forall h, statClass w = Some h -> exists v, heap w !! h = Some (BHandle v)
  | _ => True
  end.

(** The reactor writing a completion into a request. *)
Definition complete (r : loc) (result : Z) (st : uv_stat_t) (p : FsPtr)
  : M unit :=
  q <- loadReq r ;;
  store r (BReq (mkReq result (fs_data q) st p 0)).

(** The reactor completing a read: it has written the bytes it read at the
    start of the buffer the request was issued with, and reports how many
    they are; they are no more than the buffer's length. *)
Definition completeRead (r : loc) (bytes : list Z) : M unit :=
  q <- loadReq r ;;
  d <- deref (fs_data q) ;;
  data <- loadData d ;;
  b <- deref (buf_base (buffer data)) ;;
  old <- loadBuf b ;;
  if Z.of_nat (List.length bytes) <=? buf_len (buffer data)
  then
    store b (BBuf (bytes ++ drop (List.length bytes) old)) ;;
    complete r (Z.of_nat (List.length bytes)) zeroStat PNull
  else fault ErrReactor.

(** A concrete host: Linux on x86-64. *)
Definition linux : Platform :=
  mkPlatform 0 1 2 1052672 64 512 128 256 128
    (fun code =>
       if code =? -2 then "no such file or directory"
       else if code =? -13 then "permission denied"
       else if code =? -17 then "file already exists"
       else "unknown error")
    (fun _ => UV_NAMED_PIPE)
    (fun n => n <=? 4294967296).

(** The events one iteration of the directory loop adds for entry [name]. *)
Definition entryEvents (r : loc) (name : string) : list Event :=
  [EvUv (UvFsScandirNext r); EvSetSlot 1 (VString name);
   EvInsertInList 2 (-1) 1].

(** The events that free a Request Record. *)
Definition freeEvents (r d : loc) : list Event :=
  [EvFree d; EvUv (UvFsReqCleanup r); EvFree r].

(** The second argument each callback passes to [schedulerResume]. *)
Definition hasArgument (cb : Callback) : bool :=
  match cb with
  | CbFileDelete | CbFileClose | CbFileWriteBytes => false
  | _ => true
  end.

(** An event that neither resumes a fiber nor finishes a resumption. *)
Definition quiet (e : Event) : Prop :=
  resumed e = None /\ isFinish e = false.

(** What surrounds the freeing of the record and the resumption in the
    trace of a successful callback: [pre] before the record is freed,
    [post] after [schedulerResume]. *)
Definition Shape (cb : Callback) (data : FileRequestData)
    (pre post : list Event) : Prop :=
  match cb with
  | CbFileOpen | CbFileSize =>
      pre = [] /\ exists v, post = [EvSetSlot 2 v; EvFinishResume]
  | CbFileReadBytes =>
      pre = [] /\
      exists v b,
        buf_base (buffer data) = Some b /\
        post = [EvSetSlot 2 v; EvFinishResume; EvFree b]
  | CbRealPath | CbStat | CbDirectoryList =>
      post = [EvFinishResume] /\ exists v, In (EvSetSlot 2 v) pre
  | CbFileWriteBytes =>
      post = [] /\
      exists b, buf_base (buffer data) = Some b /\ pre = [EvFree b]
  | CbFileDelete | CbFileClose => pre = [] /\ post = []
  end.

(** A world with one request in flight, with the heap [fileReadBytes]
    leaves when called on a fresh [File]: block 1 is the file's foreign
    payload, block 2 the handle of the waiting fiber, block 3 the request,
    block 4 its [FileRequestData] and block 5 the buffer it owns; the
    reactor has filled in the result, the stat buffer, [ptr] and the
    buffer. *)
Definition sampleWorld (result : Z) (st : uv_stat_t) (p : FsPtr)
    (bs : list Z) : World :=
  mkWorld
    (<[5%positive := BBuf bs]>
       (<[4%positive :=
            BData (mkData 2 (mkBuf (Some 5%positive) (Z.of_nat (List.length bs))))]>
          (<[3%positive := BReq (mkReq result (Some 4%positive) st p 0)]>
             (<[2%positive := BHandle (VFiber 0)]>
                (<[1%positive := BForeign (VClass "io" "File") (FInt 3)]> ∅)))))
    6 ∅ None None None None.

(** The world in which a fiber calls [fileReadBytes] on that file, asking
    for 4 bytes at offset 0. *)
Definition readArgsWorld : World :=
  mkWorld
    (<[1%positive := BForeign (VClass "io" "File") (FInt 3)]> ∅) 2
    (<[3 := VFiber 0]>
       (<[2 := VNum 0]> (<[1 := VNum 4]> (<[0 := VForeign 1]> ∅))))
    None None None None.

(** The flag mapper as its interface describes it: bit [i] of the portable
    bitset selects the [i]-th native flag, and the selected flags are or-ed
    together. Compared with [mapFileFlags]. *)
Definition nativeFlag (host : Platform) (i : Z) : Z :=
  match i with
  | 0 => O_RDONLY host
  | 1 => O_WRONLY host
  | 2 => O_RDWR host
  | 3 => O_SYNC host
  | 4 => O_CREAT host
  | 5 => O_TRUNC host
  | 6 => O_EXCL host
  | _ => 0
  end.

Definition mapFlagsByBit (host : Platform) (flags : Z) : Z :=
  foldr Z.lor 0
    ((fun i => if Z.testbit flags i then nativeFlag host i else 0)
       <$> [0; 1; 2; 3; 4; 5; 6]).

(** A world with one [File] object: block 1 is its foreign payload, slot 0
    holds the object and slot 1 the fiber that waits for the close. *)
Definition fileWorld (fd : Z) : World :=
  mkWorld
    (<[1%positive := BForeign (VClass "io" "File") (FInt fd)]> ∅)
    2 (<[1 := VFiber 0]> (<[0 := VForeign 1]> ∅)) None None None None.

(** ** Runs of the stdin subsystem *)

Definition hasStream (w : World) : bool :=
  match stdinStream w with
  | Some _ => true
  | None => false
  end.

(** Whether [stdinReadStart] has run since the last shutdown, after [ops];
    [started] says so for the state the run starts from. The shutdowns are
    the one the read callback performs at end-of-stream and [ioShutdown]. *)
Fixpoint startedSinceShutdown (started : bool) (ops : list StdinOp) : bool :=
  match ops with
  | [] => started
  | OpReadStart :: rest => startedSinceShutdown true rest
  | OpEof _ :: rest => startedSinceShutdown false rest
  | OpIoShutdown :: rest => startedSinceShutdown false rest
  | _ :: rest => startedSinceShutdown started rest
  end.

Definition isReadStart (op : StdinOp) : bool :=
  match op with
  | OpReadStart => true
  | _ => false
  end.

(** What [shutdownStdin] does to a stream and to a handle, if there is one. *)
Definition closeEvents (s : option loc) : list Event :=
  match s with
  | Some l => [EvUv (UvClose l); EvFree l]
  | None => []
  end.

Definition releaseEvents (h : option loc) : list Event :=
  match h with
  | Some l => [EvReleaseValue l]
  | None => []
  end.

Definition deleteOpt (p : option loc) (h : gmap loc Block) : gmap loc Block :=
  match p with
  | Some l => delete l h
  | None => h
  end.

(** The module's static variables point to live blocks of the right kind,
    and to different handles. *)
Record StdinInv (w : World) : Prop := mkStdinInv {
  inv_wf : heapWf w;
  inv_stream :
    forall l, stdinStream w = Some l ->
              exists s, heap w !! l = Some (BStream s);
  inv_class :
    forall h, stdinClass w = Some h ->
              exists v, heap w !! h = Some (BHandle v);
  inv_onData :
    forall h, stdinOnData w = Some h ->
              exists v, heap w !! h = Some (BHandle v);
  inv_stat :
    forall h, statClass w = Some h ->
              exists v, heap w !! h = Some (BHandle v);
  inv_class_onData :
    forall h, stdinClass w = Some h -> stdinOnData w <> Some h;
  inv_stat_class :
    forall h, statClass w = Some h -> stdinClass w <> Some h;
  inv_stat_onData :
    forall h, statClass w = Some h -> stdinOnData w <> Some h
}.

(** An event that is neither a call of the data handler nor part of the
    teardown of the stdin subsystem. *)
Definition calm (e : Event) : Prop :=
  isHandlerCall e = false /\ isStreamClose e = false /\ isRelease e = false.

(** The world after the first [stdinReadStart] of a process whose stdin is
    a pipe: block 1 is the stream, and it is reading. *)
Definition readingWorld : World :=
  mkWorld (<[1%positive := BStream (mkStream Pipe true)]> ∅) 2 ∅
    None None None (Some 1%positive).

(** ** Issuing an operation *)

(** The entry points that issue an asynchronous operation. *)
Inductive EntryPoint :=
| EpDirectoryList
| EpFileDelete
| EpFileOpen
| EpFileSizePath
| EpFileClose
| EpFileReadBytes
| EpFileRealPath
| EpFileStat
| EpFileSize
| EpFileWriteBytes
| EpStatPath.

Definition issue (host : Platform) (ep : EntryPoint) : M unit :=
  match ep with
  | EpDirectoryList => directoryList
  | EpFileDelete => fileDelete
  | EpFileOpen => fileOpen host
  | EpFileSizePath => fileSizePath
  | EpFileClose => fileClose
  | EpFileReadBytes => fileReadBytes host
  | EpFileRealPath => fileRealPath
  | EpFileStat => fileStat
  | EpFileSize => fileSize
  | EpFileWriteBytes => fileWriteBytes host
  | EpStatPath => statPath
  end.

(** The callback each entry point hands to libuv. *)
Definition callbackOf (ep : EntryPoint) : Callback :=
  match ep with
  | EpDirectoryList => CbDirectoryList
  | EpFileDelete => CbFileDelete
  | EpFileOpen => CbFileOpen
  | EpFileSizePath | EpFileSize => CbFileSize
  | EpFileClose => CbFileClose
  | EpFileReadBytes => CbFileReadBytes
  | EpFileRealPath => CbRealPath
  | EpFileStat | EpStatPath => CbStat
  | EpFileWriteBytes => CbFileWriteBytes
  end.

(** The request and the callback an asynchronous libuv call registers. *)
Definition requestOf (c : UvCall) : option (loc * Callback) :=
  match c with
  | UvFsScandir r _ _ cb | UvFsUnlink r _ cb | UvFsOpen r _ _ _ cb
  | UvFsStat r _ cb | UvFsFstat r _ cb | UvFsClose r _ cb
  | UvFsRead r _ _ _ cb | UvFsWrite r _ _ _ cb | UvFsRealpath r _ cb =>
      Some (r, cb)
  | _ => None
  end.

Definition uvCall (e : Event) : option UvCall :=
  match e with
  | EvUv c => Some c
  | _ => None
  end.

(** The arguments each entry point expects in the slots; for the entry
    points of a [File], slot 0 holds the object and its descriptor is not
    the closed sentinel when it is closed. The numbers are within the
    range of the type the entry point converts them to, and the host can
    provide the buffer a read or a write asks for. *)
Definition Args (host : Platform) (ep : EntryPoint) (w : World) : Prop :=
  match ep with
  | EpDirectoryList | EpFileDelete | EpFileSizePath | EpFileRealPath
  | EpStatPath =>
      exists path v,
        slots w !! 1 = Some (VString path) /\ slots w !! 2 = Some v
  | EpFileOpen =>
      exists path flags v,
        slots w !! 1 = Some (VString path) /\
        slots w !! 2 = Some (VNum flags) /\ slots w !! 3 = Some v /\
        INT_MIN <= flags <= INT_MAX
  | EpFileClose =>
      exists l cls fd v,
        slots w !! 0 = Some (VForeign l) /\
        heap w !! l = Some (BForeign cls (FInt fd)) /\ fd <> -1 /\
        slots w !! 1 = Some v
  | EpFileStat | EpFileSize =>
      exists l cls fd v,
        slots w !! 0 = Some (VForeign l) /\
        heap w !! l = Some (BForeign cls (FInt fd)) /\
        slots w !! 1 = Some v
  | EpFileReadBytes =>
      exists l cls fd len off v,
        slots w !! 0 = Some (VForeign l) /\
        heap w !! l = Some (BForeign cls (FInt fd)) /\
        slots w !! 1 = Some (VNum len) /\ slots w !! 2 = Some (VNum off) /\
        slots w !! 3 = Some v /\
        0 <= len <= SIZE_MAX /\ 0 <= off <= SIZE_MAX /\
        malloc_ok host len = true
  | EpFileWriteBytes =>
      exists l cls fd bs off v,
        slots w !! 0 = Some (VForeign l) /\
        heap w !! l = Some (BForeign cls (FInt fd)) /\
        slots w !! 1 = Some (VBytes bs) /\ slots w !! 2 = Some (VNum off) /\
        slots w !! 3 = Some v /\
        0 <= off <= SIZE_MAX /\
        malloc_ok host (Z.of_nat (List.length bs)) = true
  end.

(** The slot in which each operation is passed the fiber that waits for
    it: as the operations' signatures have it, the last argument, slot 0
    being the receiver. Compared with the slot each entry point takes the
    fiber from. *)
Definition fiberSlot (ep : EntryPoint) : Z :=
  match ep with
  | EpFileClose | EpFileStat | EpFileSize => 1
  | EpDirectoryList | EpFileDelete | EpFileSizePath | EpFileRealPath
  | EpStatPath => 2
  | EpFileOpen | EpFileReadBytes | EpFileWriteBytes => 3
  end.

(** The handles the stdin subsystem caches, when it has them, are those of
    the [Stdin] class and of its [onData_(_)] method. *)
Record StdinHandles (w : World) : Prop := mkStdinHandles {
  handles_class :
    forall c, stdinClass w = Some c ->
              heap w !! c = Some (BHandle (VClass "io" "Stdin"));
  handles_onData :
    forall m, stdinOnData w = Some m ->
              heap w !! m = Some (BHandle (VMethod "onData_(_)"))
}.

(** ** The [Stat] accessors *)

(** The file-type bits of [st_mode] ([sys/stat.h]); like the open flags
    they are the host's, and taken as parameters. *)
Record ModeBits := mkModeBits {
  S_IFMT : Z;
  S_IFDIR : Z;
  S_IFREG : Z
}.

(** [#define S_ISREG(m) (((m) & S_IFMT) == S_IFREG)], and likewise for
    directories. *)
Definition S_ISREG (mb : ModeBits) (m : Z) : bool :=
  Z.land m (S_IFMT mb) =? S_IFREG mb.

Definition S_ISDIR (mb : ModeBits) (m : Z) : bool :=
  Z.land m (S_IFMT mb) =? S_IFDIR mb.

(** Reading a [uv_stat_t] through the payload address of a foreign object. *)
Definition readStat (l : loc) : M uv_stat_t :=
  f <- readForeign l ;;
  match f with
  | FStat st => ret st
  | FInt _ => fault (ErrBlock l)
  end.

Definition statBlockCount : M unit :=
  stat <- wrenGetSlotForeign 0 ;;
  st <- readStat stat ;;
  wrenSetSlotDouble 0 (toDouble (st_blocks st)).

Definition statBlockSize : M unit :=
  stat <- wrenGetSlotForeign 0 ;;
  st <- readStat stat ;;
  wrenSetSlotDouble 0 (toDouble (st_blksize st)).

Definition statDevice : M unit :=
  stat <- wrenGetSlotForeign 0 ;;
  st <- readStat stat ;;
  wrenSetSlotDouble 0 (toDouble (st_dev st)).

Definition statGroup : M unit :=
  stat <- wrenGetSlotForeign 0 ;;
  st <- readStat stat ;;
  wrenSetSlotDouble 0 (toDouble (st_gid st)).

Definition statInode : M unit :=
  stat <- wrenGetSlotForeign 0 ;;
  st <- readStat stat ;;
  wrenSetSlotDouble 0 (toDouble (st_ino st)).

Definition statLinkCount : M unit :=
  stat <- wrenGetSlotForeign 0 ;;
  st <- readStat stat ;;
  wrenSetSlotDouble 0 (toDouble (st_nlink st)).

Definition statMode : M unit :=
  stat <- wrenGetSlotForeign 0 ;;
  st <- readStat stat ;;
  wrenSetSlotDouble 0 (toDouble (st_mode st)).

Definition statSize : M unit :=
  stat <- wrenGetSlotForeign 0 ;;
  st <- readStat stat ;;
  wrenSetSlotDouble 0 (toDouble (st_size st)).

Definition statSpecialDevice : M unit :=
  stat <- wrenGetSlotForeign 0 ;;
  st <- readStat stat ;;
  wrenSetSlotDouble 0 (toDouble (st_rdev st)).

Definition statUser : M unit :=
  stat <- wrenGetSlotForeign 0 ;;
  st <- readStat stat ;;
  wrenSetSlotDouble 0 (toDouble (st_uid st)).

Definition statIsDirectory (mb : ModeBits) : M unit :=
  stat <- wrenGetSlotForeign 0 ;;
  st <- readStat stat ;;
  wrenSetSlotBool 0 (S_ISDIR mb (st_mode st)).

Definition statIsFile (mb : ModeBits) : M unit :=
  stat <- wrenGetSlotForeign 0 ;;
  st <- readStat stat ;;
  wrenSetSlotBool 0 (S_ISREG mb (st_mode st)).

(** The numeric accessors, each with the field of [uv_stat_t] it reads. *)
Definition statAccessors : list (M unit * (uv_stat_t -> Z)) :=
  [(statBlockCount, st_blocks); (statBlockSize, st_blksize);
   (statDevice, st_dev); (statGroup, st_gid); (statInode, st_ino);
   (statLinkCount, st_nlink); (statMode, st_mode); (statSize, st_size);
   (statSpecialDevice, st_rdev); (statUser, st_uid)].

(** The file-type bits on Linux. *)
Definition linuxModes : ModeBits := mkModeBits 61440 16384 32768.

(** The VM placing a value in slot 0 (the receiver) before it calls a
    foreign method. *)
Definition withReceiver (v : Value) (w : World) : World :=
  setSlots (<[0 := v]> (slots w)) w.

(** Every stream in the heap is the one [stdinStream] points to. *)
Definition OneStream (w : World) : Prop :=
  forall l s, heap w !! l = Some (BStream s) -> stdinStream w = Some l.

Definition isMakeHandle (e : Event) : bool :=
  match e with
  | EvMakeHandle _ _ => true
  | _ => false
  end.

Definition isSetSlot (e : Event) : bool :=
  match e with
  | EvSetSlot _ _ => true
  | EvInsertInList _ _ _ => true
  | _ => false
  end.

Definition isMalloc (e : Event) : bool :=
  match e with
  | EvMalloc _ => true
  | _ => false
  end.

(** The world in which the VM constructs a [File] for descriptor 7: the
    class is in slot 0 and the descriptor in slot 1. *)
Definition allocArgsWorld : World :=
  mkWorld ∅ 1 (<[1 := VNum 7]> (<[0 := VClass "io" "File"]> ∅))
    None None None None.

(** The world in which a fiber calls [fileWriteBytes] on the file of
    [readArgsWorld], to write two bytes at offset 0. *)
Definition writeArgsWorld : World :=
  mkWorld (heap readArgsWorld) 2
    (<[1 := VBytes [104; 105]]> (slots readArgsWorld)) None None None None.

(** The world in which fiber 7 asks for the entries of [/tmp]: the path is
    in slot 1 and the fiber in slot 2. *)
Definition listArgsWorld : World :=
  mkWorld ∅ 1 (<[2 := VFiber 7]> (<[1 := VString "/tmp"]> ∅))
    None None None None.

(** The world in which fiber 7 asks for [a.txt] to be deleted: the path is
    in slot 1 and the fiber in slot 2. *)
Definition deleteArgsWorld : World :=
  mkWorld ∅ 1 (<[2 := VFiber 7]> (<[1 := VString "a.txt"]> ∅))
    None None None None.

(** The snapshot of a regular file of five bytes (mode [0100644]), and a
    world in which a [Stat] object holding it is the receiver. *)
Definition sampleStat : uv_stat_t :=
  mkStat 2049 33188 1 1000 1000 0 42 5 4096 8.

Definition statWorld : World :=
  mkWorld
    (<[1%positive := BForeign (VClass "io" "Stat") (FStat sampleStat)]> ∅)
    2 (<[0 := VForeign 1]> ∅) None None None None.

(** * Symbolic execution *)

Create HintDb io discriminated.

#[local] Hint Unfold bind ret fault emit alloc malloc load store free freePtr
  deref loadReq loadData loadBuf loadStream loadHandle loadForeign
  schedulerResume schedulerFinishResume schedulerResumeError
  uv_fs_req_cleanup uv static setSlot getSlot wrenEnsureSlots
  wrenSetSlotDouble wrenSetSlotBool wrenSetSlotNull wrenSetSlotString
  wrenSetSlotNewList wrenGetVariable wrenGetSlotValue wrenSetSlotValue
  wrenSetSlotNewForeign wrenGetSlotForeign wrenGetSlotString
  wrenGetSlotDouble wrenGetSlotBytes writeForeign readForeign readInt
  setStatClass setStdinClass setStdinOnData setStdinStream
  wrenMakeCallHandle wrenReleaseValue wrenCall uv_close uv_read_start
  uv_read_stop freeEvents requestData uv_fs_init uv_fs_scandir uv_fs_unlink
  uv_fs_open uv_fs_stat uv_fs_fstat uv_fs_close uv_fs_read uv_fs_write
  uv_fs_realpath : io.

Ltac run :=
  repeat (autounfold with io;
          cbn beta iota zeta delta
            [heap next slots statClass stdinClass stdinOnData stdinStream
             setHeap setSlots fst snd app fiber buffer buf_base buf_len
             setBuffer setData setPtr setNbufs setReading
             fs_result fs_data fs_statbuf fs_ptr fs_nbufs
             stream_kind stream_reading]).

Ltac wsimpl :=
  cbn [heap next slots statClass stdinClass stdinOnData stdinStream
       setHeap setSlots fiber buffer buf_base buf_len
       setBuffer setData setPtr setNbufs setReading
       fs_result fs_data fs_statbuf fs_ptr fs_nbufs
       stream_kind stream_reading].

Ltac heap_simpl :=
  repeat first
    [ rewrite lookup_insert_eq
    | rewrite lookup_delete_eq
    | rewrite lookup_insert_ne by (congruence || lia)
    | rewrite lookup_delete_ne by (congruence || lia)
    | match goal with H : _ !! _ = _ |- _ => rewrite H end
    | match goal with H : fs_data _ = _ |- _ => rewrite H end
    | match goal with H : fs_ptr _ = _ |- _ => rewrite H end
    | match goal with H : buf_base _ = _ |- _ => rewrite H end
    | match goal with H : statClass _ = _ |- _ => rewrite H end
    | match goal with H : stdinClass _ = _ |- _ => rewrite H end
    | match goal with H : stdinOnData _ = _ |- _ => rewrite H end
    | match goal with H : stdinStream _ = _ |- _ => rewrite H end ].

(** Well-formedness of a heap obtained by inserting below the allocation
    pointer and deleting. *)
Ltac wf_tac Hwf :=
  let l := fresh "l" in
  let Hl := fresh "Hl" in
  unfold heapWf; wsimpl; intros l Hl;
  repeat first
    [ rewrite lookup_insert_ne by lia
    | apply lookup_delete_None; right ];
  apply Hwf; lia.

Ltac lookup_tac :=
  wsimpl;
  repeat first
    [ rewrite lookup_insert_eq
    | rewrite lookup_insert_ne by (congruence || lia)
    | rewrite lookup_delete_ne by (congruence || lia) ];
  try eassumption; try reflexivity.

Lemma geb_nonneg z : 0 <= z -> (z >=? 0) = true.
Proof. intros H. destruct (Z.geb_spec z 0); [reflexivity | lia]. Qed.

Lemma geb_neg z : z < 0 -> (z >=? 0) = false.
Proof. intros H. destruct (Z.geb_spec z 0); [lia | reflexivity]. Qed.

Lemma eqb_neq_false a b : a <> b -> (a =? b) = false.
Proof. apply Z.eqb_neq. Qed.

Lemma ltb_nonneg z : 0 <= z -> (z <? 0) = false.
Proof. intros H. apply Z.ltb_ge. exact H. Qed.

(** A 64-bit integer of at most 53 bits is a double. *)
Lemma toDouble_exact x : Z.abs x <= 2 ^ 53 -> toDouble x = x.
Proof.
  intros H. unfold toDouble.
  destruct (Z.ltb_spec (Z.abs x) (2 ^ 53)) as [Hlt | Hge]; [reflexivity |].
  assert (Ha : Z.abs x = 2 ^ 53) by lia.
  destruct (Z.abs_eq_or_opp x) as [Hx | Hx]; rewrite Hx in Ha.
  - rewrite Ha. reflexivity.
  - assert (Hn : x = - 2 ^ 53) by lia. rewrite Hn. reflexivity.
Qed.

(** Above 53 bits the conversion rounds: to the even neighbour at a tie,
    and up to [2^64] at the top of the unsigned range. *)
Example toDouble_rounds :
  toDouble (2 ^ 53 + 1) = 2 ^ 53 /\ toDouble (2 ^ 53 + 3) = 2 ^ 53 + 4 /\
  toDouble (2 ^ 64 - 1) = 2 ^ 64.
Proof. repeat split. Qed.

Lemma pending_ne w r q d data : Pending w r q d data -> r <> d.
Proof. intros [_ Hr _ Hd] ->. rewrite Hr in Hd. discriminate. Qed.

Lemma live_below w l b :
  heapWf w -> heap w !! l = Some b -> (l < next w)%positive.
Proof.
  intros Hwf Hl. destruct (Pos.ltb_spec l (next w)) as [H | H]; [exact H |].
  rewrite (Hwf l H) in Hl. discriminate.
Qed.

Lemma pending_delete w r q d data b :
  Pending w r q d data -> b <> r -> b <> d ->
  Pending (setHeap (delete b (heap w)) w) r q d data.
Proof.
  intros [Hwf Hr Hp Hd] Hbr Hbd. split.
  - intros l Hl. cbn [heap next setHeap] in *.
    destruct (decide (b = l)) as [-> | Hbl].
    + apply lookup_delete_eq.
    + rewrite lookup_delete_ne by exact Hbl. apply Hwf, Hl.
  - cbn [heap setHeap]. rewrite lookup_delete_ne by exact Hbr. exact Hr.
  - exact Hp.
  - cbn [heap setHeap]. rewrite lookup_delete_ne by exact Hbd. exact Hd.
Qed.

Lemma pending_slots w r q d data s :
  Pending w r q d data -> Pending (setSlots s w) r q d data.
Proof. intros [Hwf Hr Hp Hd]. split; assumption. Qed.

Section Execution.

Variable host : Platform.

Lemma handleRequestError_ok w r q :
  heap w !! r = Some (BReq q) -> 0 <= fs_result q ->
  handleRequestError host r w = Ok false w [].
Proof.
  intros Hr Hq. unfold handleRequestError. run. heap_simpl. run.
  rewrite geb_nonneg by exact Hq. reflexivity.
Qed.

Lemma freeRequest_ok w r q d data :
  Pending w r q d data ->
  freeRequest r w =
    Ok (fiber data) (setHeap (delete r (delete d (heap w))) w)
       (freeEvents r d).
Proof.
  intros HP. pose proof (pending_ne _ _ _ _ _ HP) as Hne.
  destruct HP as [Hwf Hr Hp Hd].
  unfold freeRequest. repeat (progress (run; heap_simpl)).
  rewrite delete_insert_eq. reflexivity.
Qed.

Lemma handleRequestError_err w r q d data :
  Pending w r q d data -> fs_result q < 0 ->
  handleRequestError host r w =
    Ok true (setHeap (delete r (delete d (heap w))) w)
       (EvResumeError (fiber data) (uv_strerror host (fs_result q))
          :: freeEvents r d).
Proof.
  intros HP Hq. pose proof (pending_ne _ _ _ _ _ HP) as Hne.
  destruct HP as [Hwf Hr Hp Hd].
  unfold handleRequestError. repeat (progress (run; heap_simpl)).
  rewrite geb_neg by exact Hq. repeat (progress (run; heap_simpl)).
  rewrite delete_insert_eq. reflexivity.
Qed.

End Execution.

Ltac call :=
  match goal with
  | HP : Pending ?w ?r ?q ?d ?data |- context [freeRequest ?r ?w] =>
      rewrite (freeRequest_ok w r q d data HP)
  | HP : Pending ?w ?r ?q ?d ?data, Hq : 0 <= fs_result ?q
    |- context [handleRequestError ?h ?r ?w] =>
      rewrite (handleRequestError_ok h w r q (pending_req _ _ _ _ _ HP) Hq)
  | HP : Pending ?w ?r ?q ?d ?data, Hq : fs_result ?q < 0
    |- context [handleRequestError ?h ?r ?w] =>
      rewrite (handleRequestError_err h w r q d data HP Hq)
  end.

Ltac go := repeat (progress (run; heap_simpl; try call)).

Ltac pending_facts HP :=
  let Hwf := fresh "Hwf" in
  let Hr := fresh "Hr" in
  let Hp := fresh "Hp" in
  let Hd := fresh "Hd" in
  let Hne := fresh "Hne" in
  pose proof (pending_wf _ _ _ _ _ HP) as Hwf;
  pose proof (pending_req _ _ _ _ _ HP) as Hr;
  pose proof (pending_ptr _ _ _ _ _ HP) as Hp;
  pose proof (pending_data _ _ _ _ _ HP) as Hd;
  pose proof (pending_ne _ _ _ _ _ HP) as Hne.

Section Callbacks.

Variable host : Platform.

(** Every callback on a failed request: the error translator's effects and
    nothing else. *)
Lemma invoke_error fuel cb w r q d data :
  Pending w r q d data -> fs_result q < 0 ->
  invoke host fuel cb r w =
    Ok tt (setHeap (delete r (delete d (heap w))) w)
       (EvResumeError (fiber data) (uv_strerror host (fs_result q))
          :: freeEvents r d).
Proof.
  intros HP Hq.
  destruct cb; cbn [invoke];
    unfold directoryListCallback, fileDeleteCallback, fileOpenCallback,
      fileSizeCallback, fileCloseCallback, fileReadBytesCallback,
      realPathCallback, statCallback, fileWriteBytesCallback;
    unfold bind at 1; call; reflexivity.
Qed.

Lemma fileDeleteCallback_ok w r q d data :
  Pending w r q d data -> 0 <= fs_result q ->
  fileDeleteCallback host r w =
    Ok tt (setHeap (delete r (delete d (heap w))) w)
       (freeEvents r d ++ [EvResume (fiber data) false]).
Proof.
  intros HP Hq. unfold fileDeleteCallback. go. reflexivity.
Qed.

Lemma fileCloseCallback_ok w r q d data :
  Pending w r q d data -> 0 <= fs_result q ->
  fileCloseCallback host r w =
    Ok tt (setHeap (delete r (delete d (heap w))) w)
       (freeEvents r d ++ [EvResume (fiber data) false]).
Proof.
  intros HP Hq. unfold fileCloseCallback. go. reflexivity.
Qed.

Lemma fileOpenCallback_ok w r q d data :
  Pending w r q d data -> 0 <= fs_result q ->
  fileOpenCallback host r w =
    Ok tt
       (setSlots (<[2 := VNum (toDouble (fs_result q))]> (slots w))
          (setHeap (delete r (delete d (heap w))) w))
       (freeEvents r d ++
        [EvResume (fiber data) true;
         EvSetSlot 2 (VNum (toDouble (fs_result q))); EvFinishResume]).
Proof.
  intros HP Hq. pending_facts HP. unfold fileOpenCallback. go. reflexivity.
Qed.

Lemma fileSizeCallback_ok w r q d data :
  Pending w r q d data -> 0 <= fs_result q ->
  fileSizeCallback host r w =
    Ok tt
       (setSlots (<[2 := VNum (toDouble (st_size (fs_statbuf q)))]> (slots w))
          (setHeap (delete r (delete d (heap w))) w))
       (freeEvents r d ++
        [EvResume (fiber data) true;
         EvSetSlot 2 (VNum (toDouble (st_size (fs_statbuf q))));
         EvFinishResume]).
Proof.
  intros HP Hq. pending_facts HP. unfold fileSizeCallback. go. reflexivity.
Qed.

Lemma fileReadBytesCallback_ok w r q d data b bs :
  Pending w r q d data -> 0 <= fs_result q ->
  buf_base (buffer data) = Some b -> heap w !! b = Some (BBuf bs) ->
  fs_result q <= Z.of_nat (List.length bs) ->
  fileReadBytesCallback host r w =
    Ok tt
       (setHeap (delete b (delete r (delete d (heap w))))
          (setSlots
             (<[2 := VBytes (take (Z.to_nat (fs_result q)) bs)]> (slots w))
             w))
       (freeEvents r d ++
        [EvResume (fiber data) true;
         EvSetSlot 2 (VBytes (take (Z.to_nat (fs_result q)) bs));
         EvFinishResume; EvFree b]).
Proof.
  intros HP Hq Hb Hbs Hn. pending_facts HP.
  assert (b <> r) by (intros ->; congruence).
  assert (b <> d) by (intros ->; congruence).
  unfold fileReadBytesCallback, wrenSetSlotBytes. go.
  replace ((0 <=? fs_result q) && (fs_result q <=? Z.of_nat (List.length bs)))
    with true
    by (symmetry; apply andb_true_iff; split; apply Z.leb_le; lia).
  go. reflexivity.
Qed.

Lemma fileWriteBytesCallback_ok w r q d data b bs :
  Pending w r q d data -> 0 <= fs_result q ->
  buf_base (buffer data) = Some b -> heap w !! b = Some (BBuf bs) ->
  fileWriteBytesCallback host r w =
    Ok tt (setHeap (delete r (delete d (delete b (heap w)))) w)
       (EvFree b :: freeEvents r d ++ [EvResume (fiber data) false]).
Proof.
  intros HP Hq Hb Hbs. pending_facts HP.
  assert (b <> r) by (intros ->; congruence).
  assert (b <> d) by (intros ->; congruence).
  unfold fileWriteBytesCallback. go.
  rewrite (freeRequest_ok _ _ _ _ _ (pending_delete _ _ _ _ _ b HP H H0)).
  go. reflexivity.
Qed.

Lemma realPathCallback_ok w r q d data s :
  Pending w r q d data -> 0 <= fs_result q -> fs_ptr q = PPath s ->
  realPathCallback host r w =
    Ok tt
       (setHeap (delete r (delete d (heap w)))
          (setSlots (<[2 := VString s]> (slots w)) w))
       ([EvEnsureSlots 3; EvSetSlot 2 (VString s)] ++ freeEvents r d ++
        [EvResume (fiber data) true; EvFinishResume]).
Proof.
  intros HP Hq Hs. pending_facts HP. unfold realPathCallback. go.
  rewrite (freeRequest_ok _ _ _ _ _ (pending_slots _ _ _ _ _ _ HP)).
  go. reflexivity.
Qed.

End Callbacks.

Section MoreCallbacks.

Variable host : Platform.

Ltac solve_pending Hwf :=
  split;
  [ unfold heapWf; cbn [heap next setHeap setSlots]; intros ? ?;
    rewrite ?lookup_insert_ne by lia; apply Hwf; lia
  | cbn [heap next setHeap setSlots]; rewrite ?lookup_insert_ne by lia;
    assumption
  | assumption
  | cbn [heap next setHeap setSlots]; rewrite ?lookup_insert_ne by lia;
    assumption ].

(** [statCallback] when the [Stat] class has not been looked up yet. *)
Lemma statCallback_first w r q d data :
  Pending w r q d data -> 0 <= fs_result q -> statClass w = None ->
  exists w',
    statCallback host r w =
      Ok tt w'
         ([EvEnsureSlots 3; EvSetSlot 0 (VClass "io" "Stat");
           EvMakeHandle (next w) (VClass "io" "Stat");
           EvSetSlot 2 (VClass "io" "Stat");
           EvSetSlot 2 (VForeign (Pos.succ (next w)));
           EvForeignWrite (Pos.succ (next w)) (FStat (fs_statbuf q))] ++
          freeEvents r d ++ [EvResume (fiber data) true; EvFinishResume]) /\
    slots w' !! 2 = Some (VForeign (Pos.succ (next w))) /\
    heap w' !! Pos.succ (next w) =
      Some (BForeign (VClass "io" "Stat") (FStat (fs_statbuf q))) /\
    statClass w' = Some (next w).
Proof.
  intros HP Hq Hc. pending_facts HP.
  pose proof (live_below _ _ _ Hwf Hr) as Hlr.
  pose proof (live_below _ _ _ Hwf Hd) as Hld.
  unfold statCallback. go.
  match goal with
  | |- context [freeRequest r ?w1] =>
      assert (HP' : Pending w1 r q d data) by solve_pending Hwf
  end.
  rewrite (freeRequest_ok _ _ _ _ _ HP'). go.
  eexists. split; [reflexivity |].
  cbn [heap next slots statClass setHeap setSlots].
  repeat split.
  - by rewrite lookup_insert_eq.
  - rewrite !lookup_delete_ne by lia. rewrite insert_insert_eq.
    by rewrite lookup_insert_eq.
Qed.

(** [statCallback] when the [Stat] class handle is cached. *)
Lemma statCallback_cached w r q d data h v :
  Pending w r q d data -> 0 <= fs_result q ->
  statClass w = Some h -> heap w !! h = Some (BHandle v) ->
  exists w',
    statCallback host r w =
      Ok tt w'
         ([EvEnsureSlots 3; EvSetSlot 2 v; EvSetSlot 2 (VForeign (next w));
           EvForeignWrite (next w) (FStat (fs_statbuf q))] ++
          freeEvents r d ++ [EvResume (fiber data) true; EvFinishResume]) /\
    slots w' !! 2 = Some (VForeign (next w)) /\
    heap w' !! next w = Some (BForeign v (FStat (fs_statbuf q))) /\
    statClass w' = Some h.
Proof.
  intros HP Hq Hc Hh. pending_facts HP.
  pose proof (live_below _ _ _ Hwf Hr) as Hlr.
  pose proof (live_below _ _ _ Hwf Hd) as Hld.
  unfold statCallback. go.
  match goal with
  | |- context [freeRequest r ?w1] =>
      assert (HP' : Pending w1 r q d data) by solve_pending Hwf
  end.
  rewrite (freeRequest_ok _ _ _ _ _ HP'). go.
  eexists. split; [reflexivity |].
  cbn [heap next slots statClass setHeap setSlots].
  repeat split.
  - by rewrite lookup_insert_eq.
  - rewrite !lookup_delete_ne by lia. rewrite insert_insert_eq.
    by rewrite lookup_insert_eq.
Qed.

End MoreCallbacks.

Lemma wrenInsertInList_append w vs e :
  slots w !! 2 = Some (VList vs) -> slots w !! 1 = Some e ->
  wrenInsertInList 2 (-1) 1 w =
    Ok tt (setSlots (<[2 := VList (vs ++ [e])]> (slots w)) w)
       [EvInsertInList 2 (-1) 1].
Proof.
  intros Hl He. unfold wrenInsertInList. run. heap_simpl. run.
  replace (Z.of_nat (List.length vs) + 1 + -1) with (Z.of_nat (List.length vs))
    by lia.
  change (-1 <? 0) with true. cbv iota.
  rewrite Nat2Z.id.
  replace ((0 <=? Z.of_nat (List.length vs)) &&
           (Z.of_nat (List.length vs) <=? Z.of_nat (List.length vs)))
    with true
    by (symmetry; apply andb_true_iff; split; apply Z.leb_le; lia).
  rewrite firstn_all, skipn_all. reflexivity.
Qed.

Lemma entriesOf_cons q name rest :
  entriesOf q = name :: rest ->
  exists names,
    fs_ptr q = PDirents names /\ names !! fs_nbufs q = Some name /\
    drop (S (fs_nbufs q)) names = rest.
Proof.
  unfold entriesOf. destruct (fs_ptr q) as [| s | names]; try discriminate.
  intros H. exists names. split; [reflexivity |].
  assert (Hn : names !! fs_nbufs q = Some name).
  { pose proof (lookup_drop names (fs_nbufs q) 0) as Hd.
    rewrite H in Hd. rewrite Nat.add_0_r in Hd. symmetry. exact Hd. }
  split; [exact Hn |].
  rewrite (drop_S _ _ _ Hn) in H. congruence.
Qed.

Lemma entriesOf_nil q names :
  entriesOf q = [] -> fs_ptr q = PDirents names -> names !! fs_nbufs q = None.
Proof.
  unfold entriesOf. intros H Hp. rewrite Hp in H.
  apply lookup_ge_None. apply (f_equal List.length) in H.
  rewrite length_drop in H. cbn in H. lia.
Qed.

Lemma world_eta w :
  mkWorld (heap w) (next w) (slots w) (statClass w) (stdinClass w)
    (stdinOnData w) (stdinStream w) = w.
Proof. destruct w. reflexivity. Qed.

Section DirectoryList.

Variable host : Platform.

(** The loop of [directoryListCallback] appends the remaining entries, in
    order, to the list in slot 2, and stops at the first [UV_EOF]. *)
Lemma scanEntries_ok r rest :
  forall fuel w q vs,
    heap w !! r = Some (BReq q) -> 0 <= fs_result q ->
    entriesOf q = rest -> (List.length rest < fuel)%nat ->
    slots w !! 2 = Some (VList vs) ->
    exists q' s',
      scanEntries fuel r w =
        Ok tt (setSlots s' (setHeap (<[r := BReq q']> (heap w)) w))
           (concat (entryEvents r <$> rest) ++ [EvUv (UvFsScandirNext r)]) /\
      fs_data q' = fs_data q /\
      s' !! 2 = Some (VList (vs ++ (VString <$> rest))).
Proof.
  induction rest as [| name rest IH]; intros fuel w q vs Hr Hq He Hf Hs.
  - destruct fuel as [| fuel]; [cbn in Hf; lia |].
    exists q, (slots w). cbn [scanEntries].
    unfold uv_fs_scandir_next. run. heap_simpl. run.
    rewrite ltb_nonneg by exact Hq.
    assert (Hfin :
      Ok tt w [EvUv (UvFsScandirNext r)] =
      Ok tt (setSlots (slots w) (setHeap (<[r := BReq q]> (heap w)) w))
         (concat (entryEvents r <$> []) ++ [EvUv (UvFsScandirNext r)])).
    { rewrite insert_id by exact Hr. unfold setSlots, setHeap.
      cbn [heap next slots statClass stdinClass stdinOnData stdinStream].
      rewrite world_eta. reflexivity. }
    destruct (fs_ptr q) as [| s | names] eqn:Hp;
      [ | | rewrite (entriesOf_nil q names He Hp)];
      run; (split; [exact Hfin |]);
      (split; [reflexivity | by rewrite fmap_nil, app_nil_r]).
  - destruct fuel as [| fuel]; [cbn in Hf; lia |].
    destruct (entriesOf_cons q name rest He) as (names & Hp & Hn & Hrest).
    destruct (IH fuel
                (setSlots
                   (<[2 := VList (vs ++ [VString name])]>
                      (<[1 := VString name]> (slots w)))
                   (setHeap
                      (<[r := BReq (setNbufs (S (fs_nbufs q)) q)]> (heap w))
                      w))
                (setNbufs (S (fs_nbufs q)) q) (vs ++ [VString name]))
      as (q' & s' & Hrun & Hdata & Hs').
    { cbn [heap setHeap setSlots]. by rewrite lookup_insert_eq. }
    { exact Hq. }
    { unfold entriesOf. cbn [fs_ptr fs_nbufs setNbufs]. rewrite Hp.
      exact Hrest. }
    { cbn in Hf. lia. }
    { cbn [slots setSlots]. by rewrite lookup_insert_eq. }
    exists q', s'. split; [| split; [exact Hdata |]].
    + cbn [scanEntries].
      unfold uv_fs_scandir_next. run. heap_simpl. run.
      rewrite ltb_nonneg by exact Hq. run. heap_simpl. run. heap_simpl. run.
      change (0 =? UV_EOF) with false. cbv iota. run.
      rewrite (wrenInsertInList_append _ vs (VString name))
        by (cbn [slots heap setSlots setHeap];
            rewrite ?lookup_insert_eq, ?lookup_insert_ne by lia;
            first [exact Hs | reflexivity]).
      unfold setSlots, setHeap in Hrun |- *.
      cbn [heap next slots statClass stdinClass stdinOnData stdinStream]
        in Hrun |- *.
      rewrite insert_insert_eq in Hrun.
      rewrite Hrun. reflexivity.
    + rewrite Hs', <- app_assoc. reflexivity.
Qed.

Lemma directoryListCallback_ok fuel w r q d data :
  Pending w r q d data -> 0 <= fs_result q ->
  (List.length (entriesOf q) < fuel)%nat ->
  exists w',
    directoryListCallback host fuel r w =
      Ok tt w'
         ([EvEnsureSlots 3; EvSetSlot 2 (VList [])] ++
          concat (entryEvents r <$> entriesOf q) ++
          [EvUv (UvFsScandirNext r)] ++
          freeEvents r d ++ [EvResume (fiber data) true; EvFinishResume]) /\
    slots w' !! 2 = Some (VList (VString <$> entriesOf q)) /\
    heap w' !! r = None /\ heap w' !! d = None.
Proof.
  intros HP Hq Hf. pending_facts HP.
  destruct (scanEntries_ok r (entriesOf q) fuel
              (setSlots (<[2 := VList []]> (slots w)) w) q [])
    as (q' & s' & Hrun & Hdata & Hs').
  { exact Hr. }
  { exact Hq. }
  { reflexivity. }
  { exact Hf. }
  { cbn [slots setSlots]. by rewrite lookup_insert_eq. }
  assert (HP' :
    Pending
      (setSlots s'
         (setHeap
            (<[r := BReq q']> (heap (setSlots (<[2 := VList []]> (slots w)) w)))
            (setSlots (<[2 := VList []]> (slots w)) w)))
      r q' d data).
  { split.
    - unfold heapWf. cbn [heap next setHeap setSlots]. intros l Hl.
      pose proof (live_below _ _ _ Hwf Hr).
      rewrite lookup_insert_ne by lia. apply Hwf, Hl.
    - cbn [heap setHeap setSlots]. by rewrite lookup_insert_eq.
    - congruence.
    - cbn [heap setHeap setSlots]. by rewrite lookup_insert_ne. }
  eexists. split.
  - pose proof (freeRequest_ok _ _ _ _ _ HP') as Hfree.
    unfold directoryListCallback. go. rewrite Hrun.
    unfold setSlots, setHeap in Hfree |- *.
    cbn [heap next slots statClass stdinClass stdinOnData stdinStream]
      in Hfree |- *.
    run. rewrite Hfree. run.
    rewrite <- !app_assoc. reflexivity.
  - cbn [heap slots setHeap setSlots]. split; [exact Hs' |].
    split; [apply lookup_delete_eq |].
    rewrite lookup_delete_ne by congruence. apply lookup_delete_eq.
Qed.

End DirectoryList.

(** * Successful completions, uniformly *)

Lemma quiet_entryEvents r names :
  Forall quiet (concat (entryEvents r <$> names)).
Proof.
  induction names as [| n names IH]; [constructor |].
  cbn. repeat (constructor; [split; reflexivity |]). exact IH.
Qed.

Lemma in_setSlot_list r names :
  In (EvSetSlot 2 (VList []))
    ([EvEnsureSlots 3; EvSetSlot 2 (VList [])] ++
     concat (entryEvents r <$> names) ++ [EvUv (UvFsScandirNext r)]).
Proof. right. left. reflexivity. Qed.

Section Success.

Variable host : Platform.

(** Every callback on a successful request: some quiet events, then the
    record is freed, then [schedulerResume], then what [Shape] allows. *)
Lemma invoke_success fuel cb w r q d data :
  Pending w r q d data -> 0 <= fs_result q -> Payload fuel cb w q data ->
  exists w' pre post,
    invoke host fuel cb r w =
      Ok tt w'
         (pre ++ freeEvents r d ++
          EvResume (fiber data) (hasArgument cb) :: post) /\
    Forall quiet pre /\ Shape cb data pre post.
Proof.
  intros HP Hq Hpay. destruct cb; cbn [invoke hasArgument Shape].
  - destruct (directoryListCallback_ok host fuel w r q d data HP Hq Hpay)
      as (w' & Hrun & _).
    exists w',
      ([EvEnsureSlots 3; EvSetSlot 2 (VList [])] ++
       concat (entryEvents r <$> entriesOf q) ++ [EvUv (UvFsScandirNext r)]),
      [EvFinishResume].
    split; [| split; [| split]].
    + rewrite Hrun. rewrite <- !app_assoc. reflexivity.
    + apply Forall_app. split; [repeat constructor |].
      apply Forall_app. split; [apply quiet_entryEvents | repeat constructor].
    + reflexivity.
    + exists (VList []). apply in_setSlot_list.
  - exists (setHeap (delete r (delete d (heap w))) w), [], [].
    rewrite (fileDeleteCallback_ok host w r q d data HP Hq).
    repeat split; constructor.
  - exists
      (setSlots (<[2 := VNum (toDouble (fs_result q))]> (slots w))
         (setHeap (delete r (delete d (heap w))) w)), [],
      [EvSetSlot 2 (VNum (toDouble (fs_result q))); EvFinishResume].
    rewrite (fileOpenCallback_ok host w r q d data HP Hq).
    repeat split; [constructor |]. eexists. reflexivity.
  - exists
      (setSlots (<[2 := VNum (toDouble (st_size (fs_statbuf q)))]> (slots w))
         (setHeap (delete r (delete d (heap w))) w)), [],
      [EvSetSlot 2 (VNum (toDouble (st_size (fs_statbuf q)))); EvFinishResume].
    rewrite (fileSizeCallback_ok host w r q d data HP Hq).
    repeat split; [constructor |]. eexists. reflexivity.
  - exists (setHeap (delete r (delete d (heap w))) w), [], [].
    rewrite (fileCloseCallback_ok host w r q d data HP Hq).
    repeat split; constructor.
  - destruct Hpay as (b & bs & Hb & Hbs & Hn).
    rewrite (fileReadBytesCallback_ok host w r q d data b bs HP Hq Hb Hbs Hn).
    eexists _, [], _. split; [reflexivity |].
    split; [constructor |]. split; [reflexivity |].
    eexists _, b. split; [exact Hb | reflexivity].
  - destruct Hpay as (s & Hs).
    rewrite (realPathCallback_ok host w r q d data s HP Hq Hs).
    eexists _, [EvEnsureSlots 3; EvSetSlot 2 (VString s)], [EvFinishResume].
    split; [reflexivity |].
    split; [repeat constructor |]. split; [reflexivity |].
    exists (VString s). right. left. reflexivity.
  - destruct (statClass w) as [h |] eqn:Hc.
    + destruct (Hpay h Hc) as (v & Hh).
      destruct (statCallback_cached host w r q d data h v HP Hq Hc Hh)
        as (w' & Hrun & _).
      rewrite Hrun. eexists w', _, [EvFinishResume].
      split; [reflexivity |].
      split; [repeat constructor |]. split; [reflexivity |].
      exists v. right. left. reflexivity.
    + destruct (statCallback_first host w r q d data HP Hq Hc)
        as (w' & Hrun & _).
      rewrite Hrun. eexists w', _, [EvFinishResume].
      split; [reflexivity |].
      split; [repeat constructor |]. split; [reflexivity |].
      exists (VClass "io" "Stat"). right. right. right. left. reflexivity.
  - destruct Hpay as (b & bs & Hb & Hbs).
    rewrite (fileWriteBytesCallback_ok host w r q d data b bs HP Hq Hb Hbs).
    eexists _, [EvFree b], []. split; [reflexivity |].
    split; [repeat constructor |]. split; [reflexivity |].
    exists b. split; [exact Hb | reflexivity].
Qed.

End Success.

(** * The flag mapper *)

Lemma truthy_land_pow2 flags i :
  0 <= i -> truthy (Z.land flags (2 ^ i)) = Z.testbit flags i.
Proof.
  intros Hi. unfold truthy.
  assert (H : Z.land flags (2 ^ i) = if Z.testbit flags i then 2 ^ i else 0).
  { apply Z.bits_inj'. intros n Hn. rewrite Z.land_spec.
    rewrite Z.pow2_bits_eqb by exact Hi.
    destruct (Z.eqb_spec i n) as [-> | Hne].
    - destruct (Z.testbit flags n); cbn.
      + rewrite Z.pow2_bits_eqb by exact Hn. symmetry. apply Z.eqb_refl.
      + symmetry. apply Z.bits_0.
    - rewrite andb_false_r. destruct (Z.testbit flags i).
      + rewrite Z.pow2_bits_eqb by exact Hi. symmetry.
        apply Z.eqb_neq. exact Hne.
      + symmetry. apply Z.bits_0. }
  rewrite H. destruct (Z.testbit flags i); [| reflexivity].
  apply negb_true_iff, Z.eqb_neq.
  pose proof (Z.pow_pos_nonneg 2 i). lia.
Qed.

Section FlagMapper.

Variable host : Platform.

Lemma mapFileFlags_by_bit flags :
  mapFileFlags host flags = mapFlagsByBit host flags.
Proof.
  unfold mapFileFlags, mapFlagsByBit.
  rewrite (truthy_land_pow2 flags 0 ltac:(lia) : truthy (Z.land flags 0x01) = _).
  rewrite (truthy_land_pow2 flags 1 ltac:(lia) : truthy (Z.land flags 0x02) = _).
  rewrite (truthy_land_pow2 flags 2 ltac:(lia) : truthy (Z.land flags 0x04) = _).
  rewrite (truthy_land_pow2 flags 3 ltac:(lia) : truthy (Z.land flags 0x08) = _).
  rewrite (truthy_land_pow2 flags 4 ltac:(lia) : truthy (Z.land flags 0x10) = _).
  rewrite (truthy_land_pow2 flags 5 ltac:(lia) : truthy (Z.land flags 0x20) = _).
  rewrite (truthy_land_pow2 flags 6 ltac:(lia) : truthy (Z.land flags 0x40) = _).
  cbn [fmap list_fmap foldr nativeFlag].
  destruct (Z.testbit flags 0), (Z.testbit flags 1), (Z.testbit flags 2),
    (Z.testbit flags 3), (Z.testbit flags 4), (Z.testbit flags 5),
    (Z.testbit flags 6);
    cbv zeta; rewrite ?Z.lor_0_l, ?Z.lor_0_r, ?Z.lor_assoc; reflexivity.
Qed.

Lemma mapFileFlags_low_bits flags :
  mapFileFlags host (Z.land flags 0x7f) = mapFileFlags host flags.
Proof.
  rewrite !mapFileFlags_by_bit. unfold mapFlagsByBit.
  cbn [fmap list_fmap foldr]. rewrite !Z.land_spec.
  change (Z.testbit 0x7f 0) with true. change (Z.testbit 0x7f 1) with true.
  change (Z.testbit 0x7f 2) with true. change (Z.testbit 0x7f 3) with true.
  change (Z.testbit 0x7f 4) with true. change (Z.testbit 0x7f 5) with true.
  change (Z.testbit 0x7f 6) with true.
  rewrite !andb_true_r. reflexivity.
Qed.

(** C7. The flag mapper is a function of the portable bitset alone (the
    same bitset always maps to the same native flags, and bits above bit 6
    are ignored); bit 0 maps to
    read-only, bit 1 to write-only, bit 2 to read-write, bit 3 to
    synchronous, bit 4 to create, bit 5 to truncate and bit 6 to exclusive,
    the native flags of the bits that are set being or-ed together; and
    read-only|create maps to exactly the native read-only and create flags
    or-ed together. *)
Theorem mapFileFlags_spec :
  (forall flags, mapFileFlags host flags = mapFileFlags host flags) /\
  (forall flags,
     mapFileFlags host (Z.land flags 0x7f) = mapFileFlags host flags) /\
  (forall flags, mapFileFlags host flags = mapFlagsByBit host flags) /\
  mapFileFlags host 0x01 = O_RDONLY host /\
  mapFileFlags host 0x02 = O_WRONLY host /\
  mapFileFlags host 0x04 = O_RDWR host /\
  mapFileFlags host 0x08 = O_SYNC host /\
  mapFileFlags host 0x10 = O_CREAT host /\
  mapFileFlags host 0x20 = O_TRUNC host /\
  mapFileFlags host 0x40 = O_EXCL host /\
  mapFileFlags host 0 = 0 /\
  mapFileFlags host (Z.lor 0x01 0x10) =
    Z.lor (O_RDONLY host) (O_CREAT host).
Proof.
  split; [reflexivity |].
  split; [exact mapFileFlags_low_bits |].
  split; [exact mapFileFlags_by_bit |].
  repeat split; reflexivity.
Qed.

End FlagMapper.

(** On Linux, where the native read-only flag is zero, read-only|create
    maps to the create bit alone. *)
Example mapFileFlags_linux : mapFileFlags linux 0x11 = 64.
Proof. reflexivity. Qed.

(** * Concrete worlds *)

Lemma heapWf_intro w :
  map_Forall (fun l _ => (l < next w)%positive) (heap w) -> heapWf w.
Proof.
  intros H l Hl. destruct (heap w !! l) as [b |] eqn:Hb; [| reflexivity].
  specialize (H l b Hb). cbn in H. lia.
Qed.

Lemma sample_pending result st p bs :
  Pending (sampleWorld result st p bs) 3
    (mkReq result (Some 4%positive) st p 0) 4
    (mkData 2 (mkBuf (Some 5%positive) (Z.of_nat (List.length bs)))).
Proof.
  split; [| reflexivity | reflexivity | reflexivity].
  apply heapWf_intro. unfold sampleWorld. cbn [heap next].
  repeat (apply map_Forall_insert_2; [reflexivity |]).
  apply map_Forall_empty.
Qed.

(** * The error translator *)

Section ErrorTranslator.

Variable host : Platform.

Lemma invoke_handled fuel cb w r w' t :
  handleRequestError host r w = Ok true w' t ->
  invoke host fuel cb r w = Ok tt w' t.
Proof.
  intros H.
  destruct cb; cbn [invoke];
    unfold directoryListCallback, fileDeleteCallback, fileOpenCallback,
      fileSizeCallback, fileCloseCallback, fileReadBytesCallback,
      realPathCallback, statCallback, fileWriteBytesCallback;
    unfold bind at 1; rewrite H; cbn; rewrite app_nil_r; reflexivity.
Qed.

Lemma invoke_fault fuel cb w r e :
  handleRequestError host r w = Fault e ->
  invoke host fuel cb r w = Fault e.
Proof.
  intros H.
  destruct cb; cbn [invoke];
    unfold directoryListCallback, fileDeleteCallback, fileOpenCallback,
      fileSizeCallback, fileCloseCallback, fileReadBytesCallback,
      realPathCallback, statCallback, fileWriteBytesCallback;
    unfold bind at 1; rewrite H; reflexivity.
Qed.

(** C4. On a request whose result is non-negative the error translator
    returns false, with no effect and no change of state. On a request
    whose result is negative it resumes the waiting fiber on the error path
    with [uv_strerror] of the result, frees the [FileRequestData] and the
    request, and returns true. Every completion callback runs it first:
    when it returns true, the callback does nothing more. *)
Theorem handleRequestError_spec fuel cb w r q d data :
  Pending w r q d data ->
  (0 <= fs_result q -> handleRequestError host r w = Ok false w []) /\
  (fs_result q < 0 ->
   handleRequestError host r w =
     Ok true (setHeap (delete r (delete d (heap w))) w)
        [EvResumeError (fiber data) (uv_strerror host (fs_result q));
         EvFree d; EvUv (UvFsReqCleanup r); EvFree r]) /\
  (forall w' t,
     handleRequestError host r w = Ok true w' t ->
     invoke host fuel cb r w = Ok tt w' t) /\
  (forall e,
     handleRequestError host r w = Fault e ->
     invoke host fuel cb r w = Fault e).
Proof.
  intros HP. split; [| split; [| split]].
  - intros Hq. exact (handleRequestError_ok host w r q (pending_req _ _ _ _ _ HP) Hq).
  - intros Hq. exact (handleRequestError_err host w r q d data HP Hq).
  - intros w' t. apply invoke_handled.
  - intros e. apply invoke_fault.
Qed.

End ErrorTranslator.

Lemma handleRequestError_witness :
  Pending (sampleWorld (-2) zeroStat PNull []) 3
    (mkReq (-2) (Some 4%positive) zeroStat PNull 0) 4
    (mkData 2 (mkBuf (Some 5%positive) 0)) /\
  handleRequestError linux 3 (sampleWorld (-2) zeroStat PNull []) =
    Ok true
       (setHeap (delete 3%positive (delete 4%positive
                   (heap (sampleWorld (-2) zeroStat PNull []))))
          (sampleWorld (-2) zeroStat PNull []))
       [EvResumeError 2 "no such file or directory"; EvFree 4;
        EvUv (UvFsReqCleanup 3); EvFree 3].
Proof.
  split; [exact (sample_pending (-2) zeroStat PNull []) |].
  apply (handleRequestError_spec linux 1 CbFileOpen _ _ _ _ _
           (sample_pending (-2) zeroStat PNull [])).
  cbn. lia.
Defined.

(** * Issuing *)

Lemma castInt_ok d w :
  INT_MIN <= d <= INT_MAX -> castInt d w = Ok d w [].
Proof.
  intros H. unfold castInt.
  replace ((INT_MIN <=? d) && (d <=? INT_MAX)) with true
    by (symmetry; apply andb_true_iff; split; apply Z.leb_le; lia).
  reflexivity.
Qed.

Lemma castSize_ok d w :
  0 <= d <= SIZE_MAX -> castSize d w = Ok d w [].
Proof.
  intros H. unfold castSize.
  replace ((0 <=? d) && (d <=? SIZE_MAX)) with true
    by (symmetry; apply andb_true_iff; split; apply Z.leb_le; lia).
  reflexivity.
Qed.

(** The conversions of an argument that is within range, and the
    allocation of a buffer the host can provide. *)
Ltac cast_simpl :=
  repeat first
    [ rewrite castInt_ok
        by first [assumption | split; assumption
                 | unfold INT_MIN, INT_MAX in *; lia]
    | rewrite castSize_ok
        by first [assumption | split; assumption
                 | unfold SIZE_MAX in *; lia]
    | match goal with H : malloc_ok _ _ = _ |- _ => rewrite H end ].

(** Two bindings of the same slot bind the same value. *)
Ltac same_slot :=
  repeat match goal with
         | H1 : slots ?w !! ?k = Some ?a, H2 : slots ?w !! ?k = Some ?b |- _ =>
             rewrite H1 in H2; injection H2 as ?; subst
         end.

Section Issuing.

Variable host : Platform.

(** Every entry point, given its arguments, makes a handle of the value in
    its fiber slot, allocates a record holding that handle, hands the
    request and its own callback to libuv in one call, and resumes nothing
    itself. *)
Lemma issue_pending ep w vf :
  heapWf w -> Args host ep w -> slots w !! fiberSlot ep = Some vf ->
  exists w' t c q data,
    issue host ep w = Ok tt w' t /\
    omap resumed t = [] /\
    omap uvCall t = [c] /\
    requestOf c = Some (Pos.succ (next w), callbackOf ep) /\
    Pending w' (Pos.succ (next w)) q (Pos.succ (Pos.succ (next w))) data /\
    fiber data = next w /\
    heap w' !! next w = Some (BHandle vf) /\
    filter isMakeHandle t = [EvMakeHandle (next w) vf].
Proof.
  intros Hwf HA Hf.
  destruct ep; cbn [Args fiberSlot] in HA, Hf;
    repeat match goal with
           | H : exists _, _ |- _ => destruct H
           | H : _ /\ _ |- _ => destruct H
           end;
    same_slot;
    try match goal with
        | H : heap w !! _ = Some _ |- _ =>
            pose proof (live_below _ _ _ Hwf H)
        end;
    try match goal with
        | H : _ <> -1 |- _ => pose proof (eqb_neq_false _ _ H)
        end;
    eexists _, _, _, _, _;
    (split;
     [ cbn [issue];
       unfold directoryList, fileDelete, fileOpen, fileSizePath, fileClose,
         fileReadBytes, fileRealPath, fileStat, fileSize, fileWriteBytes,
         statPath, createRequest, mallocBytes;
       repeat (progress (run; heap_simpl; cast_simpl));
       try match goal with
           | H : (_ =? -1) = false |- _ => rewrite H
           end;
       repeat (progress (run; heap_simpl; cast_simpl));
       reflexivity
     | ]);
    (split; [reflexivity |]); (split; [reflexivity |]);
    (split; [reflexivity |]);
    (split;
     [ split; [wf_tac Hwf | lookup_tac | reflexivity | lookup_tac]
     | split; [reflexivity | split; [lookup_tac | reflexivity]] ]).
Qed.

(** The reactor completing a request in flight. *)
Lemma complete_pending w r q d data result st p :
  Pending w r q d data ->
  complete r result st p w =
    Ok tt (setHeap (<[r := BReq (mkReq result (Some d) st p 0)]> (heap w)) w)
       [] /\
  Pending (setHeap (<[r := BReq (mkReq result (Some d) st p 0)]> (heap w)) w)
    r (mkReq result (Some d) st p 0) d data.
Proof.
  intros HP. pending_facts HP. split.
  - unfold complete. repeat (progress (run; heap_simpl)). reflexivity.
  - pose proof (live_below _ _ _ Hwf Hr). split.
    + wf_tac Hwf.
    + lookup_tac.
    + reflexivity.
    + lookup_tac.
Qed.

End Issuing.

(** * Counting resumptions *)

Lemma count_app p t1 t2 : count p (t1 ++ t2) = (count p t1 + count p t2)%nat.
Proof. unfold count. rewrite List.filter_app. apply length_app. Qed.

Lemma quiet_silent pre :
  Forall quiet pre ->
  omap resumed pre = [] /\ count isValueResume pre = 0%nat /\
  count isErrorResume pre = 0%nat /\ count isFinish pre = 0%nat.
Proof.
  induction 1 as [| e pre [He Hf] _ (IH1 & IH2 & IH3 & IH4)];
    [repeat split |].
  unfold count in *. cbn. rewrite He, Hf, IH1.
  destruct e; cbn in He |- *; try discriminate; repeat split; assumption.
Qed.

Lemma precedes_lookup a b t :
  precedes a b t ->
  exists i j, (i < j)%nat /\ t !! i = Some a /\ t !! j = Some b.
Proof.
  intros (t1 & t2 & t3 & ->).
  exists (List.length t1), (List.length t1 + S (List.length t2))%nat.
  split; [lia |]. split.
  - by apply list_lookup_middle.
  - rewrite lookup_app_r by lia.
    replace (List.length t1 + S (List.length t2) - List.length t1)%nat
      with (S (List.length t2)) by lia.
    cbn. by apply list_lookup_middle.
Qed.

Lemma precedes_app_l a b pre t : precedes a b t -> precedes a b (pre ++ t).
Proof.
  intros (t1 & t2 & t3 & ->). exists (pre ++ t1), t2, t3.
  by rewrite <- app_assoc.
Qed.

(** Refuting [precedes a b t] for a concrete trace [t]. *)
Ltac refute_precedes :=
  let H := fresh "H" in
  let i := fresh "i" in
  let j := fresh "j" in
  let Hij := fresh "Hij" in
  let Hi := fresh "Hi" in
  let Hj := fresh "Hj" in
  intros H; apply precedes_lookup in H as (i & j & Hij & Hi & Hj);
  repeat (destruct i as [| i]; cbn in Hi; try discriminate);
  repeat (destruct j as [| j]; cbn in Hj; try discriminate);
  lia.

Section Resumption.

Variable host : Platform.

(** A completion callback resumes the waiting fiber exactly once, on the
    path the sign of the result selects. *)
Lemma callback_resumes_once fuel cb w r q d data :
  Pending w r q d data ->
  (0 <= fs_result q -> Payload fuel cb w q data) ->
  exists w' t,
    invoke host fuel cb r w = Ok tt w' t /\
    omap resumed t = [fiber data] /\
    (0 <= fs_result q /\
       count isValueResume t = 1%nat /\ count isErrorResume t = 0%nat
     \/
     fs_result q < 0 /\
       count isValueResume t = 0%nat /\ count isErrorResume t = 1%nat).
Proof.
  intros HP Hpay. destruct (Z.lt_ge_cases (fs_result q) 0) as [Hneg | Hq].
  - rewrite (invoke_error host fuel cb w r q d data HP Hneg).
    eexists _, _. split; [reflexivity |].
    split; [reflexivity |]. right. repeat split. exact Hneg.
  - destruct (invoke_success host fuel cb w r q d data HP Hq (Hpay Hq))
      as (w' & pre & post & Hrun & Hquiet & Hshape).
    destruct (quiet_silent pre Hquiet) as (Ho & Hv & He & _).
    exists w', (pre ++ freeEvents r d ++
                EvResume (fiber data) (hasArgument cb) :: post).
    split; [exact Hrun |].
    assert (Hpost :
      omap resumed post = [] /\ count isValueResume post = 0%nat /\
      count isErrorResume post = 0%nat).
    { destruct cb; cbn [Shape] in Hshape;
        repeat match goal with
               | H : _ /\ _ |- _ => destruct H
               | H : exists _, _ |- _ => destruct H
               end; subst; repeat split. }
    destruct Hpost as (Hpo & Hpv & Hpe).
    split.
    + rewrite omap_app, Ho. cbn. by rewrite Hpo.
    + left. split; [exact Hq |].
      rewrite !count_app, Hv, He. unfold count in *. cbn.
      rewrite Hpv, Hpe. split; reflexivity.
Qed.

(** C1. Every entry point that issues an operation (directory list,
    delete, open, size, close of an open file, read, real path, stat,
    write) returns having resumed nothing and having handed libuv, in one
    call, a new request and its own callback; the record of that request
    holds a new handle, and this handle is the one of the value the caller
    passed in the operation's fiber slot: the waiting fiber. The reactor
    can complete that request with any outcome, which leaves the record
    and the handle as they are. Whatever outcome the reactor reports for
    the request, for as long as the record is as the entry point made it,
    the callback returns and resumes exactly once: the fibers resumed, on
    either path, are exactly that handle, once. A non-negative result
    takes the value path
    ([schedulerResume]) and not the error path; a negative result takes
    the error path ([schedulerResumeError]) and not the value path. *)
Theorem resumed_exactly_once fuel ep w vf :
  heapWf w -> Args host ep w -> slots w !! fiberSlot ep = Some vf ->
  exists w1 t1 c d data,
    issue host ep w = Ok tt w1 t1 /\
    omap resumed t1 = [] /\
    omap uvCall t1 = [c] /\
    requestOf c = Some (Pos.succ (next w), callbackOf ep) /\
    filter isMakeHandle t1 = [EvMakeHandle (fiber data) vf] /\
    heap w !! fiber data = None /\
    heap w1 !! fiber data = Some (BHandle vf) /\
    (exists q, Pending w1 (Pos.succ (next w)) q d data) /\
    (forall result st p,
       exists w2,
         complete (Pos.succ (next w)) result st p w1 = Ok tt w2 [] /\
         Pending w2 (Pos.succ (next w)) (mkReq result (Some d) st p 0) d
           data /\
         heap w2 !! fiber data = Some (BHandle vf)) /\
    forall w2 q,
      Pending w2 (Pos.succ (next w)) q d data ->
      (0 <= fs_result q -> Payload fuel (callbackOf ep) w2 q data) ->
      exists w3 t3,
        invoke host fuel (callbackOf ep) (Pos.succ (next w)) w2 =
          Ok tt w3 t3 /\
        omap resumed t3 = [fiber data] /\
        (0 <= fs_result q /\
           count isValueResume t3 = 1%nat /\ count isErrorResume t3 = 0%nat
         \/
         fs_result q < 0 /\
           count isValueResume t3 = 0%nat /\ count isErrorResume t3 = 1%nat).
Proof.
  intros Hwf HA Hvf.
  destruct (issue_pending host ep w vf Hwf HA Hvf)
    as (w1 & t1 & c & q & data & Hrun & Hres & Huv & Hreq & HP & Hf & Hh & Hm).
  exists w1, t1, c, (Pos.succ (Pos.succ (next w))), data.
  split; [exact Hrun |]. split; [exact Hres |].
  split; [exact Huv |]. split; [exact Hreq |].
  split; [rewrite Hf; exact Hm |].
  split; [rewrite Hf; apply Hwf; lia |].
  split; [rewrite Hf; exact Hh |].
  split; [exists q; exact HP |].
  split.
  { intros result st p.
    destruct (complete_pending w1 _ q _ data result st p HP)
      as (Hc & HP2).
    eexists. split; [exact Hc |]. split; [exact HP2 |].
    rewrite Hf. wsimpl. rewrite lookup_insert_ne by lia. exact Hh. }
  intros w2 q2 HP2 Hpay.
  exact (callback_resumes_once fuel (callbackOf ep) w2 _ q2 _ data HP2 Hpay).
Qed.

End Resumption.

Lemma deleteArgsWorld_wf : heapWf deleteArgsWorld.
Proof. intros l _. reflexivity. Qed.

Lemma resumed_exactly_once_witness :
  exists w1 t1 h w3 t3,
    issue linux EpFileDelete deleteArgsWorld = Ok tt w1 t1 /\
    omap resumed t1 = [] /\
    heap w1 !! h = Some (BHandle (VFiber 7)) /\
    (complete 2 0 zeroStat PNull ;; invoke linux 0 CbFileDelete 2) w1 =
      Ok tt w3 t3 /\
    omap resumed t3 = [h].
Proof.
  destruct (resumed_exactly_once linux 0 EpFileDelete deleteArgsWorld
              (VFiber 7) deleteArgsWorld_wf)
    as (w1 & t1 & c & d & data & Hrun & Hres & _ & _ & _ & _ & Hh & HP & _ &
        Hcb).
  - exists "a.txt", (VFiber 7). split; reflexivity.
  - reflexivity.
  - destruct HP as (q & HP).
    change (Pos.succ (next deleteArgsWorld)) with 2%positive in HP, Hcb.
    cbn [callbackOf] in Hcb.
    destruct (complete_pending w1 _ q d data 0 zeroStat PNull HP)
      as (Hc & HP2).
    destruct (Hcb _ _ HP2 (fun _ => I)) as (w3 & t3 & Hinv & Hres3 & _).
    exists w1, t1, (fiber data), w3, t3.
    split; [exact Hrun |]. split; [exact Hres |]. split; [exact Hh |].
    split; [| exact Hres3].
    unfold bind. rewrite Hc, Hinv. reflexivity.
Defined.

(** * Order of freeing and resuming *)

Lemma precedes_free_resume r d f b pre post :
  precedes (EvFree d) (EvResume f b)
    (pre ++ freeEvents r d ++ EvResume f b :: post) /\
  precedes (EvFree r) (EvResume f b)
    (pre ++ freeEvents r d ++ EvResume f b :: post).
Proof.
  split; apply precedes_app_l.
  - exists [], [EvUv (UvFsReqCleanup r); EvFree r], post. reflexivity.
  - exists [EvFree d; EvUv (UvFsReqCleanup r)], [], post. reflexivity.
Qed.

Section FreeOrder.

Variable host : Platform.

(** C2, as the code has it. Every completion callback returns. On a
    non-negative result the [FileRequestData] and the request are freed
    before [schedulerResume] is called; the read callback frees its buffer
    after [schedulerFinishResume]; the write callback frees its buffer
    first, before the record and before [schedulerResume]. On a negative
    result [schedulerResumeError] is called first and the
    [FileRequestData] and the request are freed after it. *)
Theorem free_resume_order fuel cb w r q d data :
  Pending w r q d data ->
  (0 <= fs_result q -> Payload fuel cb w q data) ->
  exists w' t,
    invoke host fuel cb r w = Ok tt w' t /\
    (0 <= fs_result q ->
     precedes (EvFree d) (EvResume (fiber data) (hasArgument cb)) t /\
     precedes (EvFree r) (EvResume (fiber data) (hasArgument cb)) t /\
     (cb = CbFileReadBytes ->
      exists b,
        buf_base (buffer data) = Some b /\
        precedes (EvResume (fiber data) true) EvFinishResume t /\
        precedes EvFinishResume (EvFree b) t) /\
     (cb = CbFileWriteBytes ->
      exists b,
        buf_base (buffer data) = Some b /\
        precedes (EvFree b) (EvFree d) t /\
        precedes (EvFree b) (EvResume (fiber data) false) t)) /\
    (fs_result q < 0 ->
     precedes
       (EvResumeError (fiber data) (uv_strerror host (fs_result q)))
       (EvFree d) t /\
     precedes
       (EvResumeError (fiber data) (uv_strerror host (fs_result q)))
       (EvFree r) t).
Proof.
  intros HP Hpay. destruct (Z.lt_ge_cases (fs_result q) 0) as [Hneg | Hq].
  - rewrite (invoke_error host fuel cb w r q d data HP Hneg).
    eexists _, _. split; [reflexivity |]. split; [lia |]. intros _. split.
    + exists [], [], [EvUv (UvFsReqCleanup r); EvFree r]. reflexivity.
    + exists [], [EvFree d; EvUv (UvFsReqCleanup r)], []. reflexivity.
  - destruct (invoke_success host fuel cb w r q d data HP Hq (Hpay Hq))
      as (w' & pre & post & Hrun & Hquiet & Hshape).
    eexists _, _. split; [exact Hrun |]. split; [| lia]. intros _.
    destruct (precedes_free_resume r d (fiber data) (hasArgument cb) pre post)
      as (Hd & Hr).
    split; [exact Hd |]. split; [exact Hr |]. split.
    + intros ->. cbn [Shape] in Hshape.
      destruct Hshape as (-> & v & b & Hb & ->).
      exists b. split; [exact Hb |]. split.
      * exists (freeEvents r d), [EvSetSlot 2 v], [EvFree b]. reflexivity.
      * exists (freeEvents r d ++ [EvResume (fiber data) true; EvSetSlot 2 v]),
          [], []. reflexivity.
    + intros ->. cbn [Shape] in Hshape.
      destruct Hshape as (-> & b & Hb & ->).
      exists b. split; [exact Hb |]. split.
      * exists [], [], [EvUv (UvFsReqCleanup r); EvFree r;
                        EvResume (fiber data) false]. reflexivity.
      * exists [], (freeEvents r d), []. reflexivity.
Qed.

End FreeOrder.

Lemma free_resume_order_witness :
  exists w' t,
    invoke linux 1 CbFileWriteBytes 3
      (sampleWorld 2 zeroStat PNull [104; 105]) = Ok tt w' t /\
    precedes (EvFree 5) (EvResume 2 false) t.
Proof.
  destruct (free_resume_order linux 1 CbFileWriteBytes _ _ _ _ _
              (sample_pending 2 zeroStat PNull [104; 105]))
    as (w' & t & Hrun & Hok & _).
  - intros _. exists 5%positive, [104; 105]. split; reflexivity.
  - exists w', t. split; [exact Hrun |].
    destruct Hok as (_ & _ & _ & Hw); [cbn; lia |].
    destruct (Hw eq_refl) as (b & Hb & _ & Hp).
    cbn in Hb. injection Hb as <-. exact Hp.
Defined.

(** Freeing the record before every resumption, and every buffer after it,
    fails twice. On the error path the record is freed after the
    resumption, not before: a failed open resumes with the error and
    only then frees blocks 4 and 3. And the write callback releases its
    buffer (block 5) before the resumption, not after. *)
Lemma free_resume_order_counterexample :
  (exists w',
     invoke linux 1 CbFileOpen 3 (sampleWorld (-2) zeroStat PNull []) =
       Ok tt w'
          [EvResumeError 2 "no such file or directory"; EvFree 4;
           EvUv (UvFsReqCleanup 3); EvFree 3] /\
     ~ precedes (EvFree 3) (EvResumeError 2 "no such file or directory")
         [EvResumeError 2 "no such file or directory"; EvFree 4;
          EvUv (UvFsReqCleanup 3); EvFree 3]) /\
  (exists w',
     invoke linux 1 CbFileWriteBytes 3
       (sampleWorld 2 zeroStat PNull [104; 105]) =
       Ok tt w'
          [EvFree 5; EvFree 4; EvUv (UvFsReqCleanup 3); EvFree 3;
           EvResume 2 false] /\
     ~ precedes (EvResume 2 false) (EvFree 5)
         [EvFree 5; EvFree 4; EvUv (UvFsReqCleanup 3); EvFree 3;
          EvResume 2 false]).
Proof.
  split.
  - eexists. split; [vm_compute; reflexivity | refute_precedes].
  - eexists. split; [vm_compute; reflexivity | refute_precedes].
Qed.

(** * The two phases of a resumption *)

Section TwoPhase.

Variable host : Platform.

(** C3, as the code has it. On a non-negative result every completion
    callback returns, having freed the record and then called
    [schedulerResume] once. The open, size and read callbacks pass [true],
    then write their result into slot 2 (the descriptor, the size, the
    bytes read), then call [schedulerFinishResume]. The real-path, stat
    and directory-list callbacks write their result into slot 2 (the
    resolved path, a new [Stat] object holding the stat buffer, the list of
    the entries' names) before the record is freed, pass [true], and call
    [schedulerFinishResume] immediately after [schedulerResume]. The
    close, delete and write callbacks pass [false] and call nothing after
    [schedulerResume]. *)
Theorem resume_phases fuel cb w r q d data :
  Pending w r q d data -> 0 <= fs_result q -> Payload fuel cb w q data ->
  exists w' pre post,
    invoke host fuel cb r w =
      Ok tt w'
         (pre ++ freeEvents r d ++
          EvResume (fiber data) (hasArgument cb) :: post) /\
    Forall quiet pre /\
    (In cb [CbFileOpen; CbFileSize; CbFileReadBytes; CbRealPath; CbStat;
            CbDirectoryList] -> hasArgument cb = true) /\
    (cb = CbFileOpen ->
     pre = [] /\
     post = [EvSetSlot 2 (VNum (toDouble (fs_result q))); EvFinishResume] /\
     slots w' !! 2 = Some (VNum (toDouble (fs_result q)))) /\
    (cb = CbFileSize ->
     pre = [] /\
     post = [EvSetSlot 2 (VNum (toDouble (st_size (fs_statbuf q))));
             EvFinishResume] /\
     slots w' !! 2 = Some (VNum (toDouble (st_size (fs_statbuf q))))) /\
    (cb = CbFileReadBytes ->
     pre = [] /\
     exists b bs,
       buf_base (buffer data) = Some b /\ heap w !! b = Some (BBuf bs) /\
       post = [EvSetSlot 2 (VBytes (take (Z.to_nat (fs_result q)) bs));
               EvFinishResume; EvFree b] /\
       slots w' !! 2 = Some (VBytes (take (Z.to_nat (fs_result q)) bs))) /\
    (cb = CbRealPath ->
     exists s,
       fs_ptr q = PPath s /\
       pre = [EvEnsureSlots 3; EvSetSlot 2 (VString s)] /\
       post = [EvFinishResume] /\
       slots w' !! 2 = Some (VString s)) /\
    (cb = CbStat ->
     exists l cls pre0,
       pre = pre0 ++
             [EvSetSlot 2 cls; EvSetSlot 2 (VForeign l);
              EvForeignWrite l (FStat (fs_statbuf q))] /\
       Forall (fun e => forall v, e <> EvSetSlot 2 v) pre0 /\
       post = [EvFinishResume] /\
       slots w' !! 2 = Some (VForeign l) /\
       heap w !! l = None /\
       heap w' !! l = Some (BForeign cls (FStat (fs_statbuf q)))) /\
    (cb = CbDirectoryList ->
     pre = [EvEnsureSlots 3; EvSetSlot 2 (VList [])] ++
           concat (entryEvents r <$> entriesOf q) ++
           [EvUv (UvFsScandirNext r)] /\
     post = [EvFinishResume] /\
     slots w' !! 2 = Some (VList (VString <$> entriesOf q))) /\
    (In cb [CbFileClose; CbFileDelete; CbFileWriteBytes] ->
     hasArgument cb = false /\ post = []).
Proof.
  intros HP Hq Hpay. pending_facts HP.
  destruct cb; cbn [invoke hasArgument Payload] in *.
  - (* directory list *)
    destruct (directoryListCallback_ok host fuel w r q d data HP Hq Hpay)
      as (w' & Hrun & Hs & _).
    exists w',
      ([EvEnsureSlots 3; EvSetSlot 2 (VList [])] ++
       concat (entryEvents r <$> entriesOf q) ++ [EvUv (UvFsScandirNext r)]),
      [EvFinishResume].
    split; [rewrite Hrun; rewrite <- !app_assoc; reflexivity |].
    split.
    { apply Forall_app. split; [repeat constructor |].
      apply Forall_app. split; [apply quiet_entryEvents | repeat constructor]. }
    split; [reflexivity |].
    do 5 (split; [intros Hcb; discriminate Hcb |]).
    split; [intros _; repeat split; exact Hs |].
    intros Hin. cbn in Hin. intuition discriminate.
  - (* delete *)
    rewrite (fileDeleteCallback_ok host w r q d data HP Hq).
    eexists _, [], []. split; [reflexivity |]. split; [constructor |].
    split; [intros Hin; cbn in Hin; intuition discriminate |].
    do 6 (split; [intros Hcb; discriminate Hcb |]).
    intros _. split; reflexivity.
  - (* open *)
    rewrite (fileOpenCallback_ok host w r q d data HP Hq).
    eexists _, [], _. split; [reflexivity |]. split; [constructor |].
    split; [reflexivity |].
    split.
    { intros _. split; [reflexivity |]. split; [reflexivity |].
      wsimpl. apply lookup_insert_eq. }
    do 5 (split; [intros Hcb; discriminate Hcb |]).
    intros Hin. cbn in Hin. intuition discriminate.
  - (* size *)
    rewrite (fileSizeCallback_ok host w r q d data HP Hq).
    eexists _, [], _. split; [reflexivity |]. split; [constructor |].
    split; [reflexivity |].
    split; [intros Hcb; discriminate Hcb |].
    split.
    { intros _. split; [reflexivity |]. split; [reflexivity |].
      wsimpl. apply lookup_insert_eq. }
    do 4 (split; [intros Hcb; discriminate Hcb |]).
    intros Hin. cbn in Hin. intuition discriminate.
  - (* close *)
    rewrite (fileCloseCallback_ok host w r q d data HP Hq).
    eexists _, [], []. split; [reflexivity |]. split; [constructor |].
    split; [intros Hin; cbn in Hin; intuition discriminate |].
    do 6 (split; [intros Hcb; discriminate Hcb |]).
    intros _. split; reflexivity.
  - (* read *)
    destruct Hpay as (b & bs & Hb & Hbs & Hn).
    rewrite (fileReadBytesCallback_ok host w r q d data b bs HP Hq Hb Hbs Hn).
    eexists _, [], _. split; [reflexivity |]. split; [constructor |].
    split; [reflexivity |].
    do 2 (split; [intros Hcb; discriminate Hcb |]).
    split.
    { intros _. split; [reflexivity |]. exists b, bs.
      split; [exact Hb |]. split; [exact Hbs |]. split; [reflexivity |].
      wsimpl. apply lookup_insert_eq. }
    do 3 (split; [intros Hcb; discriminate Hcb |]).
    intros Hin. cbn in Hin. intuition discriminate.
  - (* real path *)
    destruct Hpay as (s & Hs).
    rewrite (realPathCallback_ok host w r q d data s HP Hq Hs).
    eexists _, [EvEnsureSlots 3; EvSetSlot 2 (VString s)], [EvFinishResume].
    split; [reflexivity |]. split; [repeat constructor |].
    split; [reflexivity |].
    do 3 (split; [intros Hcb; discriminate Hcb |]).
    split.
    { intros _. exists s. split; [exact Hs |]. split; [reflexivity |].
      split; [reflexivity |]. wsimpl. apply lookup_insert_eq. }
    do 2 (split; [intros Hcb; discriminate Hcb |]).
    intros Hin. cbn in Hin. intuition discriminate.
  - (* stat *)
    destruct (statClass w) as [h |] eqn:Hc.
    + destruct (Hpay h eq_refl) as (v & Hh).
      destruct (statCallback_cached host w r q d data h v HP Hq Hc Hh)
        as (w' & Hrun & Hs & Hl & _).
      rewrite Hrun.
      eexists w',
        ([EvEnsureSlots 3] ++
         [EvSetSlot 2 v; EvSetSlot 2 (VForeign (next w));
          EvForeignWrite (next w) (FStat (fs_statbuf q))]),
        [EvFinishResume].
      split; [reflexivity |]. split; [repeat constructor |].
      split; [reflexivity |].
      do 4 (split; [intros Hcb; discriminate Hcb |]).
      split.
      { intros _. exists (next w), v, [EvEnsureSlots 3].
        split; [reflexivity |].
        split; [repeat constructor; intros ? Hx; discriminate Hx |].
        split; [reflexivity |]. split; [exact Hs |].
        split; [apply Hwf; lia | exact Hl]. }
      split; [intros Hcb; discriminate Hcb |].
      intros Hin. cbn in Hin. intuition discriminate.
    + destruct (statCallback_first host w r q d data HP Hq Hc)
        as (w' & Hrun & Hs & Hl & _).
      rewrite Hrun.
      eexists w',
        ([EvEnsureSlots 3; EvSetSlot 0 (VClass "io" "Stat");
          EvMakeHandle (next w) (VClass "io" "Stat")] ++
         [EvSetSlot 2 (VClass "io" "Stat");
          EvSetSlot 2 (VForeign (Pos.succ (next w)));
          EvForeignWrite (Pos.succ (next w)) (FStat (fs_statbuf q))]),
        [EvFinishResume].
      split; [reflexivity |]. split; [repeat constructor |].
      split; [reflexivity |].
      do 4 (split; [intros Hcb; discriminate Hcb |]).
      split.
      { intros _.
        exists (Pos.succ (next w)), (VClass "io" "Stat"),
          [EvEnsureSlots 3; EvSetSlot 0 (VClass "io" "Stat");
           EvMakeHandle (next w) (VClass "io" "Stat")].
        split; [reflexivity |].
        split; [repeat constructor; intros ? Hx; discriminate Hx |].
        split; [reflexivity |]. split; [exact Hs |].
        split; [apply Hwf; lia | exact Hl]. }
      split; [intros Hcb; discriminate Hcb |].
      intros Hin. cbn in Hin. intuition discriminate.
  - (* write *)
    destruct Hpay as (b & bs & Hb & Hbs).
    rewrite (fileWriteBytesCallback_ok host w r q d data b bs HP Hq Hb Hbs).
    eexists _, [EvFree b], []. split; [reflexivity |].
    split; [repeat constructor |].
    split; [intros Hin; cbn in Hin; intuition discriminate |].
    do 6 (split; [intros Hcb; discriminate Hcb |]).
    intros _. split; reflexivity.
Qed.

End TwoPhase.

Lemma resume_phases_witness :
  exists w' pre post,
    invoke linux 1 CbRealPath 3
      (sampleWorld 0 zeroStat (PPath "/tmp/a") []) =
      Ok tt w' (pre ++ freeEvents 3 4 ++ EvResume 2 true :: post) /\
    pre = [EvEnsureSlots 3; EvSetSlot 2 (VString "/tmp/a")] /\
    post = [EvFinishResume].
Proof.
  destruct (resume_phases linux 1 CbRealPath _ _ _ _ _
              (sample_pending 0 zeroStat (PPath "/tmp/a") []))
    as (w' & pre & post & Hrun & _ & _ & _ & _ & _ & Hw & _).
  - cbn. lia.
  - exists "/tmp/a". reflexivity.
  - exists w', pre, post. split; [exact Hrun |].
    destruct (Hw eq_refl) as (s & Hs & Hpre & Hpost & _).
    cbn in Hs. injection Hs as <-.
    split; [exact Hpre | exact Hpost].
Defined.

(** Resuming first and writing the result afterwards fails for the
    real-path callback (and likewise for stat and directory list): the
    result is written into slot 2 before [schedulerResume], and nothing is
    written between [schedulerResume] and [schedulerFinishResume]. *)
Lemma resume_phases_counterexample :
  exists w',
    invoke linux 1 CbRealPath 3
      (sampleWorld 0 zeroStat (PPath "/tmp/a") []) =
      Ok tt w'
         [EvEnsureSlots 3; EvSetSlot 2 (VString "/tmp/a"); EvFree 4;
          EvUv (UvFsReqCleanup 3); EvFree 3; EvResume 2 true;
          EvFinishResume] /\
    ~ exists v,
        precedes (EvResume 2 true) (EvSetSlot 2 v)
          [EvEnsureSlots 3; EvSetSlot 2 (VString "/tmp/a"); EvFree 4;
           EvUv (UvFsReqCleanup 3); EvFree 3; EvResume 2 true;
           EvFinishResume].
Proof.
  eexists. split; [vm_compute; reflexivity |].
  intros (v & H). revert H. refute_precedes.
Qed.

(** * Closing a file *)

Section Close.

Variable host : Platform.

Lemma fileClose_closed w l cls :
  slots w !! 0 = Some (VForeign l) ->
  heap w !! l = Some (BForeign cls (FInt (-1))) ->
  fileClose w =
    Ok tt (setSlots (<[0 := VBool true]> (slots w)) w)
       [EvSetSlot 0 (VBool true)].
Proof.
  intros Hs Hl. unfold fileClose. repeat (progress (run; heap_simpl)).
  reflexivity.
Qed.

Lemma fileClose_open w l cls fd v :
  heapWf w ->
  slots w !! 0 = Some (VForeign l) ->
  heap w !! l = Some (BForeign cls (FInt fd)) ->
  fd <> -1 ->
  slots w !! 1 = Some v ->
  exists w',
    fileClose w =
      Ok tt w'
         [EvForeignWrite l (FInt (-1)); EvMakeHandle (next w) v;
          EvMalloc (Pos.succ (next w));
          EvMalloc (Pos.succ (Pos.succ (next w)));
          EvUv (UvFsClose (Pos.succ (next w)) fd CbFileClose);
          EvSetSlot 0 (VBool false)] /\
    heap w' !! l = Some (BForeign cls (FInt (-1))) /\
    Pending w' (Pos.succ (next w))
      (mkReq 0 (Some (Pos.succ (Pos.succ (next w)))) zeroStat PNull 0)
      (Pos.succ (Pos.succ (next w)))
      (mkData (next w) (mkBuf None 0)).
Proof.
  intros Hwf Hs Hl Hfd Hv.
  pose proof (live_below _ _ _ Hwf Hl) as Hlt.
  eexists. split.
  - unfold fileClose, createRequest. repeat (progress (run; heap_simpl)).
    rewrite eqb_neq_false by exact Hfd.
    repeat (progress (run; heap_simpl)). reflexivity.
  - split.
    + lookup_tac.
    + split.
      * wf_tac Hwf.
      * lookup_tac.
      * reflexivity.
      * lookup_tac.
Qed.

(** C5. Closing a file whose descriptor is already the sentinel [-1]
    stores [true] in slot 0 and does nothing else: no libuv call, no
    request allocated, the heap unchanged. Closing an open file first
    overwrites the descriptor with [-1], then allocates the request, then
    issues [uv_fs_close] on the old descriptor with [fileCloseCallback],
    and stores [false] in slot 0; when the close completes with a
    non-negative result the callback frees the record and resumes the fiber
    with no value and no finish phase. *)
Theorem fileClose_spec w l cls fd :
  heapWf w ->
  slots w !! 0 = Some (VForeign l) ->
  heap w !! l = Some (BForeign cls (FInt fd)) ->
  (fd = -1 ->
   fileClose w =
     Ok tt (setSlots (<[0 := VBool true]> (slots w)) w)
        [EvSetSlot 0 (VBool true)]) /\
  (fd <> -1 ->
   forall v, slots w !! 1 = Some v ->
   exists w',
     fileClose w =
       Ok tt w'
          [EvForeignWrite l (FInt (-1)); EvMakeHandle (next w) v;
           EvMalloc (Pos.succ (next w));
           EvMalloc (Pos.succ (Pos.succ (next w)));
           EvUv (UvFsClose (Pos.succ (next w)) fd CbFileClose);
           EvSetSlot 0 (VBool false)] /\
     heap w' !! l = Some (BForeign cls (FInt (-1))) /\
     Pending w' (Pos.succ (next w))
       (mkReq 0 (Some (Pos.succ (Pos.succ (next w)))) zeroStat PNull 0)
       (Pos.succ (Pos.succ (next w)))
       (mkData (next w) (mkBuf None 0)) /\
     forall w1 q1 data1,
       Pending w1 (Pos.succ (next w)) q1 (Pos.succ (Pos.succ (next w))) data1 ->
       0 <= fs_result q1 ->
       invoke host 0 CbFileClose (Pos.succ (next w)) w1 =
         Ok tt
            (setHeap
               (delete (Pos.succ (next w))
                  (delete (Pos.succ (Pos.succ (next w))) (heap w1))) w1)
            [EvFree (Pos.succ (Pos.succ (next w)));
             EvUv (UvFsReqCleanup (Pos.succ (next w)));
             EvFree (Pos.succ (next w)); EvResume (fiber data1) false]).
Proof.
  intros Hwf Hs Hl. split.
  - intros ->. exact (fileClose_closed w l cls Hs Hl).
  - intros Hfd v Hv.
    destruct (fileClose_open w l cls fd v Hwf Hs Hl Hfd Hv)
      as (w' & Hrun & Hl' & HP).
    exists w'. split; [exact Hrun |]. split; [exact Hl' |].
    split; [exact HP |].
    intros w1 q1 data1 HP1 Hq1. cbn [invoke].
    exact (fileCloseCallback_ok host w1 _ q1 _ data1 HP1 Hq1).
Qed.

End Close.

Lemma fileWorld_wf fd : heapWf (fileWorld fd).
Proof.
  apply heapWf_intro. unfold fileWorld. cbn [heap next].
  apply map_Forall_insert_2; [reflexivity | apply map_Forall_empty].
Qed.

Lemma fileClose_witness :
  fileClose (fileWorld (-1)) =
    Ok tt (setSlots (<[0 := VBool true]> (slots (fileWorld (-1))))
             (fileWorld (-1)))
       [EvSetSlot 0 (VBool true)] /\
  exists w',
    fileClose (fileWorld 7) =
      Ok tt w'
         [EvForeignWrite 1 (FInt (-1)); EvMakeHandle 2 (VFiber 0);
          EvMalloc 3; EvMalloc 4; EvUv (UvFsClose 3 7 CbFileClose);
          EvSetSlot 0 (VBool false)] /\
    heap w' !! 1%positive = Some (BForeign (VClass "io" "File") (FInt (-1))).
Proof.
  split.
  - apply (fileClose_spec linux (fileWorld (-1)) 1 (VClass "io" "File") (-1)
             (fileWorld_wf (-1)) eq_refl eq_refl).
    reflexivity.
  - destruct (fileClose_spec linux (fileWorld 7) 1 (VClass "io" "File") 7
                (fileWorld_wf 7) eq_refl eq_refl) as (_ & Hopen).
    destruct (Hopen ltac:(lia) (VFiber 0) eq_refl) as (w' & Hrun & Hl & _).
    exists w'. split; [exact Hrun | exact Hl].
Defined.

(** * Reading bytes *)

Lemma completeRead_run w r q d data b old bytes :
  Pending w r q d data ->
  buf_base (buffer data) = Some b -> heap w !! b = Some (BBuf old) ->
  Z.of_nat (List.length bytes) <= buf_len (buffer data) ->
  completeRead r bytes w =
    Ok tt
       (setHeap
          (<[r := BReq (mkReq (Z.of_nat (List.length bytes)) (Some d)
                          zeroStat PNull 0)]>
             (<[b := BBuf (bytes ++ drop (List.length bytes) old)]> (heap w)))
          w) [].
Proof.
  intros HP Hb Hold Hle. pending_facts HP.
  assert (b <> r) by (intros ->; congruence).
  unfold completeRead, complete. repeat (progress (run; heap_simpl)).
  replace (Z.of_nat (List.length bytes) <=? buf_len (buffer data)) with true
    by (symmetry; apply Z.leb_le; exact Hle).
  repeat (progress (run; heap_simpl)). reflexivity.
Qed.

Section Read.

Variable host : Platform.

(** What [fileReadBytes] does, given its arguments. *)
Lemma fileReadBytes_run w l cls fd len off v :
  heapWf w ->
  slots w !! 0 = Some (VForeign l) ->
  heap w !! l = Some (BForeign cls (FInt fd)) ->
  slots w !! 1 = Some (VNum len) ->
  slots w !! 2 = Some (VNum off) ->
  slots w !! 3 = Some v ->
  0 <= len <= SIZE_MAX -> 0 <= off <= SIZE_MAX ->
  malloc_ok host len = true ->
  exists w1,
    fileReadBytes host w =
      Ok tt w1
         [EvMakeHandle (next w) v; EvMalloc (Pos.succ (next w));
          EvMalloc (Pos.succ (Pos.succ (next w)));
          EvMalloc (Pos.succ (Pos.succ (Pos.succ (next w))));
          EvUv (UvFsRead (Pos.succ (next w)) fd
                  (mkBuf (Some (Pos.succ (Pos.succ (Pos.succ (next w))))) len)
                  (toInt64 off) CbFileReadBytes)] /\
    heap w1 !! next w = Some (BHandle v) /\
    Pending w1 (Pos.succ (next w))
      (mkReq 0 (Some (Pos.succ (Pos.succ (next w)))) zeroStat PNull 0)
      (Pos.succ (Pos.succ (next w)))
      (mkData (next w)
         (mkBuf (Some (Pos.succ (Pos.succ (Pos.succ (next w))))) len)) /\
    heap w1 !! Pos.succ (Pos.succ (Pos.succ (next w))) =
      Some (BBuf (replicate (Z.to_nat len) 0)) /\
    slots w1 = slots w.
Proof.
  intros Hwf H0 Hl H1 H2 H3 Hlen Hoff Hm.
  pose proof (live_below _ _ _ Hwf Hl) as Hlt.
  eexists. split.
  { unfold fileReadBytes, createRequest, mallocBytes.
    repeat (progress (run; heap_simpl; cast_simpl)). reflexivity. }
  split; [lookup_tac |].
  split; [split; [wf_tac Hwf | lookup_tac | reflexivity | lookup_tac] |].
  split; [lookup_tac | reflexivity].
Qed.

(** C6. [fileReadBytes], called on a file with a length, an offset and a
    fiber, makes a handle of the fiber and asks libuv to read into a new
    buffer of that length, at that offset, from the file's descriptor, with
    [fileReadBytesCallback]. When that read completes with a non-negative
    result [n], which the reactor keeps within the buffer's length, the
    callback takes the value path: it resumes that handle expecting a
    value, stores in slot 2 the first [n] bytes of the buffer, a byte
    sequence of length exactly [n] (shorter than the buffer for a short
    read, empty for [n = 0]), finishes the resumption and frees the buffer;
    [schedulerResumeError] is not called. So when the reactor has read
    [bytes], as many as asked for or fewer, the fiber is resumed with
    exactly [bytes]. *)
Theorem read_delivers_bytes_read fuel w l cls fd len off v :
  heapWf w ->
  slots w !! 0 = Some (VForeign l) ->
  heap w !! l = Some (BForeign cls (FInt fd)) ->
  slots w !! 1 = Some (VNum len) ->
  slots w !! 2 = Some (VNum off) ->
  slots w !! 3 = Some v ->
  0 <= len <= SIZE_MAX -> 0 <= off <= SIZE_MAX ->
  malloc_ok host len = true ->
  exists w1 h r d b,
    fileReadBytes host w =
      Ok tt w1
         [EvMakeHandle h v; EvMalloc r; EvMalloc d; EvMalloc b;
          EvUv (UvFsRead r fd (mkBuf (Some b) len) (toInt64 off)
                  CbFileReadBytes)] /\
    heap w !! h = None /\
    heap w1 !! h = Some (BHandle v) /\
    (exists q bs,
       Pending w1 r q d (mkData h (mkBuf (Some b) len)) /\
       heap w1 !! b = Some (BBuf bs) /\ Z.of_nat (List.length bs) = len) /\
    (forall w2 q bs,
       Pending w2 r q d (mkData h (mkBuf (Some b) len)) ->
       heap w2 !! b = Some (BBuf bs) -> Z.of_nat (List.length bs) = len ->
       0 <= fs_result q <= len ->
       exists w3 t3,
         invoke host fuel CbFileReadBytes r w2 = Ok tt w3 t3 /\
         t3 = [EvFree d; EvUv (UvFsReqCleanup r); EvFree r;
               EvResume h true;
               EvSetSlot 2 (VBytes (take (Z.to_nat (fs_result q)) bs));
               EvFinishResume; EvFree b] /\
         slots w3 !! 2 = Some (VBytes (take (Z.to_nat (fs_result q)) bs)) /\
         Z.of_nat (List.length (take (Z.to_nat (fs_result q)) bs)) =
           fs_result q /\
         (fs_result q = 0 -> slots w3 !! 2 = Some (VBytes [])) /\
         count isErrorResume t3 = 0%nat) /\
    (forall bytes,
       Z.of_nat (List.length bytes) <= len ->
       exists w3 t3,
         (completeRead r bytes ;; invoke host fuel CbFileReadBytes r) w1 =
           Ok tt w3 t3 /\
         omap resumed t3 = [h] /\
         count isValueResume t3 = 1%nat /\ count isErrorResume t3 = 0%nat /\
         slots w3 !! 2 = Some (VBytes bytes) /\
         heap w3 !! h = Some (BHandle v)).
Proof.
  intros Hwf H0 Hl H1 H2 H3 Hlen Hoff Hm.
  destruct (fileReadBytes_run w l cls fd len off v Hwf H0 Hl H1 H2 H3 Hlen
              Hoff Hm) as (w1 & Hrun & Hh & HP & Hb & Hs).
  exists w1, (next w), (Pos.succ (next w)), (Pos.succ (Pos.succ (next w))),
    (Pos.succ (Pos.succ (Pos.succ (next w)))).
  split; [exact Hrun |].
  split; [apply Hwf; lia |].
  split; [exact Hh |].
  split.
  { eexists _, _. split; [exact HP |]. split; [exact Hb |].
    rewrite length_replicate. lia. }
  split.
  - intros w2 q bs HP2 Hb2 Hbs Hn. cbn [invoke].
    rewrite (fileReadBytesCallback_ok host w2 _ q _ _ _ bs HP2
               ltac:(lia) eq_refl Hb2 ltac:(lia)).
    eexists _, _. split; [reflexivity |]. split; [reflexivity |].
    split; [wsimpl; apply lookup_insert_eq |].
    split; [rewrite length_take; lia |].
    split; [| reflexivity].
    intros Hz. wsimpl. rewrite Hz. cbn. apply lookup_insert_eq.
  - intros bytes Hle.
    pose proof (completeRead_run w1 _ _ _ _ _ _ bytes HP eq_refl Hb Hle)
      as Hc.
    pending_facts HP.
    pose proof (live_below _ _ _ Hwf0 Hr) as Hlr.
    pose proof (live_below _ _ _ Hwf0 Hb) as Hlb.
    match type of Hc with
    | _ = Ok tt ?w2 [] =>
        assert (HP2 :
          Pending w2 (Pos.succ (next w))
            (mkReq (Z.of_nat (List.length bytes))
               (Some (Pos.succ (Pos.succ (next w)))) zeroStat PNull 0)
            (Pos.succ (Pos.succ (next w)))
            (mkData (next w)
               (mkBuf (Some (Pos.succ (Pos.succ (Pos.succ (next w))))) len)))
          by (split; [wf_tac Hwf0 | lookup_tac | reflexivity | lookup_tac]);
        pose proof
          (fileReadBytesCallback_ok host w2 _ _ _ _ _
             (bytes ++ drop (List.length bytes) (replicate (Z.to_nat len) 0))
             HP2 ltac:(cbn; lia) eq_refl ltac:(lookup_tac)
             ltac:(cbn; rewrite length_app; lia)) as Hcb
    end.
    eexists _, _. split.
    { unfold bind at 1. rewrite Hc. cbn [invoke]. rewrite Hcb. reflexivity. }
    cbn [fs_result fiber buffer buf_base]. rewrite Nat2Z.id, take_app_length.
    split; [reflexivity |]. split; [reflexivity |]. split; [reflexivity |].
    split; [wsimpl; apply lookup_insert_eq |].
    lookup_tac.
Qed.

End Read.

Lemma readArgsWorld_wf : heapWf readArgsWorld.
Proof.
  apply heapWf_intro. unfold readArgsWorld. cbn [heap next].
  apply map_Forall_insert_2; [reflexivity | apply map_Forall_empty].
Qed.

Lemma read_delivers_bytes_read_witness :
  exists w1 h r d b w3 t3,
    fileReadBytes linux readArgsWorld =
      Ok tt w1
         [EvMakeHandle h (VFiber 0); EvMalloc r; EvMalloc d; EvMalloc b;
          EvUv (UvFsRead r 3 (mkBuf (Some b) 4) 0 CbFileReadBytes)] /\
    (completeRead r [104; 105] ;; invoke linux 1 CbFileReadBytes r) w1 =
      Ok tt w3 t3 /\
    omap resumed t3 = [h] /\
    slots w3 !! 2 = Some (VBytes [104; 105]).
Proof.
  destruct (read_delivers_bytes_read linux 1 readArgsWorld 1
              (VClass "io" "File") 3 4 0 (VFiber 0) readArgsWorld_wf
              eq_refl eq_refl eq_refl eq_refl eq_refl)
    as (w1 & h & r & d & b & Hrun & _ & _ & _ & _ & Hend);
    [unfold SIZE_MAX; lia | unfold SIZE_MAX; lia | reflexivity |].
  destruct (Hend [104; 105] ltac:(cbn; lia))
    as (w3 & t3 & Hcb & Hres & _ & _ & Hs & _).
  exists w1, h, r, d, b, w3, t3.
  split; [exact Hrun |].
  split; [exact Hcb | split; [exact Hres | exact Hs]].
Defined.

(** * Listing a directory *)

Section List.

Variable host : Platform.

(** What [directoryList] does, given its arguments. *)
Lemma directoryList_run w path v :
  heapWf w ->
  slots w !! 1 = Some (VString path) -> slots w !! 2 = Some v ->
  exists w1,
    directoryList w =
      Ok tt w1
         [EvMakeHandle (next w) v; EvMalloc (Pos.succ (next w));
          EvMalloc (Pos.succ (Pos.succ (next w)));
          EvUv (UvFsScandir (Pos.succ (next w)) path 0 CbDirectoryList)] /\
    heap w1 !! next w = Some (BHandle v) /\
    Pending w1 (Pos.succ (next w))
      (mkReq 0 (Some (Pos.succ (Pos.succ (next w)))) zeroStat PNull 0)
      (Pos.succ (Pos.succ (next w))) (mkData (next w) (mkBuf None 0)).
Proof.
  intros Hwf H1 H2. eexists. split.
  { unfold directoryList, createRequest.
    repeat (progress (run; heap_simpl)). reflexivity. }
  split; [lookup_tac |].
  split; [wf_tac Hwf | lookup_tac | reflexivity | lookup_tac].
Qed.

(** C8. [directoryList], called with a path and a fiber, makes a handle of
    the fiber and asks libuv to scan the directory at that path, with
    [directoryListCallback]. When that scan completes with a non-negative
    result and the loop is given more iterations than there are entries
    left, the callback creates a new empty list in slot 2, then for each
    entry the cursor yields, in the order the request holds them, stores
    its name in slot 1 and appends it to the list, stops at the first
    [UV_EOF], frees the record, and resumes that handle on the value path;
    slot 2 then holds exactly the entries' names in that order. With no
    entries the list is empty and the fiber is still resumed on the value
    path. So when the reactor reports the entries [names] for the scan,
    the fiber is resumed with the list of exactly [names]. *)
Theorem directoryList_lists_entries fuel w path v :
  heapWf w ->
  slots w !! 1 = Some (VString path) -> slots w !! 2 = Some v ->
  exists w1 h r d data,
    directoryList w =
      Ok tt w1
         [EvMakeHandle h v; EvMalloc r; EvMalloc d;
          EvUv (UvFsScandir r path 0 CbDirectoryList)] /\
    heap w !! h = None /\
    heap w1 !! h = Some (BHandle v) /\
    fiber data = h /\
    (exists q, Pending w1 r q d data) /\
    (forall w2 q,
       Pending w2 r q d data ->
       0 <= fs_result q ->
       (List.length (entriesOf q) < fuel)%nat ->
       exists w3 t3,
         invoke host fuel CbDirectoryList r w2 = Ok tt w3 t3 /\
         t3 = [EvEnsureSlots 3; EvSetSlot 2 (VList [])] ++
              concat (entryEvents r <$> entriesOf q) ++
              [EvUv (UvFsScandirNext r)] ++
              freeEvents r d ++ [EvResume h true; EvFinishResume] /\
         slots w3 !! 2 = Some (VList (VString <$> entriesOf q)) /\
         (entriesOf q = [] -> slots w3 !! 2 = Some (VList [])) /\
         omap resumed t3 = [h] /\
         count isErrorResume t3 = 0%nat) /\
    (forall names n,
       0 <= n -> (List.length names < fuel)%nat ->
       exists w3 t3,
         (complete r n zeroStat (PDirents names) ;;
          invoke host fuel CbDirectoryList r) w1 = Ok tt w3 t3 /\
         omap resumed t3 = [h] /\
         count isValueResume t3 = 1%nat /\ count isErrorResume t3 = 0%nat /\
         slots w3 !! 2 = Some (VList (VString <$> names))).
Proof.
  intros Hwf H1 H2.
  destruct (directoryList_run w path v Hwf H1 H2) as (w1 & Hrun & Hh & HP).
  exists w1, (next w), (Pos.succ (next w)), (Pos.succ (Pos.succ (next w))),
    (mkData (next w) (mkBuf None 0)).
  split; [exact Hrun |].
  split; [apply Hwf; lia |].
  split; [exact Hh |].
  split; [reflexivity |].
  split; [eexists; exact HP |].
  assert (Hcallback :
    forall w2 q,
      Pending w2 (Pos.succ (next w)) q (Pos.succ (Pos.succ (next w)))
        (mkData (next w) (mkBuf None 0)) ->
      0 <= fs_result q ->
      (List.length (entriesOf q) < fuel)%nat ->
      exists w3 t3,
        invoke host fuel CbDirectoryList (Pos.succ (next w)) w2 =
          Ok tt w3 t3 /\
        t3 = [EvEnsureSlots 3; EvSetSlot 2 (VList [])] ++
             concat (entryEvents (Pos.succ (next w)) <$> entriesOf q) ++
             [EvUv (UvFsScandirNext (Pos.succ (next w)))] ++
             freeEvents (Pos.succ (next w)) (Pos.succ (Pos.succ (next w))) ++
             [EvResume (next w) true; EvFinishResume] /\
        slots w3 !! 2 = Some (VList (VString <$> entriesOf q)) /\
        (entriesOf q = [] -> slots w3 !! 2 = Some (VList [])) /\
        omap resumed t3 = [next w] /\
        count isValueResume t3 = 1%nat /\
        count isErrorResume t3 = 0%nat).
  { intros w2 q HP2 Hq Hf. cbn [invoke].
    destruct (directoryListCallback_ok host fuel w2 _ q _ _ HP2 Hq Hf)
      as (w3 & Hcb & Hs & _).
    eexists w3, _. split; [exact Hcb |]. split; [reflexivity |].
    split; [exact Hs |]. split; [intros He; rewrite Hs, He; reflexivity |].
    destruct (quiet_silent _
                (quiet_entryEvents (Pos.succ (next w)) (entriesOf q)))
      as (Ho & Hv & He & _).
    split; [| split].
    - rewrite !omap_app, Ho. reflexivity.
    - rewrite !count_app, Hv. reflexivity.
    - rewrite !count_app, He. reflexivity. }
  split.
  - intros w2 q HP2 Hq Hf.
    destruct (Hcallback w2 q HP2 Hq Hf)
      as (w3 & t3 & Hcb & Ht & Hs & He & Hres & _ & Herr).
    exists w3, t3. repeat split; assumption.
  - intros names n Hn Hf.
    destruct (complete_pending w1 _ _ _ _ n zeroStat (PDirents names) HP)
      as (Hc & HP2).
    destruct (Hcallback _ _ HP2 Hn Hf)
      as (w3 & t3 & Hcb & _ & Hs & _ & Hres & Hval & Herr).
    exists w3, t3. split.
    { unfold bind at 1. rewrite Hc, Hcb. reflexivity. }
    repeat split; assumption.
Qed.

End List.

Lemma directoryList_lists_entries_witness :
  exists w1 h r d w3 t3,
    directoryList listArgsWorld =
      Ok tt w1
         [EvMakeHandle h (VFiber 7); EvMalloc r; EvMalloc d;
          EvUv (UvFsScandir r "/tmp" 0 CbDirectoryList)] /\
    (complete r 3 zeroStat (PDirents ["b"; "a"; "c"]) ;;
     invoke linux 4 CbDirectoryList r) w1 = Ok tt w3 t3 /\
    omap resumed t3 = [h] /\
    slots w3 !! 2 = Some (VList [VString "b"; VString "a"; VString "c"]).
Proof.
  destruct (directoryList_lists_entries linux 4 listArgsWorld "/tmp"
              (VFiber 7) ltac:(intros l _; reflexivity) eq_refl eq_refl)
    as (w1 & h & r & d & data & Hrun & _ & _ & _ & _ & _ & Hend).
  destruct (Hend ["b"; "a"; "c"] 3 ltac:(lia) ltac:(cbn; lia))
    as (w3 & t3 & Hcb & Hres & _ & _ & Hs).
  exists w1, h, r, d, w3, t3.
  split; [exact Hrun |].
  split; [exact Hcb | split; [exact Hres | exact Hs]].
Defined.

(** * The stdin subsystem *)

Lemma initial_inv : StdinInv initialWorld.
Proof.
  split; try (intros ? H; cbn in H; discriminate).
  intros l _. reflexivity.
Qed.

Lemma heapWf_delete w l :
  heapWf w -> heapWf (setHeap (delete l (heap w)) w).
Proof.
  intros Hwf l' Hl'. wsimpl. apply lookup_delete_None. right. apply Hwf, Hl'.
Qed.

Lemma shutdownStdin_run w :
  StdinInv w ->
  shutdownStdin w =
    Ok tt
       (mkWorld
          (deleteOpt (stdinOnData w)
             (deleteOpt (stdinClass w) (deleteOpt (stdinStream w) (heap w))))
          (next w) (slots w) (statClass w) None None None)
       (closeEvents (stdinStream w) ++ releaseEvents (stdinClass w) ++
        releaseEvents (stdinOnData w)).
Proof.
  intros [Hwf Hst Hcl Hod Hsc Hd1 Hd2 Hd3]. unfold shutdownStdin.
  destruct (stdinStream w) as [l |] eqn:El;
    destruct (stdinClass w) as [c |] eqn:Ec;
    destruct (stdinOnData w) as [m |] eqn:Em;
    try (destruct (Hst l eq_refl) as (s & Hl));
    try (destruct (Hcl c eq_refl) as (vc & Hc));
    try (destruct (Hod m eq_refl) as (vm & Hm));
    try (assert (l <> c) by (intros ->; congruence));
    try (assert (l <> m) by (intros ->; congruence));
    try (assert (c <> m) by (intros ->; apply (Hd1 m eq_refl); reflexivity));
    repeat (progress (run; heap_simpl));
    cbn [deleteOpt closeEvents releaseEvents app];
    first [reflexivity | destruct w; cbn in *; subst; reflexivity].
Qed.

Lemma lookup_deleteOpt_ne (p : option loc) (h : gmap loc Block) l :
  p <> Some l -> deleteOpt p h !! l = h !! l.
Proof.
  destruct p as [l' |]; cbn; [| reflexivity].
  intros H. apply lookup_delete_ne. congruence.
Qed.

Lemma lookup_deleteOpt_None (p : option loc) (h : gmap loc Block) l :
  h !! l = None -> deleteOpt p h !! l = None.
Proof.
  destruct p as [l' |]; cbn; [| tauto].
  intros H. apply lookup_delete_None. right. exact H.
Qed.

Lemma shutdown_inv w :
  StdinInv w ->
  StdinInv
    (mkWorld
       (deleteOpt (stdinOnData w)
          (deleteOpt (stdinClass w) (deleteOpt (stdinStream w) (heap w))))
       (next w) (slots w) (statClass w) None None None).
Proof.
  intros [Hwf Hst Hcl Hod Hsc Hd1 Hd2 Hd3].
  split; wsimpl; try (intros ? H; discriminate H).
  - intros l Hl. wsimpl. do 3 apply lookup_deleteOpt_None. apply Hwf, Hl.
  - intros h Hh. destruct (Hsc h Hh) as (v & Hv). exists v.
    rewrite !lookup_deleteOpt_ne; [exact Hv | | |].
    + intros Hs. destruct (Hst h Hs) as (s & Hs'). congruence.
    + apply (Hd2 h Hh).
    + apply (Hd3 h Hh).
  - intros h _ H. discriminate H.
  - intros h _ H. discriminate H.
Qed.

Lemma ioShutdown_run w :
  StdinInv w ->
  exists w',
    ioShutdown w =
      Ok tt w'
         (closeEvents (stdinStream w) ++ releaseEvents (stdinClass w) ++
          releaseEvents (stdinOnData w) ++ releaseEvents (statClass w)) /\
    StdinInv w' /\
    stdinStream w' = None /\ stdinClass w' = None /\
    stdinOnData w' = None /\ statClass w' = None.
Proof.
  intros Hinv. pose proof (shutdown_inv w Hinv) as Hinv'.
  unfold ioShutdown. unfold bind at 1. rewrite (shutdownStdin_run w Hinv).
  destruct (statClass w) as [h |] eqn:Eh.
  - destruct (inv_stat _ Hinv' h) as (v & Hv); [wsimpl; reflexivity |].
    cbn [heap] in Hv. eexists. split.
    + repeat (progress (run; heap_simpl)).
      rewrite <- ?app_assoc. reflexivity.
    + destruct Hinv' as [Hwf' _ _ _ _ _ _ _].
      split; [| repeat split].
      split; wsimpl; try (intros ? H; discriminate H).
      intros l Hl. wsimpl. apply lookup_delete_None. right.
      apply (Hwf' l Hl).
  - eexists. split.
    + repeat (progress (run; heap_simpl)).
      rewrite <- ?app_assoc. reflexivity.
    + split; [exact Hinv' | repeat split].
Qed.

(** The invariant carries over to a world with the same handle statics in
    which every handle is still live. *)
Lemma inv_transfer w w' :
  StdinInv w ->
  heapWf w' ->
  (forall h v, heap w !! h = Some (BHandle v) ->
               heap w' !! h = Some (BHandle v)) ->
  stdinClass w' = stdinClass w ->
  stdinOnData w' = stdinOnData w ->
  statClass w' = statClass w ->
  (forall l, stdinStream w' = Some l ->
             exists s, heap w' !! l = Some (BStream s)) ->
  StdinInv w'.
Proof.
  intros [Hwf Hst Hcl Hod Hsc Hd1 Hd2 Hd3] Hwf' Hframe Ec Eo Es Hstream.
  split; try assumption; rewrite ?Ec, ?Eo, ?Es; try assumption.
  - intros h Hh. destruct (Hcl h Hh) as (v & Hv). eauto.
  - intros h Hh. destruct (Hod h Hh) as (v & Hv). eauto.
  - intros h Hh. destruct (Hsc h Hh) as (v & Hv). eauto.
Qed.

Section StdinStartStop.

Variable host : Platform.

Lemma stdinReadStart_run w :
  StdinInv w ->
  exists w' t l s,
    stdinReadStart host w = Ok tt w' t /\
    StdinInv w' /\
    stdinStream w' = Some l /\
    heap w' !! l = Some (BStream s) /\ stream_reading s = true /\
    Forall calm t.
Proof.
  intros Hinv. pose proof (inv_wf _ Hinv) as Hwf. unfold stdinReadStart.
  destruct (stdinStream w) as [l |] eqn:El.
  - destruct (inv_stream _ Hinv l El) as (s & Hl).
    pose proof (live_below _ _ _ Hwf Hl) as Hlt.
    eexists _, _, l, (setReading true s). split.
    { repeat (progress (run; heap_simpl)). reflexivity. }
    split; [| split; [wsimpl; exact El | split; [lookup_tac | split]]].
    + apply (inv_transfer w); try reflexivity; [exact Hinv | | |].
      * wf_tac Hwf.
      * intros h v Hh. assert (l <> h) by (intros ->; congruence).
        lookup_tac.
      * wsimpl. intros l' Hl'. rewrite El in Hl'. injection Hl' as <-.
        eexists. lookup_tac.
    + reflexivity.
    + repeat constructor.
  - destruct (uv_guess_handle host stdinDescriptor) eqn:Eg.
    1: {
      eexists _, _, (next w), (mkStream TTY true). split.
      { repeat (progress (run; heap_simpl)). reflexivity. }
      split; [| split; [reflexivity | split; [lookup_tac | split]]].
      + apply (inv_transfer w); try reflexivity; [exact Hinv | | |].
        * wf_tac Hwf.
        * intros h v Hh. pose proof (live_below _ _ _ Hwf Hh). lookup_tac.
        * wsimpl. intros l' [= <-]. eexists. lookup_tac.
      + reflexivity.
      + repeat constructor. }
    all: eexists _, _, (next w), (mkStream Pipe true); split;
      [ repeat (progress (run; heap_simpl)); reflexivity |];
      (split; [| split; [reflexivity | split; [lookup_tac | split]]]);
      [ apply (inv_transfer w); try reflexivity; [exact Hinv | | |];
        [ wf_tac Hwf
        | intros h v Hh; pose proof (live_below _ _ _ Hwf Hh); lookup_tac
        | wsimpl; intros l' [= <-]; eexists; lookup_tac ]
      | reflexivity
      | repeat constructor ].
Qed.

End StdinStartStop.

Lemma stdinReadStop_run w l :
  StdinInv w -> stdinStream w = Some l ->
  exists w',
    stdinReadStop w = Ok tt w' [EvUv (UvReadStop l)] /\
    StdinInv w' /\ stdinStream w' = Some l.
Proof.
  intros Hinv El. pose proof (inv_wf _ Hinv) as Hwf.
  destruct (inv_stream _ Hinv l El) as (s & Hl).
  pose proof (live_below _ _ _ Hwf Hl) as Hlt.
  eexists. split.
  { unfold stdinReadStop. repeat (progress (run; heap_simpl)). reflexivity. }
  split; [| wsimpl; exact El].
  apply (inv_transfer w); try reflexivity; [exact Hinv | | |].
  - wf_tac Hwf.
  - intros h v Hh. assert (l <> h) by (intros ->; congruence). lookup_tac.
  - wsimpl. intros l' Hl'. rewrite El in Hl'. injection Hl' as <-.
    eexists. lookup_tac.
Qed.

Lemma stdinReadStop_null w :
  stdinStream w = None -> stdinReadStop w = Fault ErrNull.
Proof.
  intros El. unfold stdinReadStop. repeat (progress (run; heap_simpl)).
  reflexivity.
Qed.

Lemma readingStream_ok w l s :
  stdinStream w = Some l -> heap w !! l = Some (BStream s) ->
  stream_reading s = true -> readingStream w = Ok l w [].
Proof. intros El Hl Hr. unfold readingStream. by rewrite El, Hl, Hr. Qed.

Lemma readingStream_inv w l w' t :
  readingStream w = Ok l w' t ->
  w' = w /\ t = [] /\ stdinStream w = Some l /\
  exists s, heap w !! l = Some (BStream s) /\ stream_reading s = true.
Proof.
  unfold readingStream.
  destruct (stdinStream w) as [l0 |]; [| discriminate].
  destruct (heap w !! l0) as [[| | | s | | |] |] eqn:Hl; try discriminate.
  destruct (stream_reading s) eqn:Hr; [| discriminate].
  intros [= <- <- <-]. repeat split. exists s. split; assumption.
Qed.

(** Facts about the pointers the invariant speaks of, for the lookups of a
    symbolic execution. *)
Ltac static_facts Hinv :=
  let Hwf := fresh "Hwf" in
  pose proof (inv_wf _ Hinv) as Hwf;
  repeat match goal with
    | E : stdinClass ?w = Some ?c |- _ =>
        lazymatch goal with
        | _ : heap w !! c = Some (BHandle _) |- _ => fail
        | _ =>
            let v := fresh "vc" in
            let H := fresh "Hc" in
            destruct (inv_class _ Hinv c E) as (v & H);
            pose proof (live_below _ _ _ Hwf H)
        end
    | E : stdinOnData ?w = Some ?c |- _ =>
        lazymatch goal with
        | _ : heap w !! c = Some (BHandle _) |- _ => fail
        | _ =>
            let v := fresh "vm" in
            let H := fresh "Hm" in
            destruct (inv_onData _ Hinv c E) as (v & H);
            pose proof (live_below _ _ _ Hwf H)
        end
    end.

Lemma deliver_eof w l s n :
  StdinInv w ->
  stdinStream w = Some l -> heap w !! l = Some (BStream s) ->
  stream_reading s = true ->
  exists w' pre m cls c,
    deliver n UV_EOF [] w =
      Ok tt w'
         (pre ++
          [EvCall m (Some cls) (Some VNull); EvUv (UvClose l); EvFree l;
           EvReleaseValue c; EvReleaseValue m]) /\
    Forall calm pre /\
    StdinInv w' /\
    stdinStream w' = None /\ stdinClass w' = None /\ stdinOnData w' = None.
Proof.
  intros Hinv El Hl Hr.
  pose proof (readingStream_ok w l s El Hl Hr) as Hread.
  destruct (stdinClass w) as [c |] eqn:Ec;
    destruct (stdinOnData w) as [m |] eqn:Em;
    static_facts Hinv;
    pose proof (live_below _ _ _ Hwf Hl) as Hlt;
    try (assert (l <> c) by (intros ->; congruence));
    try (assert (l <> m) by (intros ->; congruence));
    try (assert (c <> m)
           by (intros ->; apply (inv_class_onData _ Hinv m Ec); exact Em)).
  all: eexists _, _, _, _, _; split;
    [ unfold deliver, allocCallback, stdinReadCallback, shutdownStdin;
      unfold bind at 1; rewrite Hread;
      repeat (progress (run; heap_simpl));
      change (UV_EOF =? UV_EOF) with true; cbv iota;
      repeat (progress (run; heap_simpl));
      match goal with
      | |- Ok _ _ ?t = Ok _ _ (_ ++ [_; _; _; _; _]) =>
          let n := eval cbv in (List.length t - 5)%nat in
          rewrite <- (take_drop n t)
      end;
      reflexivity
    | ].
  all: cbn [take drop]; split; [repeat (constructor; [repeat split |]); constructor |].
  all: split; [| repeat split].
  all: split; wsimpl; try (intros ? Hx; discriminate Hx);
    try (intros ? ? Hx; discriminate Hx);
    [ wf_tac Hwf
    | intros h Hh; destruct (inv_stat _ Hinv h Hh) as (v & Hv);
      pose proof (live_below _ _ _ Hwf Hv);
      assert (l <> h) by (intros ->; congruence);
      try (assert (c <> h)
             by (intros ->; apply (inv_stat_class _ Hinv h Hh); exact Ec));
      try (assert (m <> h)
             by (intros ->; apply (inv_stat_onData _ Hinv h Hh); exact Em));
      exists v; lookup_tac ].
Qed.

Lemma deliver_data w l s n bytes :
  StdinInv w ->
  stdinStream w = Some l -> heap w !! l = Some (BStream s) ->
  stream_reading s = true ->
  Z.of_nat (List.length bytes) <= n ->
  exists w' pre m cls b,
    deliver n (Z.of_nat (List.length bytes)) bytes w =
      Ok tt w' (pre ++ [EvCall m (Some cls) (Some (VBytes bytes)); EvFree b]) /\
    Forall calm pre /\
    StdinInv w' /\ stdinStream w' = Some l.
Proof.
  intros Hinv El Hl Hr Hn.
  pose proof (readingStream_ok w l s El Hl Hr) as Hread.
  assert (Hneof : (Z.of_nat (List.length bytes) =? UV_EOF) = false)
    by (apply Z.eqb_neq; unfold UV_EOF; lia).
  destruct (stdinClass w) as [c |] eqn:Ec;
    destruct (stdinOnData w) as [m |] eqn:Em;
    static_facts Hinv;
    pose proof (live_below _ _ _ Hwf Hl) as Hlt;
    try (assert (l <> c) by (intros ->; congruence));
    try (assert (l <> m) by (intros ->; congruence));
    try (assert (c <> m)
           by (intros ->; apply (inv_class_onData _ Hinv m Ec); exact Em)).
  all: eexists _, _, _, _, _; split;
    [ unfold deliver, allocCallback, stdinReadCallback, wrenSetSlotBytes;
      unfold bind at 1; rewrite Hread;
      repeat (progress (run; heap_simpl));
      rewrite Hneof;
      repeat (progress (run; heap_simpl));
      match goal with
      | |- context [(0 <=? ?a) && (?a <=? ?b)] =>
          replace ((0 <=? a) && (a <=? b)) with true
            by (symmetry; apply andb_true_iff; split; apply Z.leb_le;
                rewrite ?length_app, ?length_drop, ?length_replicate; lia)
      end;
      repeat (progress (run; heap_simpl));
      rewrite Nat2Z.id, take_app_length;
      match goal with
      | |- Ok _ _ ?t = Ok _ _ (_ ++ [_; _]) =>
          let n := eval cbv in (List.length t - 2)%nat in
          rewrite <- (take_drop n t)
      end;
      reflexivity
    | ].
  all: cbn [take drop]; split; [repeat (constructor; [repeat split |]); constructor |].
  all: split; [| wsimpl; first [exact El | reflexivity]].
  all: split; wsimpl;
    [ wf_tac Hwf
    | intros ? [= <-]; eexists; lookup_tac
    | intros ? [= <-]; eexists; lookup_tac
    | intros ? [= <-]; eexists; lookup_tac
    | intros h Hh; destruct (inv_stat _ Hinv h Hh) as (v & Hv);
      pose proof (live_below _ _ _ Hwf Hv);
      exists v; lookup_tac
    | intros ? [= <-] [= Hx]; try lia; try congruence
    | intros h Hh [= <-];
      destruct (inv_stat _ Hinv _ Hh) as (v & Hv);
      pose proof (live_below _ _ _ Hwf Hv);
      try lia; try (apply (inv_stat_class _ Hinv _ Hh); exact Ec)
    | intros h Hh [= <-];
      destruct (inv_stat _ Hinv _ Hh) as (v & Hv);
      pose proof (live_below _ _ _ Hwf Hv);
      try lia; try (apply (inv_stat_onData _ Hinv _ Hh); exact Em) ].
Qed.

Lemma bind_Ok_inv {A B} (c : M A) (k : A -> M B) w b w2 t :
  bind c k w = Ok b w2 t ->
  exists a w1 t1 t2,
    c w = Ok a w1 t1 /\ k a w1 = Ok b w2 t2 /\ t = t1 ++ t2.
Proof.
  unfold bind. destruct (c w) as [a w1 t1 | e]; [| discriminate].
  destruct (k a w1) as [b' w2' t2 | e] eqn:Hk; [| discriminate].
  intros [= <- <- <-]. exists a, w1, t1, t2. repeat split. exact Hk.
Qed.

Lemma calm_silent pre :
  Forall calm pre ->
  count isHandlerCall pre = 0%nat /\ count isEofDelivery pre = 0%nat /\
  count isStreamClose pre = 0%nat /\ count isRelease pre = 0%nat.
Proof.
  induction 1 as [| e pre (Hc & Hs & Hr) _ (IH1 & IH2 & IH3 & IH4)];
    [repeat split |].
  unfold count in *. cbn. rewrite Hc, Hs, Hr.
  assert (He : isEofDelivery e = false).
  { destruct e; try reflexivity. cbn in Hc. discriminate. }
  rewrite He. repeat split; assumption.
Qed.

Lemma releaseEvents_quiet h p :
  p = isHandlerCall \/ p = isEofDelivery \/ p = isStreamClose ->
  count p (releaseEvents h) = 0%nat.
Proof. intros [-> | [-> | ->]]; destruct h; reflexivity. Qed.

Lemma deliver_fault n k bytes w e :
  readingStream w = Fault e -> deliver n k bytes w = Fault e.
Proof. intros H. unfold deliver. unfold bind at 1. by rewrite H. Qed.

Lemma readingStream_cases w :
  (exists l s,
     stdinStream w = Some l /\ heap w !! l = Some (BStream s) /\
     stream_reading s = true) \/
  readingStream w = Fault ErrReactor.
Proof.
  unfold readingStream.
  destruct (stdinStream w) as [l |]; [| right; reflexivity].
  destruct (heap w !! l) as [[| | | s | | |] |] eqn:Hl;
    try (right; reflexivity).
  destruct (stream_reading s) eqn:Hr; [| right; reflexivity].
  left. eauto.
Qed.

Lemma hasStream_Some w l : stdinStream w = Some l -> hasStream w = true.
Proof. unfold hasStream. by intros ->. Qed.

Lemma hasStream_None w : stdinStream w = None -> hasStream w = false.
Proof. unfold hasStream. by intros ->. Qed.

Section StdinRuns.

Variable host : Platform.

(** One step of the subsystem keeps the invariant, and leaves a stream
    exactly when [stdinReadStart] has run since the last shutdown. *)
Lemma stepStdin_inv op w w' t :
  StdinInv w -> stepStdin host op w = Ok tt w' t ->
  StdinInv w' /\ hasStream w' = startedSinceShutdown (hasStream w) [op].
Proof.
  intros Hinv Hstep. destruct op as [| | n bytes | n |]; cbn [stepStdin] in Hstep;
    cbn [startedSinceShutdown].
  - destruct (stdinReadStart_run host w Hinv)
      as (w1 & t1 & l & s & Hrun & Hinv1 & El & _).
    rewrite Hrun in Hstep. injection Hstep as <- <-.
    split; [exact Hinv1 | exact (hasStream_Some _ _ El)].
  - destruct (stdinStream w) as [l |] eqn:El.
    + destruct (stdinReadStop_run w l Hinv El) as (w1 & Hrun & Hinv1 & El1).
      rewrite Hrun in Hstep. injection Hstep as <- <-.
      split; [exact Hinv1 |].
      rewrite (hasStream_Some _ _ El1), (hasStream_Some _ _ El). reflexivity.
    + rewrite (stdinReadStop_null w El) in Hstep. discriminate.
  - destruct (Z.of_nat (List.length bytes) <=? n) eqn:Hle; [| discriminate].
    apply Z.leb_le in Hle.
    destruct (readingStream_cases w) as [(l & s & El & Hl & Hr) | Hf].
    + destruct (deliver_data w l s n bytes Hinv El Hl Hr Hle)
        as (w1 & pre & m & cls & b & Hrun & _ & Hinv1 & El1).
      rewrite Hrun in Hstep. injection Hstep as <- <-.
      split; [exact Hinv1 |].
      rewrite (hasStream_Some _ _ El1), (hasStream_Some _ _ El). reflexivity.
    + rewrite (deliver_fault _ _ _ _ _ Hf) in Hstep. discriminate.
  - destruct (readingStream_cases w) as [(l & s & El & Hl & Hr) | Hf].
    + destruct (deliver_eof w l s n Hinv El Hl Hr)
        as (w1 & pre & m & cls & c & Hrun & _ & Hinv1 & El1 & _).
      rewrite Hrun in Hstep. injection Hstep as <- <-.
      split; [exact Hinv1 | exact (hasStream_None _ El1)].
    + rewrite (deliver_fault _ _ _ _ _ Hf) in Hstep. discriminate.
  - destruct (ioShutdown_run w Hinv) as (w1 & Hrun & Hinv1 & El1 & _).
    rewrite Hrun in Hstep. injection Hstep as <- <-.
    split; [exact Hinv1 | exact (hasStream_None _ El1)].
Qed.

Lemma startedSinceShutdown_cons b op ops :
  startedSinceShutdown b (op :: ops) =
  startedSinceShutdown (startedSinceShutdown b [op]) ops.
Proof. destruct op; reflexivity. Qed.

Lemma runStdin_inv ops :
  forall w w' t,
    StdinInv w -> runStdin host ops w = Ok tt w' t ->
    StdinInv w' /\ hasStream w' = startedSinceShutdown (hasStream w) ops.
Proof.
  induction ops as [| op ops IH]; intros w w' t Hinv Hrun.
  - cbn in Hrun. injection Hrun as <- <-. split; [exact Hinv | reflexivity].
  - cbn [runStdin] in Hrun.
    apply bind_Ok_inv in Hrun as ([] & w1 & t1 & t2 & Hstep & Hrest & ->).
    destruct (stepStdin_inv op w w1 t1 Hinv Hstep) as (Hinv1 & Hs1).
    destruct (IH w1 w' t2 Hinv1 Hrest) as (Hinv' & Hs').
    split; [exact Hinv' |].
    rewrite startedSinceShutdown_cons, <- Hs1. exact Hs'.
Qed.

(** Without a stream, and until [stdinReadStart] runs again, the reactor
    has nothing to deliver from: no step calls the data handler or closes
    a stream. *)
Lemma stepStdin_idle op w w' t :
  StdinInv w -> stdinStream w = None -> isReadStart op = false ->
  stepStdin host op w = Ok tt w' t ->
  StdinInv w' /\ stdinStream w' = None /\
  count isHandlerCall t = 0%nat /\ count isEofDelivery t = 0%nat /\
  count isStreamClose t = 0%nat.
Proof.
  intros Hinv El Hop Hstep.
  assert (Hf : readingStream w = Fault ErrReactor)
    by (unfold readingStream; by rewrite El).
  destruct op as [| | n bytes | n |]; cbn [stepStdin] in Hstep;
    try discriminate Hop.
  - rewrite (stdinReadStop_null w El) in Hstep. discriminate.
  - destruct (Z.of_nat (List.length bytes) <=? n); [| discriminate].
    rewrite (deliver_fault _ _ _ _ _ Hf) in Hstep. discriminate.
  - rewrite (deliver_fault _ _ _ _ _ Hf) in Hstep. discriminate.
  - destruct (ioShutdown_run w Hinv) as (w1 & Hrun & Hinv1 & El1 & _).
    rewrite Hrun in Hstep. injection Hstep as <- <-.
    split; [exact Hinv1 |]. split; [exact El1 |].
    rewrite El. cbn [closeEvents app].
    rewrite !count_app, !releaseEvents_quiet by tauto.
    repeat split.
Qed.

Lemma runStdin_idle ops :
  forall w w' t,
    StdinInv w -> stdinStream w = None ->
    forallb (fun op => negb (isReadStart op)) ops = true ->
    runStdin host ops w = Ok tt w' t ->
    stdinStream w' = None /\
    count isHandlerCall t = 0%nat /\ count isEofDelivery t = 0%nat /\
    count isStreamClose t = 0%nat.
Proof.
  induction ops as [| op ops IH]; intros w w' t Hinv El Hops Hrun.
  - cbn in Hrun. injection Hrun as <- <-. repeat split. exact El.
  - cbn [forallb] in Hops. apply andb_true_iff in Hops as (Hop & Hops).
    apply negb_true_iff in Hop.
    cbn [runStdin] in Hrun.
    apply bind_Ok_inv in Hrun as ([] & w1 & t1 & t2 & Hstep & Hrest & ->).
    destruct (stepStdin_idle op w w1 t1 Hinv El Hop Hstep)
      as (Hinv1 & El1 & Hc1 & He1 & Hs1).
    destruct (IH w1 w' t2 Hinv1 El1 Hops Hrest) as (El' & Hc2 & He2 & Hs2).
    split; [exact El' |].
    rewrite !count_app, Hc1, Hc2, He1, He2, Hs1, Hs2. repeat split.
Qed.

End StdinRuns.

Lemma readingWorld_inv : StdinInv readingWorld.
Proof.
  split; try (intros ? H; cbn in H; discriminate).
  - apply heapWf_intro. unfold readingWorld. cbn [heap next].
    apply map_Forall_insert_2; [reflexivity | apply map_Forall_empty].
  - intros l [= <-]. eexists. reflexivity.
Qed.

Lemma lookup_deleteOpt_Some (p : option loc) (h : gmap loc Block) l x :
  deleteOpt p h !! l = Some x -> p <> Some l /\ h !! l = Some x.
Proof.
  destruct p as [l' |]; cbn.
  - intros H. apply lookup_delete_Some in H as [Hne H].
    split; [congruence | exact H].
  - intros H. split; [discriminate | exact H].
Qed.

(** Peeling the inserts and deletes off a lookup that found a stream. *)
Ltac peel H :=
  first
    [ apply lookup_delete_Some in H; destruct H as [? H]; peel H
    | apply lookup_insert_Some in H;
      destruct H as [[? H] | [? H]];
      [ try discriminate H; subst; try reflexivity; try assumption
      | peel H ]
    | idtac ].

Ltac one_stream Hone :=
  let l' := fresh "l'" in
  let s' := fresh "s'" in
  let H := fresh "H" in
  let Hx := fresh "Hx" in
  intros l' s' H;
  cbn [heap next slots statClass stdinClass stdinOnData stdinStream
       setHeap setSlots] in H |- *;
  peel H;
  try (pose proof (Hone _ _ H) as Hx;
       first [ exact Hx | congruence ]).

(** Facts about the cached handles, for the lookups of a symbolic
    execution. *)
Ltac handle_facts Hinv Hh :=
  let Hwf := fresh "Hwf" in
  pose proof (inv_wf _ Hinv) as Hwf;
  repeat match goal with
    | E : stdinClass ?w = Some ?c |- _ =>
        lazymatch goal with
        | _ : heap w !! c = Some (BHandle _) |- _ => fail
        | _ =>
            let H := fresh "Hc" in
            pose proof (handles_class _ Hh c E) as H;
            pose proof (live_below _ _ _ Hwf H)
        end
    | E : stdinOnData ?w = Some ?c |- _ =>
        lazymatch goal with
        | _ : heap w !! c = Some (BHandle _) |- _ => fail
        | _ =>
            let H := fresh "Hm" in
            pose proof (handles_onData _ Hh c E) as H;
            pose proof (live_below _ _ _ Hwf H)
        end
    end.

(** End-of-stream on the reading stream, event by event. *)
Lemma deliver_eof_exact w l s n :
  StdinInv w -> OneStream w -> StdinHandles w ->
  stdinStream w = Some l -> heap w !! l = Some (BStream s) ->
  stream_reading s = true ->
  exists w' pre c m,
    deliver n UV_EOF [] w =
      Ok tt w'
         (pre ++
          [EvSetSlot 0 (VClass "io" "Stdin"); EvSetSlot 1 VNull;
           EvCall m (Some (VClass "io" "Stdin")) (Some VNull);
           EvUv (UvClose l); EvFree l; EvReleaseValue c; EvReleaseValue m]) /\
    Forall calm pre /\
    (stdinClass w = Some c /\
       heap w !! c = Some (BHandle (VClass "io" "Stdin"))
     \/
     stdinClass w = None /\ In (EvMakeHandle c (VClass "io" "Stdin")) pre) /\
    (stdinOnData w = Some m /\
       heap w !! m = Some (BHandle (VMethod "onData_(_)"))
     \/
     stdinOnData w = None /\ In (EvMakeHandle m (VMethod "onData_(_)")) pre) /\
    (forall l' s', heap w' !! l' <> Some (BStream s')) /\
    heap w' !! c = None /\ heap w' !! m = None /\
    stdinStream w' = None /\
    readingStream w' = Fault ErrReactor.
Proof.
  intros Hinv Hone Hh El Hl Hr.
  pose proof (readingStream_ok w l s El Hl Hr) as Hread.
  destruct (stdinClass w) as [c |] eqn:Ec;
    destruct (stdinOnData w) as [m |] eqn:Em;
    handle_facts Hinv Hh;
    pose proof (live_below _ _ _ Hwf Hl) as Hlt;
    try (assert (l <> c) by (intros ->; congruence));
    try (assert (l <> m) by (intros ->; congruence));
    try (assert (c <> m) by (intros ->; congruence)).
  all: eexists _, _, _, _; split;
    [ unfold deliver, allocCallback, stdinReadCallback, shutdownStdin;
      unfold bind at 1; rewrite Hread;
      repeat (progress (run; heap_simpl));
      change (UV_EOF =? UV_EOF) with true; cbv iota;
      repeat (progress (run; heap_simpl));
      match goal with
      | |- Ok _ _ ?t = Ok _ _ (_ ++ [_; _; _; _; _; _; _]) =>
          let n := eval cbv in (List.length t - 7)%nat in
          rewrite <- (take_drop n t)
      end;
      reflexivity
    | ].
  all: cbn [take drop];
    split; [repeat (constructor; [repeat split |]); constructor |].
  all: split;
    [ first [ left; split; [reflexivity | assumption]
            | right; split; [reflexivity | cbn; auto 10] ] |].
  all: split;
    [ first [ left; split; [reflexivity | assumption]
            | right; split; [reflexivity | cbn; auto 10] ] |].
  all: split; [one_stream Hone |].
  all: split;
    [ wsimpl;
      repeat first [ rewrite lookup_delete_eq
                   | rewrite lookup_delete_ne by (congruence || lia) ];
      reflexivity |].
  all: split; [wsimpl; apply lookup_delete_eq |].
  all: split; reflexivity.
Qed.

Lemma readingWorld_one : OneStream readingWorld.
Proof.
  intros l s H. unfold readingWorld in *. cbn [heap stdinStream] in *.
  apply lookup_insert_Some in H as [[<- _] | [_ H]]; [reflexivity |].
  rewrite lookup_empty in H. discriminate.
Qed.

Lemma readingWorld_handles : StdinHandles readingWorld.
Proof. split; intros ? H; discriminate H. Qed.

Section StdinClaims.

Variable host : Platform.

(** C9, as the code has it. When end-of-stream is delivered on the reading
    stream, the read callback puts the [Stdin] class in slot 0 and null in
    slot 1 and calls the [onData_(_)] method, through the cached handle or
    one it makes, exactly once; then it tears the subsystem down once: it
    closes and frees the stream and releases the class handle and the
    method handle, leaving all three static variables null. From then on
    there is no stream: none is left in the heap, and the reactor, which
    delivers only on a stream that is reading, refuses every delivery, of
    data or of end-of-stream; for as long as [stdinReadStart] is not called
    again it stays so, and the handler is not called and no stream is
    closed. *)
Theorem eof_delivered_once_then_shutdown w l s n :
  StdinInv w -> OneStream w -> StdinHandles w ->
  stdinStream w = Some l -> heap w !! l = Some (BStream s) ->
  stream_reading s = true ->
  exists w' t pre c m,
    stepStdin host (OpEof n) w = Ok tt w' t /\
    t = pre ++
        [EvSetSlot 0 (VClass "io" "Stdin"); EvSetSlot 1 VNull;
         EvCall m (Some (VClass "io" "Stdin")) (Some VNull);
         EvUv (UvClose l); EvFree l; EvReleaseValue c; EvReleaseValue m] /\
    Forall calm pre /\
    (stdinClass w = Some c /\
       heap w !! c = Some (BHandle (VClass "io" "Stdin"))
     \/
     stdinClass w = None /\ In (EvMakeHandle c (VClass "io" "Stdin")) pre) /\
    (stdinOnData w = Some m /\
       heap w !! m = Some (BHandle (VMethod "onData_(_)"))
     \/
     stdinOnData w = None /\ In (EvMakeHandle m (VMethod "onData_(_)")) pre) /\
    count isHandlerCall t = 1%nat /\ count isEofDelivery t = 1%nat /\
    count isStreamClose t = 1%nat /\ count isRelease t = 2%nat /\
    stdinStream w' = None /\ stdinClass w' = None /\ stdinOnData w' = None /\
    (forall l' s', heap w' !! l' <> Some (BStream s')) /\
    heap w' !! c = None /\ heap w' !! m = None /\
    (forall n' bytes,
       stepStdin host (OpData n' bytes) w' = Fault ErrReactor) /\
    (forall n', stepStdin host (OpEof n') w' = Fault ErrReactor) /\
    (forall ops w'' t',
       forallb (fun op => negb (isReadStart op)) ops = true ->
       runStdin host ops w' = Ok tt w'' t' ->
       stdinStream w'' = None /\
       count isHandlerCall t' = 0%nat /\ count isEofDelivery t' = 0%nat /\
       count isStreamClose t' = 0%nat).
Proof.
  intros Hinv Hone Hh El Hl Hr. cbn [stepStdin].
  destruct (deliver_eof w l s n Hinv El Hl Hr)
    as (w0 & pre0 & m0 & cls0 & c0 & Hrun0 & _ & Hinv' & El' & Ec' & Em').
  destruct (deliver_eof_exact w l s n Hinv Hone Hh El Hl Hr)
    as (w' & pre & c & m & Hrun & Hcalm & Hc & Hm & Hnone & Hgc & Hgm & _ &
        Hread).
  rewrite Hrun in Hrun0. injection Hrun0 as <- _.
  exists w', (pre ++
              [EvSetSlot 0 (VClass "io" "Stdin"); EvSetSlot 1 VNull;
               EvCall m (Some (VClass "io" "Stdin")) (Some VNull);
               EvUv (UvClose l); EvFree l; EvReleaseValue c;
               EvReleaseValue m]), pre, c, m.
  split; [exact Hrun |]. split; [reflexivity |]. split; [exact Hcalm |].
  split; [exact Hc |]. split; [exact Hm |].
  destruct (calm_silent pre Hcalm) as (H1 & H2 & H3 & H4).
  rewrite !count_app, H1, H2, H3, H4.
  do 4 (split; [reflexivity |]).
  do 3 (split; [assumption |]).
  split; [exact Hnone |]. split; [exact Hgc |]. split; [exact Hgm |].
  split.
  { intros n' bytes. cbn [stepStdin].
    destruct (Z.of_nat (List.length bytes) <=? n'); [| reflexivity].
    exact (deliver_fault _ _ _ _ _ Hread). }
  split; [intros n'; exact (deliver_fault _ _ _ _ _ Hread) |].
  intros ops w'' t' Hops Hrest.
  exact (runStdin_idle host ops w' w'' t' Hinv' El' Hops Hrest).
Qed.

(** C10. [stdinReadStop] dereferences the stream pointer without a check.
    In any state the subsystem reaches from the initial one, if
    [stdinReadStart] has run since the last shutdown, the pointer is not
    null and [stdinReadStop] returns, after [uv_read_stop] on the stream;
    otherwise the pointer is null and [stdinReadStop] is a null
    dereference. *)
Theorem stdinReadStop_needs_start ops w t :
  runStdin host ops initialWorld = Ok tt w t ->
  (startedSinceShutdown false ops = true ->
   exists l w',
     stdinStream w = Some l /\
     stdinReadStop w = Ok tt w' [EvUv (UvReadStop l)]) /\
  (startedSinceShutdown false ops = false ->
   stdinStream w = None /\ stdinReadStop w = Fault ErrNull).
Proof.
  intros Hrun.
  destruct (runStdin_inv host ops initialWorld w t initial_inv Hrun)
    as (Hinv & Hs).
  change (hasStream initialWorld) with false in Hs. rewrite <- Hs.
  unfold hasStream. destruct (stdinStream w) as [l |] eqn:El.
  - split; [| discriminate]. intros _.
    destruct (stdinReadStop_run w l Hinv El) as (w' & Hstop & _).
    exists l, w'. split; [reflexivity | exact Hstop].
  - split; [discriminate |]. intros _.
    split; [reflexivity | exact (stdinReadStop_null w El)].
Qed.

End StdinClaims.

Lemma eof_delivered_once_then_shutdown_witness :
  exists w' t,
    stepStdin linux (OpEof 4) readingWorld = Ok tt w' t /\
    count isEofDelivery t = 1%nat /\ stdinStream w' = None.
Proof.
  destruct (eof_delivered_once_then_shutdown linux readingWorld 1
              (mkStream Pipe true) 4 readingWorld_inv readingWorld_one
              readingWorld_handles eq_refl eq_refl eq_refl)
    as (w' & t & pre & c & m & Hrun & _ & _ & _ & _ & _ & He & _ & _ & El & _).
  exists w', t. split; [exact Hrun |]. split; [exact He | exact El].
Defined.

(** The shutdown is not final: nothing stops [stdinReadStart] from running
    again after it; it finds the stream pointer null, creates a new
    stream, and the next end-of-stream is delivered to the handler and
    tears the subsystem down a second time. *)
Lemma eof_delivered_once_then_shutdown_counterexample :
  exists w t,
    runStdin linux [OpReadStart; OpEof 4; OpReadStart; OpEof 4] initialWorld =
      Ok tt w t /\
    count isEofDelivery t = 2%nat /\ count isStreamClose t = 2%nat.
Proof.
  eexists _, _. split; [vm_compute; reflexivity |].
  split; reflexivity.
Qed.

Lemma stdinReadStop_needs_start_witness :
  (exists w t,
     runStdin linux [OpReadStart; OpData 4 [104; 105]] initialWorld =
       Ok tt w t /\
     exists l w',
       stdinStream w = Some l /\
       stdinReadStop w = Ok tt w' [EvUv (UvReadStop l)]) /\
  (exists w t,
     runStdin linux [OpReadStart; OpEof 4] initialWorld = Ok tt w t /\
     stdinStream w = None /\ stdinReadStop w = Fault ErrNull).
Proof.
  split.
  - pose proof (stdinReadStop_needs_start linux
                  [OpReadStart; OpData 4 [104; 105]]) as H.
    destruct (runStdin linux [OpReadStart; OpData 4 [104; 105]] initialWorld)
      as [[] w t | e] eqn:Hrun; [| vm_compute in Hrun; discriminate Hrun].
    exists w, t. split; [reflexivity |].
    destruct (H w t eq_refl) as (Hyes & _). apply Hyes. reflexivity.
  - pose proof (stdinReadStop_needs_start linux [OpReadStart; OpEof 4]) as H.
    destruct (runStdin linux [OpReadStart; OpEof 4] initialWorld)
      as [[] w t | e] eqn:Hrun; [| vm_compute in Hrun; discriminate Hrun].
    exists w, t. split; [reflexivity |].
    destruct (H w t eq_refl) as (_ & Hno). apply Hno. reflexivity.
Defined.

(** * The finalizer, and a run through the reactor *)

Lemma fileFinalize_closed w l cls :
  heap w !! l = Some (BForeign cls (FInt (-1))) ->
  fileFinalize l w = Ok tt w [].
Proof.
  intros Hl. unfold fileFinalize. repeat (progress (run; heap_simpl)).
  reflexivity.
Qed.

Lemma fileFinalize_open w l cls fd :
  heap w !! l = Some (BForeign cls (FInt fd)) -> fd <> -1 ->
  fileFinalize l w =
    Ok tt w [EvUv (UvFsCloseSync fd); EvUv UvFsReqCleanupLocal].
Proof.
  intros Hl Hfd. unfold fileFinalize. repeat (progress (run; heap_simpl)).
  rewrite eqb_neq_false by exact Hfd. reflexivity.
Qed.

(** After [fileClose] the finalizer finds the sentinel and closes nothing. *)
Example close_then_finalize :
  exists w t,
    (fileClose ;; fileFinalize 1) (fileWorld 7) = Ok tt w t /\
    omap uvCall t = [UvFsClose 3 7 CbFileClose].
Proof. eexists _, _. split; [vm_compute; reflexivity | reflexivity]. Qed.

(** A fiber opens [a.txt] with write-only|create; the reactor reports
    descriptor 7; the callback resumes the fiber with it. *)
Example open_then_complete :
  exists w,
    (issue linux EpFileOpen ;; complete 2 7 zeroStat PNull ;;
     invoke linux 0 CbFileOpen 2)
      (mkWorld ∅ 1
         (<[3 := VFiber 0]> (<[2 := VNum 0x12]> (<[1 := VString "a.txt"]> ∅)))
         None None None None) =
      Ok tt w
         [EvMakeHandle 1 (VFiber 0); EvMalloc 2; EvMalloc 3;
          EvUv (UvFsOpen 2 "a.txt" 65 384 CbFileOpen);
          EvFree 3; EvUv (UvFsReqCleanup 2); EvFree 2;
          EvResume 1 true; EvSetSlot 2 (VNum 7); EvFinishResume] /\
    slots w !! 2 = Some (VNum 7).
Proof. eexists. split; [vm_compute; reflexivity | reflexivity]. Qed.

(** The reactor completing a read of two bytes leaves the heap of
    [sampleWorld]. *)
Example read_then_complete :
  exists w t,
    (issue linux EpFileReadBytes ;; complete 3 2 zeroStat PNull ;;
     store 5 (BBuf [104; 105; 0; 0])) readArgsWorld = Ok tt w t /\
    heap w = heap (sampleWorld 2 zeroStat PNull [104; 105; 0; 0]) /\
    next w = next (sampleWorld 2 zeroStat PNull [104; 105; 0; 0]) /\
    omap uvCall t = [UvFsRead 3 3 (mkBuf (Some 5%positive) 4) 0 CbFileReadBytes].
Proof.
  eexists _, _. split; [vm_compute; reflexivity |].
  split; [vm_compute; reflexivity |]. split; reflexivity.
Qed.

(** * Further properties of the request record *)

Section Records.

Variable host : Platform.

Ltac pending_after Hwf :=
  split;
  [ unfold heapWf; cbn [heap next setHeap setSlots]; intros ? ?;
    rewrite ?lookup_insert_ne by lia; apply Hwf; lia
  | cbn [heap next setHeap setSlots]; rewrite ?lookup_insert_ne by lia;
    assumption
  | assumption
  | cbn [heap next setHeap setSlots]; rewrite ?lookup_insert_ne by lia;
    assumption ].

(** The stat callback leaves neither the request nor its data behind,
    whether or not the class handle was cached. *)
Lemma statCallback_frees w r q d data :
  Pending w r q d data -> 0 <= fs_result q ->
  Payload 0 CbStat w q data ->
  exists w' t,
    statCallback host r w = Ok tt w' t /\
    heap w' !! r = None /\ heap w' !! d = None.
Proof.
  intros HP Hq Hpay. pending_facts HP.
  pose proof (live_below _ _ _ Hwf Hr) as Hlr.
  pose proof (live_below _ _ _ Hwf Hd) as Hld.
  destruct (statClass w) as [h |] eqn:Hc.
  - destruct (Hpay h Hc) as (v & Hh). eexists _, _. split.
    + unfold statCallback. go.
      match goal with
      | |- context [freeRequest r ?w1] =>
          assert (HP' : Pending w1 r q d data) by pending_after Hwf
      end.
      rewrite (freeRequest_ok _ _ _ _ _ HP'). go. reflexivity.
    + wsimpl. split; [apply lookup_delete_eq |].
      rewrite lookup_delete_ne by congruence. apply lookup_delete_eq.
  - eexists _, _. split.
    + unfold statCallback. go.
      match goal with
      | |- context [freeRequest r ?w1] =>
          assert (HP' : Pending w1 r q d data) by pending_after Hwf
      end.
      rewrite (freeRequest_ok _ _ _ _ _ HP'). go. reflexivity.
    + wsimpl. split; [apply lookup_delete_eq |].
      rewrite lookup_delete_ne by congruence. apply lookup_delete_eq.
Qed.

(** Whatever the outcome, a completion callback leaves neither the request
    nor its [FileRequestData] in the heap. *)
Theorem record_freed_on_every_path fuel cb w r q d data :
  Pending w r q d data ->
  (0 <= fs_result q -> Payload fuel cb w q data) ->
  exists w' t,
    invoke host fuel cb r w = Ok tt w' t /\
    heap w' !! r = None /\ heap w' !! d = None.
Proof.
  intros HP Hpay. pose proof (pending_ne _ _ _ _ _ HP) as Hne.
  assert (Hgone : forall (h : gmap loc Block),
            delete r (delete d h) !! r = None /\
            delete r (delete d h) !! d = None).
  { intros h. split; [apply lookup_delete_eq |].
    rewrite lookup_delete_ne by exact Hne. apply lookup_delete_eq. }
  destruct (Z.lt_ge_cases (fs_result q) 0) as [Hneg | Hq].
  - rewrite (invoke_error host fuel cb w r q d data HP Hneg).
    eexists _, _. split; [reflexivity | apply Hgone].
  - specialize (Hpay Hq). destruct cb; cbn [invoke Payload] in *.
    + destruct (directoryListCallback_ok host fuel w r q d data HP Hq Hpay)
        as (w' & Hrun & _ & H1 & H2).
      eexists _, _. split; [exact Hrun | split; assumption].
    + rewrite (fileDeleteCallback_ok host w r q d data HP Hq).
      eexists _, _. split; [reflexivity | apply Hgone].
    + rewrite (fileOpenCallback_ok host w r q d data HP Hq).
      eexists _, _. split; [reflexivity | apply Hgone].
    + rewrite (fileSizeCallback_ok host w r q d data HP Hq).
      eexists _, _. split; [reflexivity | apply Hgone].
    + rewrite (fileCloseCallback_ok host w r q d data HP Hq).
      eexists _, _. split; [reflexivity | apply Hgone].
    + destruct Hpay as (b & bs & Hb & Hbs & Hn).
      rewrite (fileReadBytesCallback_ok host w r q d data b bs HP Hq Hb Hbs Hn).
      pending_facts HP.
      assert (b <> r) by (intros ->; congruence).
      assert (b <> d) by (intros ->; congruence).
      eexists _, _. split; [reflexivity |]. wsimpl.
      rewrite !(lookup_delete_ne _ b) by assumption. apply Hgone.
    + destruct Hpay as (s & Hs).
      rewrite (realPathCallback_ok host w r q d data s HP Hq Hs).
      eexists _, _. split; [reflexivity | apply Hgone].
    + exact (statCallback_frees w r q d data HP Hq Hpay).
    + destruct Hpay as (b & bs & Hb & Hbs).
      rewrite (fileWriteBytesCallback_ok host w r q d data b bs HP Hq Hb Hbs).
      eexists _, _. split; [reflexivity | apply Hgone].
Qed.

(** The read and write callbacks release the buffer the request owns when
    the operation succeeded; when it failed the buffer stays in the heap,
    untouched. *)
Theorem buffer_released_on_success_only cb w r q d data b bs :
  Pending w r q d data ->
  cb = CbFileReadBytes \/ cb = CbFileWriteBytes ->
  buf_base (buffer data) = Some b ->
  heap w !! b = Some (BBuf bs) ->
  fs_result q <= Z.of_nat (List.length bs) ->
  exists w' t,
    invoke host 0 cb r w = Ok tt w' t /\
    (0 <= fs_result q -> heap w' !! b = None) /\
    (fs_result q < 0 -> heap w' !! b = Some (BBuf bs)).
Proof.
  intros HP Hcb Hb Hbs Hn. pending_facts HP.
  assert (b <> r) by (intros ->; congruence).
  assert (b <> d) by (intros ->; congruence).
  destruct (Z.lt_ge_cases (fs_result q) 0) as [Hneg | Hq].
  - rewrite (invoke_error host 0 cb w r q d data HP Hneg).
    eexists _, _. split; [reflexivity |]. split; [lia |]. intros _.
    wsimpl. rewrite !lookup_delete_ne by congruence. exact Hbs.
  - destruct Hcb as [-> | ->]; cbn [invoke].
    + rewrite (fileReadBytesCallback_ok host w r q d data b bs HP Hq Hb Hbs Hn).
      eexists _, _. split; [reflexivity |]. split; [| lia]. intros _.
      wsimpl. apply lookup_delete_eq.
    + rewrite (fileWriteBytesCallback_ok host w r q d data b bs HP Hq Hb Hbs).
      eexists _, _. split; [reflexivity |]. split; [| lia]. intros _.
      wsimpl. rewrite !lookup_delete_ne by congruence. apply lookup_delete_eq.
Qed.

(** A failed operation delivers no value: the callback writes no slot,
    starts no finish phase, and leaves the slots and the cached class
    handle as they were. *)
Theorem failure_delivers_no_value fuel cb w r q d data :
  Pending w r q d data -> fs_result q < 0 ->
  exists w' t,
    invoke host fuel cb r w = Ok tt w' t /\
    slots w' = slots w /\ statClass w' = statClass w /\
    count isSetSlot t = 0%nat /\ count isFinish t = 0%nat /\
    count isMakeHandle t = 0%nat.
Proof.
  intros HP Hneg. rewrite (invoke_error host fuel cb w r q d data HP Hneg).
  eexists _, _. split; [reflexivity |]. repeat split.
Qed.

(** What the open, size and real-path callbacks deliver: slot 2 holds the
    new descriptor, the size in the stat buffer, and the resolved path;
    every other slot is as it was. The descriptor and the size are
    delivered as doubles: the number itself when it has at most 53 bits,
    and the nearest double otherwise. *)
Theorem completion_delivers_result w r q d data :
  Pending w r q d data -> 0 <= fs_result q ->
  (exists w' t,
     invoke host 0 CbFileOpen r w = Ok tt w' t /\
     slots w' = <[2 := VNum (toDouble (fs_result q))]> (slots w) /\
     (fs_result q <= 2 ^ 53 ->
      slots w' = <[2 := VNum (fs_result q)]> (slots w))) /\
  (exists w' t,
     invoke host 0 CbFileSize r w = Ok tt w' t /\
     slots w' = <[2 := VNum (toDouble (st_size (fs_statbuf q)))]> (slots w) /\
     (0 <= st_size (fs_statbuf q) <= 2 ^ 53 ->
      slots w' = <[2 := VNum (st_size (fs_statbuf q))]> (slots w))) /\
  (forall s, fs_ptr q = PPath s ->
   exists w' t,
     invoke host 0 CbRealPath r w = Ok tt w' t /\
     slots w' = <[2 := VString s]> (slots w)).
Proof.
  intros HP Hq. cbn [invoke]. split; [| split].
  - rewrite (fileOpenCallback_ok host w r q d data HP Hq).
    eexists _, _. split; [reflexivity |]. split; [reflexivity |].
    intros Hle. wsimpl. rewrite toDouble_exact by lia. reflexivity.
  - rewrite (fileSizeCallback_ok host w r q d data HP Hq).
    eexists _, _. split; [reflexivity |]. split; [reflexivity |].
    intros Hle. wsimpl. rewrite toDouble_exact by lia. reflexivity.
  - intros s Hs. rewrite (realPathCallback_ok host w r q d data s HP Hq Hs).
    eexists _, _. split; reflexivity.
Qed.

End Records.

(** * Further properties of file handles *)

(** What [fileAllocate] stores, [fileDescriptor] reads back: for a
    descriptor that is within the range of [int], to which [fileAllocate]
    converts it, the new [File] object holds the descriptor passed in
    slot 1, and asking the object for its descriptor returns that number
    without touching the heap. *)
Theorem fileAllocate_fileDescriptor w cls fd :
  slots w !! 0 = Some cls ->
  slots w !! 1 = Some (VNum fd) ->
  INT_MIN <= fd <= INT_MAX ->
  exists w1 w2,
    fileAllocate w =
      Ok tt w1
         [EvSetSlot 0 (VForeign (next w));
          EvForeignWrite (next w) (FInt fd)] /\
    heap w1 = <[next w := BForeign cls (FInt fd)]> (heap w) /\
    slots w1 !! 0 = Some (VForeign (next w)) /\
    fileDescriptor w1 = Ok tt w2 [EvSetSlot 0 (VNum fd)] /\
    slots w2 !! 0 = Some (VNum fd) /\ heap w2 = heap w1.
Proof.
  intros H0 H1 Hfd. eexists _, _. split.
  { unfold fileAllocate.
    repeat (progress (run; heap_simpl; cast_simpl)). reflexivity. }
  split; [wsimpl; apply insert_insert_eq |].
  split; [wsimpl; apply lookup_insert_eq |].
  split.
  { unfold fileDescriptor. repeat (progress (run; heap_simpl)). reflexivity. }
  split; [wsimpl; apply lookup_insert_eq | reflexivity].
Qed.

Lemma fileAllocate_fileDescriptor_witness :
  exists w1 w2,
    fileAllocate allocArgsWorld =
      Ok tt w1 [EvSetSlot 0 (VForeign 1); EvForeignWrite 1 (FInt 7)] /\
    fileDescriptor w1 = Ok tt w2 [EvSetSlot 0 (VNum 7)].
Proof.
  destruct (fileAllocate_fileDescriptor allocArgsWorld
              (VClass "io" "File") 7 eq_refl eq_refl)
    as (w1 & w2 & Hrun & _ & _ & Hfd & _);
    [unfold INT_MIN, INT_MAX; lia |].
  exists w1, w2. split; [exact Hrun | exact Hfd].
Defined.

(** Once [fileClose] has run on a file, open or already closed, the file
    is closed for good: its descriptor reads [-1], the finalizer finds the
    sentinel and closes nothing, and another [fileClose] returns [true]
    without issuing anything. Before the close, the finalizer of an open
    file closes its descriptor in one synchronous call, cleans up the
    request it used for it, and leaves the object as it is. *)
Theorem close_is_final w l cls fd v :
  heapWf w ->
  slots w !! 0 = Some (VForeign l) ->
  heap w !! l = Some (BForeign cls (FInt fd)) ->
  slots w !! 1 = Some v ->
  (fd <> -1 ->
   fileFinalize l w =
     Ok tt w [EvUv (UvFsCloseSync fd); EvUv UvFsReqCleanupLocal]) /\
  exists w1 t1,
    fileClose w = Ok tt w1 t1 /\
    heap w1 !! l = Some (BForeign cls (FInt (-1))) /\
    fileFinalize l w1 = Ok tt w1 [] /\
    (exists w2,
       fileDescriptor (withReceiver (VForeign l) w1) =
         Ok tt w2 [EvSetSlot 0 (VNum (-1))]) /\
    (exists w3,
       fileClose (withReceiver (VForeign l) w1) =
         Ok tt w3 [EvSetSlot 0 (VBool true)]).
Proof.
  intros Hwf H0 Hl H1.
  split; [intros Hfd; exact (fileFinalize_open w l cls fd Hl Hfd) |].
  assert (Hafter : forall w1,
            heap w1 !! l = Some (BForeign cls (FInt (-1))) ->
            fileFinalize l w1 = Ok tt w1 [] /\
            (exists w2,
               fileDescriptor (withReceiver (VForeign l) w1) =
                 Ok tt w2 [EvSetSlot 0 (VNum (-1))]) /\
            (exists w3,
               fileClose (withReceiver (VForeign l) w1) =
                 Ok tt w3 [EvSetSlot 0 (VBool true)])).
  { intros w1 Hl1. split; [exact (fileFinalize_closed w1 l cls Hl1) |].
    assert (Hs : slots (withReceiver (VForeign l) w1) !! 0 = Some (VForeign l))
      by (unfold withReceiver; wsimpl; apply lookup_insert_eq).
    assert (Hh : heap (withReceiver (VForeign l) w1) !! l =
                 Some (BForeign cls (FInt (-1)))) by exact Hl1.
    split.
    - eexists. unfold fileDescriptor.
      repeat (progress (run; heap_simpl)). reflexivity.
    - eexists. exact (fileClose_closed _ l cls Hs Hh). }
  destruct (Z.eq_dec fd (-1)) as [-> | Hfd].
  - eexists _, _. split; [exact (fileClose_closed w l cls H0 Hl) |].
    split; [exact Hl |]. apply Hafter. exact Hl.
  - destruct (fileClose_open w l cls fd v Hwf H0 Hl Hfd H1)
      as (w1 & Hrun & Hl1 & _).
    eexists _, _. split; [exact Hrun |]. split; [exact Hl1 |].
    apply Hafter. exact Hl1.
Qed.

Lemma close_is_final_witness :
  exists w1 t1,
    fileClose (fileWorld 7) = Ok tt w1 t1 /\
    fileFinalize 1 w1 = Ok tt w1 [].
Proof.
  destruct (close_is_final (fileWorld 7) 1 (VClass "io" "File") 7 (VFiber 0)
              (fileWorld_wf 7) eq_refl eq_refl eq_refl)
    as (_ & w1 & t1 & Hrun & _ & Hfin & _).
  exists w1, t1. split; [exact Hrun | exact Hfin].
Defined.

Lemma record_freed_on_every_path_witness :
  exists w' t,
    invoke linux 0 CbFileOpen 3 (sampleWorld (-13) zeroStat PNull []) =
      Ok tt w' t /\
    heap w' !! 3%positive = None /\ heap w' !! 4%positive = None.
Proof.
  apply (record_freed_on_every_path linux 0 CbFileOpen _ _ _ _ _
           (sample_pending (-13) zeroStat PNull [])).
  cbn. lia.
Defined.

Lemma buffer_released_on_success_only_witness :
  (exists w' t,
     invoke linux 0 CbFileWriteBytes 3
       (sampleWorld 2 zeroStat PNull [104; 105]) = Ok tt w' t /\
     heap w' !! 5%positive = None) /\
  (exists w' t,
     invoke linux 0 CbFileWriteBytes 3
       (sampleWorld (-13) zeroStat PNull [104; 105]) = Ok tt w' t /\
     heap w' !! 5%positive = Some (BBuf [104; 105])).
Proof.
  split.
  - destruct (buffer_released_on_success_only linux CbFileWriteBytes _ _ _ _ _
                5 [104; 105] (sample_pending 2 zeroStat PNull [104; 105])
                (or_intror eq_refl) eq_refl eq_refl)
      as (w' & t & Hrun & Hok & _); [cbn; lia |].
    exists w', t. split; [exact Hrun |]. apply Hok. cbn. lia.
  - destruct (buffer_released_on_success_only linux CbFileWriteBytes _ _ _ _ _
                5 [104; 105] (sample_pending (-13) zeroStat PNull [104; 105])
                (or_intror eq_refl) eq_refl eq_refl)
      as (w' & t & Hrun & _ & Hfail); [cbn; lia |].
    exists w', t. split; [exact Hrun |]. apply Hfail. cbn. lia.
Defined.

Lemma failure_delivers_no_value_witness :
  exists w' t,
    invoke linux 0 CbRealPath 3 (sampleWorld (-2) zeroStat PNull []) =
      Ok tt w' t /\
    slots w' = slots (sampleWorld (-2) zeroStat PNull []) /\
    count isSetSlot t = 0%nat.
Proof.
  destruct (failure_delivers_no_value linux 0 CbRealPath _ _ _ _ _
              (sample_pending (-2) zeroStat PNull []))
    as (w' & t & Hrun & Hs & _ & Hc & _); [cbn; lia |].
  exists w', t. split; [exact Hrun |]. split; [exact Hs | exact Hc].
Defined.

Lemma completion_delivers_result_witness :
  exists w' t,
    invoke linux 0 CbFileOpen 3 (sampleWorld 7 zeroStat PNull []) =
      Ok tt w' t /\
    slots w' = <[2 := VNum 7]> (slots (sampleWorld 7 zeroStat PNull [])).
Proof.
  destruct (completion_delivers_result linux _ _ _ _ _
              (sample_pending 7 zeroStat PNull [])) as (Hopen & _).
  - cbn. lia.
  - destruct Hopen as (w' & t & Hrun & Hs & _).
    exists w', t. split; [exact Hrun | exact Hs].
Defined.

(** * Further properties of reading and writing *)

(** An offset below [2^63] reaches libuv as it is; from [2^63] on it
    arrives negative. *)
Lemma toInt64_spec off :
  (off < 2 ^ 63 -> toInt64 off = off) /\
  (2 ^ 63 <= off <= SIZE_MAX -> toInt64 off = off - 2 ^ 64 /\ toInt64 off < 0).
Proof.
  unfold toInt64, SIZE_MAX.
  destruct (Z.ltb_spec off (2 ^ 63)) as [H | H]; split; intros H';
    try lia; try reflexivity.
Qed.

Section ReadWrite.

Variable host : Platform.

(** [fileWriteBytes] hands libuv a buffer of its own: a block that did not
    exist before, holding exactly the bytes of slot 1, with their length,
    together with the file's descriptor and the offset of slot 2, which
    reaches libuv as it is when it is below [2^63]. When the write then
    completes successfully the callback frees the buffer and the record, so
    that of everything the operation allocated only the fiber's handle
    (which the scheduler owns) is left. *)
Theorem write_owns_a_copy w l cls fd bs off v n :
  heapWf w ->
  slots w !! 0 = Some (VForeign l) ->
  heap w !! l = Some (BForeign cls (FInt fd)) ->
  slots w !! 1 = Some (VBytes bs) ->
  slots w !! 2 = Some (VNum off) ->
  slots w !! 3 = Some v ->
  0 <= off <= SIZE_MAX ->
  malloc_ok host (Z.of_nat (List.length bs)) = true ->
  0 <= n ->
  exists w1 w2 t2,
    fileWriteBytes host w =
      Ok tt w1
         [EvMakeHandle (next w) v; EvMalloc (Pos.succ (next w));
          EvMalloc (Pos.succ (Pos.succ (next w)));
          EvMalloc (Pos.succ (Pos.succ (Pos.succ (next w))));
          EvUv (UvFsWrite (Pos.succ (next w)) fd
                  (mkBuf (Some (Pos.succ (Pos.succ (Pos.succ (next w)))))
                     (Z.of_nat (List.length bs)))
                  (toInt64 off) CbFileWriteBytes)] /\
    (off < 2 ^ 63 -> toInt64 off = off) /\
    heap w !! Pos.succ (Pos.succ (Pos.succ (next w))) = None /\
    heap w1 !! Pos.succ (Pos.succ (Pos.succ (next w))) = Some (BBuf bs) /\
    slots w1 = slots w /\
    (complete (Pos.succ (next w)) n zeroStat PNull ;;
     invoke host 0 CbFileWriteBytes (Pos.succ (next w))) w1 = Ok tt w2 t2 /\
    heap w2 = <[next w := BHandle v]> (heap w).
Proof.
  intros Hwf H0 Hl H1 H2 H3 Hoff Hm Hn.
  pose proof (live_below _ _ _ Hwf Hl) as Hlt.
  assert (Hf0 : heap w !! next w = None) by (apply Hwf; lia).
  assert (Hf1 : heap w !! Pos.succ (next w) = None) by (apply Hwf; lia).
  assert (Hf2 : heap w !! Pos.succ (Pos.succ (next w)) = None)
    by (apply Hwf; lia).
  assert (Hf3 : heap w !! Pos.succ (Pos.succ (Pos.succ (next w))) = None)
    by (apply Hwf; lia).
  eexists _, _, _. split.
  { unfold fileWriteBytes, createRequest, mallocBytes.
    repeat (progress (run; heap_simpl; cast_simpl)). reflexivity. }
  split; [apply toInt64_spec |].
  split; [exact Hf3 |].
  split; [lookup_tac |].
  split; [reflexivity |].
  split.
  { unfold complete. cbn [invoke].
    unfold fileWriteBytesCallback, handleRequestError, freeRequest.
    repeat (progress (run; heap_simpl)).
    rewrite geb_nonneg by exact Hn.
    repeat (progress (run; heap_simpl)). reflexivity. }
  wsimpl. apply map_eq. intros i.
  repeat first [rewrite lookup_delete | rewrite lookup_insert].
  repeat case_decide; subst; try congruence; try lia;
    rewrite ?Hf0, ?Hf1, ?Hf2, ?Hf3; reflexivity.
Qed.

(** [fileReadBytes], for a length and an offset within the range of
    [size_t], hands libuv the file's descriptor, the offset of slot 2 (as
    it is when it is below [2^63]) and a buffer of exactly the length asked
    for in slot 1, which it records in the request's data. When the host
    can provide the buffer it is a block that did not exist before; when it
    cannot, the read is issued all the same, with a null base. *)
Theorem read_buffer_has_requested_length w l cls fd len off v :
  heapWf w ->
  slots w !! 0 = Some (VForeign l) ->
  heap w !! l = Some (BForeign cls (FInt fd)) ->
  slots w !! 1 = Some (VNum len) ->
  slots w !! 2 = Some (VNum off) ->
  slots w !! 3 = Some v ->
  0 <= len <= SIZE_MAX -> 0 <= off <= SIZE_MAX ->
  (off < 2 ^ 63 -> toInt64 off = off) /\
  (malloc_ok host len = true ->
   exists w1 bs q,
     fileReadBytes host w =
       Ok tt w1
          [EvMakeHandle (next w) v; EvMalloc (Pos.succ (next w));
           EvMalloc (Pos.succ (Pos.succ (next w)));
           EvMalloc (Pos.succ (Pos.succ (Pos.succ (next w))));
           EvUv (UvFsRead (Pos.succ (next w)) fd
                   (mkBuf (Some (Pos.succ (Pos.succ (Pos.succ (next w)))))
                      len)
                   (toInt64 off) CbFileReadBytes)] /\
     heap w !! Pos.succ (Pos.succ (Pos.succ (next w))) = None /\
     heap w1 !! Pos.succ (Pos.succ (Pos.succ (next w))) = Some (BBuf bs) /\
     Z.of_nat (List.length bs) = len /\
     Pending w1 (Pos.succ (next w)) q (Pos.succ (Pos.succ (next w)))
       (mkData (next w)
          (mkBuf (Some (Pos.succ (Pos.succ (Pos.succ (next w))))) len))) /\
  (malloc_ok host len = false ->
   exists w1 q,
     fileReadBytes host w =
       Ok tt w1
          [EvMakeHandle (next w) v; EvMalloc (Pos.succ (next w));
           EvMalloc (Pos.succ (Pos.succ (next w)));
           EvUv (UvFsRead (Pos.succ (next w)) fd (mkBuf None len)
                   (toInt64 off) CbFileReadBytes)] /\
     Pending w1 (Pos.succ (next w)) q (Pos.succ (Pos.succ (next w)))
       (mkData (next w) (mkBuf None len))).
Proof.
  intros Hwf H0 Hl H1 H2 H3 Hlen Hoff.
  pose proof (live_below _ _ _ Hwf Hl) as Hlt.
  split; [apply toInt64_spec |]. split.
  - intros Hm.
    destruct (fileReadBytes_run host w l cls fd len off v Hwf H0 Hl H1 H2 H3
                Hlen Hoff Hm) as (w1 & Hrun & _ & HP & Hb & _).
    eexists w1, _, _. split; [exact Hrun |].
    split; [apply Hwf; lia |]. split; [exact Hb |].
    split; [rewrite length_replicate; lia | exact HP].
  - intros Hm. eexists _, _. split.
    { unfold fileReadBytes, createRequest, mallocBytes.
      repeat (progress (run; heap_simpl; cast_simpl)). reflexivity. }
    split; [wf_tac Hwf | lookup_tac | reflexivity | lookup_tac].
Qed.

End ReadWrite.

Lemma write_owns_a_copy_witness :
  exists w1 w2 t2,
    fileWriteBytes linux writeArgsWorld =
      Ok tt w1
         [EvMakeHandle 2 (VFiber 0); EvMalloc 3; EvMalloc 4; EvMalloc 5;
          EvUv (UvFsWrite 3 3 (mkBuf (Some 5%positive) 2) 0 CbFileWriteBytes)] /\
    heap w1 !! 5%positive = Some (BBuf [104; 105]) /\
    (complete 3 2 zeroStat PNull ;; invoke linux 0 CbFileWriteBytes 3) w1 =
      Ok tt w2 t2 /\
    heap w2 = <[2%positive := BHandle (VFiber 0)]> (heap writeArgsWorld).
Proof.
  destruct (write_owns_a_copy linux writeArgsWorld 1 (VClass "io" "File") 3
              [104; 105] 0 (VFiber 0) 2)
    as (w1 & w2 & t2 & Hrun & _ & _ & Hb & _ & Hcb & Hheap);
    try reflexivity; try (unfold SIZE_MAX; lia).
  - apply readArgsWorld_wf.
  - exists w1, w2, t2. repeat split; assumption.
Defined.

Lemma read_buffer_has_requested_length_witness :
  exists w1 bs,
    fileReadBytes linux readArgsWorld =
      Ok tt w1
         [EvMakeHandle 2 (VFiber 0); EvMalloc 3; EvMalloc 4; EvMalloc 5;
          EvUv (UvFsRead 3 3 (mkBuf (Some 5%positive) 4) 0 CbFileReadBytes)] /\
    heap w1 !! 5%positive = Some (BBuf bs) /\ Z.of_nat (List.length bs) = 4.
Proof.
  destruct (read_buffer_has_requested_length linux readArgsWorld 1
              (VClass "io" "File") 3 4 0 (VFiber 0) readArgsWorld_wf
              eq_refl eq_refl eq_refl eq_refl eq_refl)
    as (_ & Hok & _); [unfold SIZE_MAX; lia | unfold SIZE_MAX; lia |].
  destruct (Hok eq_refl) as (w1 & bs & q & Hrun & _ & Hb & Hlen & _).
  exists w1, bs. split; [exact Hrun |]. split; [exact Hb | exact Hlen].
Defined.

(** * Further properties of the flag mapper *)

Lemma testbit_if (b : bool) x n :
  Z.testbit (if b then x else 0) n = b && Z.testbit x n.
Proof. destruct b; [reflexivity | apply Z.bits_0]. Qed.

(** Combining portable flags and then mapping them gives the native flags
    of each, combined: the mapper distributes over bitwise or. *)
Theorem mapFileFlags_lor host a b :
  mapFileFlags host (Z.lor a b) =
  Z.lor (mapFileFlags host a) (mapFileFlags host b).
Proof.
  rewrite !mapFileFlags_by_bit. unfold mapFlagsByBit.
  cbn [fmap list_fmap foldr nativeFlag].
  apply Z.bits_inj. intros n.
  repeat first [rewrite Z.lor_spec | rewrite testbit_if].
  rewrite ?Z.bits_0.
  generalize (Z.testbit a 0) (Z.testbit a 1) (Z.testbit a 2) (Z.testbit a 3)
    (Z.testbit a 4) (Z.testbit a 5) (Z.testbit a 6)
    (Z.testbit b 0) (Z.testbit b 1) (Z.testbit b 2) (Z.testbit b 3)
    (Z.testbit b 4) (Z.testbit b 5) (Z.testbit b 6)
    (Z.testbit (O_RDONLY host) n) (Z.testbit (O_WRONLY host) n)
    (Z.testbit (O_RDWR host) n) (Z.testbit (O_SYNC host) n)
    (Z.testbit (O_CREAT host) n) (Z.testbit (O_TRUNC host) n)
    (Z.testbit (O_EXCL host) n).
  intros. btauto.
Qed.

(** * Further properties of the shutdown *)

Lemma lookup_deleteOpt_eq (h : gmap loc Block) l :
  deleteOpt (Some l) h !! l = None.
Proof. apply lookup_delete_eq. Qed.

Lemma ioShutdown_null w :
  stdinStream w = None -> stdinClass w = None -> stdinOnData w = None ->
  statClass w = None ->
  ioShutdown w = Ok tt w [].
Proof.
  intros E1 E2 E3 E4. unfold ioShutdown, shutdownStdin.
  repeat (progress (run; heap_simpl)). reflexivity.
Qed.

Lemma ioShutdown_explicit w :
  StdinInv w ->
  ioShutdown w =
    Ok tt
       (mkWorld
          (deleteOpt (statClass w)
             (deleteOpt (stdinOnData w)
                (deleteOpt (stdinClass w)
                   (deleteOpt (stdinStream w) (heap w)))))
          (next w) (slots w) None None None None)
       (closeEvents (stdinStream w) ++ releaseEvents (stdinClass w) ++
        releaseEvents (stdinOnData w) ++ releaseEvents (statClass w)).
Proof.
  intros Hinv. pose proof (shutdown_inv w Hinv) as Hinv'.
  unfold ioShutdown. unfold bind at 1. rewrite (shutdownStdin_run w Hinv).
  destruct (statClass w) as [h |] eqn:Eh.
  - destruct (inv_stat _ Hinv' h) as (v & Hv); [reflexivity |].
    cbn [heap] in Hv.
    repeat (progress (run; heap_simpl)).
    cbn [deleteOpt releaseEvents]. rewrite <- !app_assoc. reflexivity.
  - repeat (progress (run; heap_simpl)).
    cbn [deleteOpt releaseEvents]. rewrite <- !app_assoc. reflexivity.
Qed.

(** [ioShutdown] closes and frees the stdin stream and releases each cached
    handle that exists, each once and in this order: stream, [Stdin] class,
    [onData_] method, [Stat] class. Afterwards all four static variables
    are null and none of those blocks is in the heap; a second
    [ioShutdown] does nothing at all. *)
Theorem ioShutdown_idempotent w :
  StdinInv w ->
  exists w1,
    ioShutdown w =
      Ok tt w1
         (closeEvents (stdinStream w) ++ releaseEvents (stdinClass w) ++
          releaseEvents (stdinOnData w) ++ releaseEvents (statClass w)) /\
    stdinStream w1 = None /\ stdinClass w1 = None /\
    stdinOnData w1 = None /\ statClass w1 = None /\
    (forall l,
       stdinStream w = Some l \/ stdinClass w = Some l \/
       stdinOnData w = Some l \/ statClass w = Some l ->
       heap w1 !! l = None) /\
    ioShutdown w1 = Ok tt w1 [].
Proof.
  intros Hinv. eexists. split; [exact (ioShutdown_explicit w Hinv) |].
  do 4 (split; [reflexivity |]). split.
  - intros l Hl. cbn [heap].
    destruct Hl as [-> | [-> | [-> | ->]]].
    + do 3 apply lookup_deleteOpt_None. apply lookup_deleteOpt_eq.
    + do 2 apply lookup_deleteOpt_None. apply lookup_deleteOpt_eq.
    + apply lookup_deleteOpt_None. apply lookup_deleteOpt_eq.
    + apply lookup_deleteOpt_eq.
  - apply ioShutdown_null; reflexivity.
Qed.

Lemma ioShutdown_idempotent_witness :
  exists w1,
    ioShutdown readingWorld =
      Ok tt w1 [EvUv (UvClose 1); EvFree 1] /\
    heap w1 !! 1%positive = None /\
    ioShutdown w1 = Ok tt w1 [].
Proof.
  destruct (ioShutdown_idempotent readingWorld readingWorld_inv)
    as (w1 & Hrun & _ & _ & _ & _ & Hfree & Hagain).
  exists w1. split; [exact Hrun |]. split; [| exact Hagain].
  apply Hfree. left. reflexivity.
Defined.

(** * Further properties of [Stat] *)

#[local] Hint Unfold readStat : io.

(** Every numeric accessor stores in slot 0 the field of the snapshot it is
    named after, converted to a double, and changes nothing else: the
    snapshot is only read. *)
Lemma statAccessors_read w l cls st :
  slots w !! 0 = Some (VForeign l) ->
  heap w !! l = Some (BForeign cls (FStat st)) ->
  Forall
    (fun af : M unit * (uv_stat_t -> Z) =>
       fst af w =
         Ok tt (withReceiver (VNum (toDouble (snd af st))) w)
            [EvSetSlot 0 (VNum (toDouble (snd af st)))])
    statAccessors.
Proof.
  intros H0 Hl. unfold statAccessors.
  repeat (constructor;
          [ cbn [fst snd];
            unfold statBlockCount, statBlockSize, statDevice, statGroup,
              statInode, statLinkCount, statMode, statSize,
              statSpecialDevice, statUser;
            repeat (progress (run; heap_simpl)); reflexivity |]).
  constructor.
Qed.

Section Stat.

Variable host : Platform.

Ltac pending_after Hwf :=
  split;
  [ unfold heapWf; cbn [heap next setHeap setSlots]; intros ? ?;
    rewrite ?lookup_insert_ne by lia; apply Hwf; lia
  | cbn [heap next setHeap setSlots]; rewrite ?lookup_insert_ne by lia;
    assumption
  | assumption
  | cbn [heap next setHeap setSlots]; rewrite ?lookup_insert_ne by lia;
    assumption ].

(** [statCallback] on a successful request, whether or not the class handle
    is cached. *)
Lemma statCallback_snapshot w r q d data :
  Pending w r q d data -> 0 <= fs_result q ->
  Payload 0 CbStat w q data ->
  exists w' t l h cls,
    invoke host 0 CbStat r w = Ok tt w' t /\
    slots w' !! 2 = Some (VForeign l) /\
    heap w !! l = None /\
    heap w' !! l = Some (BForeign cls (FStat (fs_statbuf q))) /\
    statClass w' = Some h /\ heap w' !! h = Some (BHandle cls) /\
    (statClass w = None ->
     cls = VClass "io" "Stat" /\ count isMakeHandle t = 1%nat) /\
    (forall h0, statClass w = Some h0 ->
                h = h0 /\ count isMakeHandle t = 0%nat) /\
    (forall l0 c0 f0,
       heap w !! l0 = Some (BForeign c0 f0) ->
       heap w' !! l0 = Some (BForeign c0 f0)).
Proof.
  intros HP Hq Hpay. pending_facts HP. cbn [invoke].
  pose proof (live_below _ _ _ Hwf Hr) as Hlr.
  pose proof (live_below _ _ _ Hwf Hd) as Hld.
  destruct (statClass w) as [h |] eqn:Hc.
  - destruct (Hpay h Hc) as (v & Hh).
    pose proof (live_below _ _ _ Hwf Hh) as Hlh.
    assert (h <> r) by (intros ->; congruence).
    assert (h <> d) by (intros ->; congruence).
    eexists _, _, (next w), h, v. split.
    { unfold statCallback. go.
      match goal with
      | |- context [freeRequest r ?w1] =>
          assert (HP' : Pending w1 r q d data) by pending_after Hwf
      end.
      rewrite (freeRequest_ok _ _ _ _ _ HP'). go. reflexivity. }
    split; [wsimpl; apply lookup_insert_eq |].
    split; [apply Hwf; lia |].
    split; [lookup_tac |].
    split; [reflexivity |].
    split; [lookup_tac |].
    split; [discriminate |].
    split; [intros h0 [= <-]; split; reflexivity |].
    intros l0 c0 f0 Hl0. pose proof (live_below _ _ _ Hwf Hl0).
    assert (l0 <> r) by (intros ->; congruence).
    assert (l0 <> d) by (intros ->; congruence).
    lookup_tac.
  - eexists _, _, (Pos.succ (next w)), (next w), (VClass "io" "Stat"). split.
    { unfold statCallback. go.
      match goal with
      | |- context [freeRequest r ?w1] =>
          assert (HP' : Pending w1 r q d data) by pending_after Hwf
      end.
      rewrite (freeRequest_ok _ _ _ _ _ HP'). go. reflexivity. }
    split; [wsimpl; apply lookup_insert_eq |].
    split; [apply Hwf; lia |].
    split; [lookup_tac |].
    split; [reflexivity |].
    split; [lookup_tac |].
    split; [intros _; split; reflexivity |].
    split; [discriminate |].
    intros l0 c0 f0 Hl0. pose proof (live_below _ _ _ Hwf Hl0).
    assert (l0 <> r) by (intros ->; congruence).
    assert (l0 <> d) by (intros ->; congruence).
    lookup_tac.
Qed.

(** A successful stat puts in slot 2 a new foreign object whose payload is
    the stat buffer the reactor reported, and whose class is the one behind
    the cached handle. The [Stat] class is looked up only when no handle is
    cached: the callback then makes one handle and caches it; otherwise it
    makes none and keeps the cached one. Foreign objects that already
    existed, earlier snapshots among them, are left as they were. *)
Theorem stat_snapshot w r q d data :
  Pending w r q d data -> 0 <= fs_result q ->
  Payload 0 CbStat w q data ->
  exists w' t l h cls,
    invoke host 0 CbStat r w = Ok tt w' t /\
    slots w' !! 2 = Some (VForeign l) /\
    heap w !! l = None /\
    heap w' !! l = Some (BForeign cls (FStat (fs_statbuf q))) /\
    statClass w' = Some h /\ heap w' !! h = Some (BHandle cls) /\
    (statClass w = None ->
     cls = VClass "io" "Stat" /\ count isMakeHandle t = 1%nat) /\
    (forall h0, statClass w = Some h0 ->
                h = h0 /\ count isMakeHandle t = 0%nat) /\
    (forall l0 c0 f0,
       heap w !! l0 = Some (BForeign c0 f0) ->
       heap w' !! l0 = Some (BForeign c0 f0)).
Proof. exact (statCallback_snapshot w r q d data). Qed.

(** What the reactor reported is what the accessors return: after a
    successful stat, each numeric accessor called on the new object stores
    in slot 0 the corresponding field of the request's stat buffer,
    converted to a double: the field itself when it has at most 53 bits,
    and the nearest double otherwise. *)
Theorem stat_then_accessors w r q d data :
  Pending w r q d data -> 0 <= fs_result q ->
  Payload 0 CbStat w q data ->
  exists w' t l,
    invoke host 0 CbStat r w = Ok tt w' t /\
    slots w' !! 2 = Some (VForeign l) /\
    Forall
      (fun af : M unit * (uv_stat_t -> Z) =>
         exists w'',
           fst af (withReceiver (VForeign l) w') =
             Ok tt w''
                [EvSetSlot 0 (VNum (toDouble (snd af (fs_statbuf q))))] /\
           heap w'' = heap w' /\
           slots w'' !! 0 = Some (VNum (toDouble (snd af (fs_statbuf q)))) /\
           (0 <= snd af (fs_statbuf q) <= 2 ^ 53 ->
            slots w'' !! 0 = Some (VNum (snd af (fs_statbuf q)))))
      statAccessors.
Proof.
  intros HP Hq Hpay.
  destruct (statCallback_snapshot w r q d data HP Hq Hpay)
    as (w' & t & l & h & cls & Hrun & Hs & _ & Hl & _).
  exists w', t, l. split; [exact Hrun |]. split; [exact Hs |].
  assert (H0 : slots (withReceiver (VForeign l) w') !! 0 = Some (VForeign l))
    by (unfold withReceiver; wsimpl; apply lookup_insert_eq).
  pose proof (statAccessors_read (withReceiver (VForeign l) w') l cls
                (fs_statbuf q) H0 Hl) as Hall.
  eapply Forall_impl; [exact Hall |].
  intros [acc field] Hacc. cbn [fst snd] in *.
  eexists. split; [exact Hacc |]. split; [reflexivity |].
  split; [unfold withReceiver; wsimpl; apply lookup_insert_eq |].
  intros Hle. unfold withReceiver. wsimpl.
  rewrite toDouble_exact by lia. apply lookup_insert_eq.
Qed.

End Stat.

(** [statIsDirectory] and [statIsFile] store whether the file-type bits of
    the snapshot's mode are those of a directory, respectively of a regular
    file, and only read the snapshot. As long as the host gives the two
    types different bits, no snapshot is both. *)
Theorem stat_type_tests mb w l cls st :
  slots w !! 0 = Some (VForeign l) ->
  heap w !! l = Some (BForeign cls (FStat st)) ->
  S_IFDIR mb <> S_IFREG mb ->
  statIsDirectory mb w =
    Ok tt (withReceiver (VBool (S_ISDIR mb (st_mode st))) w)
       [EvSetSlot 0 (VBool (S_ISDIR mb (st_mode st)))] /\
  statIsFile mb w =
    Ok tt (withReceiver (VBool (S_ISREG mb (st_mode st))) w)
       [EvSetSlot 0 (VBool (S_ISREG mb (st_mode st)))] /\
  (S_ISDIR mb (st_mode st) = true <->
   Z.land (st_mode st) (S_IFMT mb) = S_IFDIR mb) /\
  (S_ISREG mb (st_mode st) = true <->
   Z.land (st_mode st) (S_IFMT mb) = S_IFREG mb) /\
  S_ISDIR mb (st_mode st) && S_ISREG mb (st_mode st) = false.
Proof.
  intros H0 Hl Hne. split; [| split].
  - unfold statIsDirectory. repeat (progress (run; heap_simpl)). reflexivity.
  - unfold statIsFile. repeat (progress (run; heap_simpl)). reflexivity.
  - unfold S_ISDIR, S_ISREG. split; [apply Z.eqb_eq |]. split; [apply Z.eqb_eq |].
    destruct (Z.eqb_spec (Z.land (st_mode st) (S_IFMT mb)) (S_IFDIR mb)) as [E1 |];
      [| reflexivity].
    destruct (Z.eqb_spec (Z.land (st_mode st) (S_IFMT mb)) (S_IFREG mb)) as [E2 |];
      [| reflexivity].
    congruence.
Qed.

Lemma sample_stat_payload result p bs :
  Payload 0 CbStat (sampleWorld result sampleStat p bs)
    (mkReq result (Some 4%positive) sampleStat p 0)
    (mkData 2 (mkBuf (Some 5%positive) (Z.of_nat (List.length bs)))).
Proof. intros h H. discriminate H. Qed.

Lemma stat_snapshot_witness :
  exists w' t l,
    invoke linux 0 CbStat 3 (sampleWorld 0 sampleStat PNull []) = Ok tt w' t /\
    slots w' !! 2 = Some (VForeign l) /\
    heap w' !! l = Some (BForeign (VClass "io" "Stat") (FStat sampleStat)) /\
    count isMakeHandle t = 1%nat.
Proof.
  destruct (stat_snapshot linux _ _ _ _ _
              (sample_pending 0 sampleStat PNull []))
    as (w' & t & l & h & cls & Hrun & Hs & _ & Hl & _ & _ & Hfirst & _).
  - cbn. lia.
  - apply sample_stat_payload.
  - destruct (Hfirst eq_refl) as (-> & Hc).
    exists w', t, l. repeat split; assumption.
Defined.

Lemma stat_then_accessors_witness :
  exists w' t l w'',
    invoke linux 0 CbStat 3 (sampleWorld 0 sampleStat PNull []) = Ok tt w' t /\
    statSize (withReceiver (VForeign l) w') =
      Ok tt w'' [EvSetSlot 0 (VNum 5)].
Proof.
  destruct (stat_then_accessors linux _ _ _ _ _
              (sample_pending 0 sampleStat PNull []))
    as (w' & t & l & Hrun & _ & Hall).
  - cbn. lia.
  - apply sample_stat_payload.
  - unfold statAccessors in Hall.
    do 7 apply Forall_inv_tail in Hall. apply Forall_inv in Hall.
    destruct Hall as (w'' & Hacc & _).
    exists w', t, l, w''. split; [exact Hrun | exact Hacc].
Defined.

Lemma stat_type_tests_witness :
  statIsDirectory linuxModes statWorld =
    Ok tt (withReceiver (VBool false) statWorld) [EvSetSlot 0 (VBool false)] /\
  statIsFile linuxModes statWorld =
    Ok tt (withReceiver (VBool true) statWorld) [EvSetSlot 0 (VBool true)].
Proof.
  destruct (stat_type_tests linuxModes statWorld 1 (VClass "io" "Stat")
              sampleStat eq_refl eq_refl)
    as (Hd & Hf & _).
  - cbn. lia.
  - split; [exact Hd | exact Hf].
Defined.

(** * Further properties of the stdin subsystem *)

Section StdinMore.

Variable host : Platform.

(** A second [stdinReadStart] creates nothing: with a stream in place it
    only starts reading on it. The first one allocates the stream, a TTY
    when [uv_guess_handle] says so and a pipe otherwise, and starts
    reading on it. *)
Theorem stdinReadStart_creates_once w :
  StdinInv w ->
  (forall l, stdinStream w = Some l ->
   exists w' s,
     stdinReadStart host w = Ok tt w' [EvUv (UvReadStart l)] /\
     stdinStream w' = Some l /\ next w' = next w /\
     heap w !! l = Some (BStream s) /\
     heap w' = <[l := BStream (setReading true s)]> (heap w)) /\
  (stdinStream w = None ->
   exists w',
     stdinReadStart host w =
       Ok tt w'
          (match uv_guess_handle host stdinDescriptor with
           | UV_TTY =>
               [EvMalloc (next w);
                EvUv (UvTtyInit (next w) stdinDescriptor true);
                EvUv (UvReadStart (next w))]
           | _ =>
               [EvMalloc (next w); EvUv (UvPipeInit (next w) false);
                EvUv (UvPipeOpen (next w) stdinDescriptor);
                EvUv (UvReadStart (next w))]
           end) /\
     stdinStream w' = Some (next w) /\
     heap w' =
       <[next w :=
           BStream
             (mkStream
                (match uv_guess_handle host stdinDescriptor with
                 | UV_TTY => TTY
                 | _ => Pipe
                 end) true)]> (heap w)).
Proof.
  intros Hinv. split.
  - intros l El. destruct (inv_stream _ Hinv l El) as (s & Hl).
    eexists _, s. split.
    { unfold stdinReadStart. repeat (progress (run; heap_simpl)).
      reflexivity. }
    repeat split; try assumption.
  - intros El. unfold stdinReadStart.
    repeat (progress (run; heap_simpl)).
    destruct (uv_guess_handle host stdinDescriptor);
      repeat (progress (run; heap_simpl));
      (eexists; split; [reflexivity |]);
      (split; [reflexivity | wsimpl; apply insert_insert_eq]).
Qed.

(** Stopping and starting again neither destroys nor creates anything: the
    stream, the allocation pointer and the cached handles are the same, and
    the stream is reading again. *)
Theorem stop_then_start w l s :
  StdinInv w -> stdinStream w = Some l -> heap w !! l = Some (BStream s) ->
  exists w',
    (stdinReadStop ;; stdinReadStart host) w =
      Ok tt w' [EvUv (UvReadStop l); EvUv (UvReadStart l)] /\
    heap w' = <[l := BStream (setReading true s)]> (heap w) /\
    next w' = next w /\ stdinStream w' = Some l /\
    stdinClass w' = stdinClass w /\ stdinOnData w' = stdinOnData w.
Proof.
  intros Hinv El Hl. eexists. split.
  { unfold stdinReadStop, stdinReadStart.
    repeat (progress (run; heap_simpl)). reflexivity. }
  split; [wsimpl; apply insert_insert_eq |].
  repeat split. wsimpl. exact El.
Qed.

(** A chunk of input reaches the data handler as exactly the bytes the
    reactor delivered: the callback puts the [Stdin] class in slot 0 and
    the bytes in slot 1 and calls the [onData_(_)] method, and the chunk's
    buffer is freed right after the call. Afterwards the handle of the
    class and the handle of the method are cached. With both cached
    beforehand the delivery makes no handle, keeps the cached ones, and
    leaves the heap exactly as it found it. *)
Theorem chunk_delivery w l s n bytes :
  StdinInv w -> StdinHandles w ->
  stdinStream w = Some l -> heap w !! l = Some (BStream s) ->
  stream_reading s = true ->
  Z.of_nat (List.length bytes) <= n ->
  exists w' pre c m,
    stepStdin host (OpData n bytes) w =
      Ok tt w'
         (pre ++
          [EvSetSlot 0 (VClass "io" "Stdin"); EvSetSlot 1 (VBytes bytes);
           EvCall m (Some (VClass "io" "Stdin")) (Some (VBytes bytes));
           EvFree (next w)]) /\
    Forall calm pre /\
    stdinClass w' = Some c /\ stdinOnData w' = Some m /\
    heap w' !! c = Some (BHandle (VClass "io" "Stdin")) /\
    heap w' !! m = Some (BHandle (VMethod "onData_(_)")) /\
    heap w' !! next w = None /\ stdinStream w' = Some l /\
    (forall c0 m0,
       stdinClass w = Some c0 -> stdinOnData w = Some m0 ->
       c = c0 /\ m = m0 /\ heap w' = heap w /\
       count isMakeHandle pre = 0%nat).
Proof.
  intros Hinv Hh El Hl Hr Hn.
  pose proof (readingStream_ok w l s El Hl Hr) as Hread.
  assert (Hneof : (Z.of_nat (List.length bytes) =? UV_EOF) = false)
    by (apply Z.eqb_neq; unfold UV_EOF; lia).
  assert (Hle : (Z.of_nat (List.length bytes) <=? n) = true)
    by (apply Z.leb_le; exact Hn).
  cbn [stepStdin]. rewrite Hle.
  destruct (stdinClass w) as [c |] eqn:Ec;
    destruct (stdinOnData w) as [m |] eqn:Em;
    handle_facts Hinv Hh;
    pose proof (live_below _ _ _ Hwf Hl) as Hlt;
    assert (Hfree : heap w !! next w = None) by (apply Hwf; lia);
    try (assert (l <> c) by (intros ->; congruence));
    try (assert (l <> m) by (intros ->; congruence));
    try (assert (c <> m) by (intros ->; congruence)).
  all: eexists _, _, _, _; split;
    [ unfold deliver, allocCallback, stdinReadCallback, wrenSetSlotBytes;
      unfold bind at 1; rewrite Hread;
      repeat (progress (run; heap_simpl));
      rewrite Hneof;
      repeat (progress (run; heap_simpl));
      match goal with
      | |- context [(0 <=? ?a) && (?a <=? ?b)] =>
          replace ((0 <=? a) && (a <=? b)) with true
            by (symmetry; apply andb_true_iff; split; apply Z.leb_le;
                rewrite ?length_app, ?length_drop, ?length_replicate; lia)
      end;
      repeat (progress (run; heap_simpl));
      rewrite Nat2Z.id, take_app_length;
      match goal with
      | |- Ok _ _ ?t = Ok _ _ (_ ++ [_; _; _; _]) =>
          let n := eval cbv in (List.length t - 4)%nat in
          rewrite <- (take_drop n t)
      end;
      reflexivity
    | ].
  all: cbn [take drop];
    split; [repeat (constructor; [repeat split |]); constructor |].
  all: split; [reflexivity |]; split; [reflexivity |].
  all: split; [lookup_tac |].
  all: split; [lookup_tac |].
  all: split; [wsimpl; apply lookup_delete_eq |].
  all: split; [wsimpl; first [exact El | reflexivity] |].
  all: intros c0 m0 Hc0 Hm0; try discriminate.
  injection Hc0 as <-. injection Hm0 as <-.
  split; [reflexivity |]. split; [reflexivity |]. split; [| reflexivity].
  wsimpl. apply map_eq. intros i.
  repeat first [rewrite lookup_delete | rewrite lookup_insert].
  repeat case_decide; subst; try congruence; rewrite ?Hfree; reflexivity.
Qed.

End StdinMore.

Section StdinStreams.

Variable host : Platform.

Lemma stepStdin_oneStream op w w' t :
  StdinInv w -> OneStream w -> stepStdin host op w = Ok tt w' t ->
  OneStream w'.
Proof.
  intros Hinv Hone Hstep.
  destruct op as [| | n bytes | n |]; cbn [stepStdin] in Hstep.
  - unfold stdinReadStart in Hstep.
    destruct (stdinStream w) as [l |] eqn:El.
    + destruct (inv_stream _ Hinv l El) as (s & Hl).
      revert Hstep. repeat (progress (run; heap_simpl)).
      intros [= <- <-]. one_stream Hone.
    + revert Hstep. repeat (progress (run; heap_simpl)).
      destruct (uv_guess_handle host stdinDescriptor);
        repeat (progress (run; heap_simpl));
        intros [= <- <-]; one_stream Hone.
  - destruct (stdinStream w) as [l |] eqn:El;
      [| rewrite (stdinReadStop_null w El) in Hstep; discriminate].
    destruct (inv_stream _ Hinv l El) as (s & Hl).
    revert Hstep. unfold stdinReadStop.
    repeat (progress (run; heap_simpl)).
    intros [= <- <-]. one_stream Hone.
  - destruct (Z.of_nat (List.length bytes) <=? n) eqn:Hle;
      [| discriminate].
    apply Z.leb_le in Hle.
    destruct (readingStream_cases w) as [(l & s & El & Hl & Hr) | Hf];
      [| rewrite (deliver_fault _ _ _ _ _ Hf) in Hstep; discriminate].
    pose proof (readingStream_ok w l s El Hl Hr) as Hread.
    assert (Hneof : (Z.of_nat (List.length bytes) =? UV_EOF) = false)
      by (apply Z.eqb_neq; unfold UV_EOF; lia).
    revert Hstep.
    destruct (stdinClass w) as [c |] eqn:Ec;
      destruct (stdinOnData w) as [m |] eqn:Em;
      static_facts Hinv;
      pose proof (live_below _ _ _ Hwf Hl) as Hlt;
      try (assert (l <> c) by (intros ->; congruence));
      try (assert (l <> m) by (intros ->; congruence));
      try (assert (c <> m)
             by (intros ->; apply (inv_class_onData _ Hinv m Ec); exact Em)).
    all: unfold deliver, allocCallback, stdinReadCallback, wrenSetSlotBytes;
      unfold bind at 1; rewrite Hread;
      repeat (progress (run; heap_simpl));
      rewrite Hneof;
      repeat (progress (run; heap_simpl));
      match goal with
      | |- context [(0 <=? ?a) && (?a <=? ?b)] =>
          replace ((0 <=? a) && (a <=? b)) with true
            by (symmetry; apply andb_true_iff; split; apply Z.leb_le;
                rewrite ?length_app, ?length_drop, ?length_replicate; lia)
      end;
      repeat (progress (run; heap_simpl));
      intros [= <- <-]; one_stream Hone.
  - destruct (readingStream_cases w) as [(l & s & El & Hl & Hr) | Hf];
      [| rewrite (deliver_fault _ _ _ _ _ Hf) in Hstep; discriminate].
    pose proof (readingStream_ok w l s El Hl Hr) as Hread.
    revert Hstep.
    destruct (stdinClass w) as [c |] eqn:Ec;
      destruct (stdinOnData w) as [m |] eqn:Em;
      static_facts Hinv;
      pose proof (live_below _ _ _ Hwf Hl) as Hlt;
      try (assert (l <> c) by (intros ->; congruence));
      try (assert (l <> m) by (intros ->; congruence));
      try (assert (c <> m)
             by (intros ->; apply (inv_class_onData _ Hinv m Ec); exact Em)).
    all: unfold deliver, allocCallback, stdinReadCallback, shutdownStdin;
      unfold bind at 1; rewrite Hread;
      repeat (progress (run; heap_simpl));
      change (UV_EOF =? UV_EOF) with true; cbv iota;
      repeat (progress (run; heap_simpl));
      intros [= <- <-]; one_stream Hone.
  - rewrite (ioShutdown_explicit w Hinv) in Hstep.
    injection Hstep as <- _.
    intros l s H. cbn [heap stdinStream] in *.
    do 3 (apply lookup_deleteOpt_Some in H as [_ H]).
    apply lookup_deleteOpt_Some in H as [Hne H].
    exfalso. apply Hne. exact (Hone _ _ H).
Qed.

End StdinStreams.

Section StdinRuns.

Variable host : Platform.

Lemma runStdin_oneStream ops :
  forall w w' t,
    StdinInv w -> OneStream w -> runStdin host ops w = Ok tt w' t ->
    OneStream w'.
Proof.
  induction ops as [| op ops IH]; intros w w' t Hinv Hone Hrun.
  - cbn in Hrun. injection Hrun as <- _. exact Hone.
  - cbn [runStdin] in Hrun.
    apply bind_Ok_inv in Hrun as ([] & w1 & t1 & t2 & Hstep & Hrest & _).
    destruct (stepStdin_inv host op w w1 t1 Hinv Hstep) as (Hinv1 & _).
    exact (IH w1 w' t2 Hinv1
             (stepStdin_oneStream host op w w1 t1 Hinv Hone Hstep) Hrest).
Qed.

(** Whatever the program and the reactor do, starting from a process that
    has not used the module, there is never more than one stdin stream
    allocated, and the one there is is the one the module points to. *)
Theorem one_stream_at_a_time ops w t :
  runStdin host ops initialWorld = Ok tt w t ->
  forall l1 s1 l2 s2,
    heap w !! l1 = Some (BStream s1) -> heap w !! l2 = Some (BStream s2) ->
    l1 = l2 /\ stdinStream w = Some l1.
Proof.
  intros Hrun l1 s1 l2 s2 H1 H2.
  assert (Hone : OneStream w).
  { apply (runStdin_oneStream ops initialWorld w t initial_inv);
      [| exact Hrun].
    intros l s H. cbn in H. rewrite lookup_empty in H. discriminate. }
  pose proof (Hone _ _ H1) as E1. pose proof (Hone _ _ H2) as E2.
  split; [congruence | exact E1].
Qed.

End StdinRuns.

(** The goal [StdinHandles w'] for the world [w'] a symbolic execution
    ends in. *)
Ltac handles_goal Hh Hwf :=
  split; wsimpl;
  (let x := fresh "x" in
   let Hx := fresh "Hx" in
   let Hv := fresh "Hv" in
   intros x Hx;
   first
     [ discriminate Hx
     | injection Hx as <-; lookup_tac
     | first [ pose proof (handles_class _ Hh _ Hx) as Hv
             | pose proof (handles_onData _ Hh _ Hx) as Hv ];
       pose proof (live_below _ _ _ Hwf Hv);
       lookup_tac ]).

Section StdinHandlesRuns.

Variable host : Platform.

Lemma stepStdin_handles op w w' t :
  StdinInv w -> StdinHandles w -> stepStdin host op w = Ok tt w' t ->
  StdinHandles w'.
Proof.
  intros Hinv Hh Hstep.
  destruct op as [| | n bytes | n |]; cbn [stepStdin] in Hstep.
  - pose proof (inv_wf _ Hinv) as Hwf.
    unfold stdinReadStart in Hstep.
    destruct (stdinStream w) as [l |] eqn:El.
    + destruct (inv_stream _ Hinv l El) as (s & Hl).
      revert Hstep. repeat (progress (run; heap_simpl)).
      intros [= <- <-]. handles_goal Hh Hwf.
    + revert Hstep. repeat (progress (run; heap_simpl)).
      destruct (uv_guess_handle host stdinDescriptor);
        repeat (progress (run; heap_simpl));
        intros [= <- <-]; handles_goal Hh Hwf.
  - pose proof (inv_wf _ Hinv) as Hwf.
    destruct (stdinStream w) as [l |] eqn:El;
      [| rewrite (stdinReadStop_null w El) in Hstep; discriminate].
    destruct (inv_stream _ Hinv l El) as (s & Hl).
    revert Hstep. unfold stdinReadStop.
    repeat (progress (run; heap_simpl)).
    intros [= <- <-]. handles_goal Hh Hwf.
  - destruct (Z.of_nat (List.length bytes) <=? n) eqn:Hle;
      [| discriminate].
    apply Z.leb_le in Hle.
    destruct (readingStream_cases w) as [(l & s & El & Hl & Hr) | Hf];
      [| rewrite (deliver_fault _ _ _ _ _ Hf) in Hstep; discriminate].
    pose proof (readingStream_ok w l s El Hl Hr) as Hread.
    assert (Hneof : (Z.of_nat (List.length bytes) =? UV_EOF) = false)
      by (apply Z.eqb_neq; unfold UV_EOF; lia).
    revert Hstep.
    destruct (stdinClass w) as [c |] eqn:Ec;
      destruct (stdinOnData w) as [m |] eqn:Em;
      handle_facts Hinv Hh;
      pose proof (live_below _ _ _ Hwf Hl) as Hlt;
      try (assert (l <> c) by (intros ->; congruence));
      try (assert (l <> m) by (intros ->; congruence));
      try (assert (c <> m) by (intros ->; congruence)).
    all: unfold deliver, allocCallback, stdinReadCallback, wrenSetSlotBytes;
      unfold bind at 1; rewrite Hread;
      repeat (progress (run; heap_simpl));
      rewrite Hneof;
      repeat (progress (run; heap_simpl));
      match goal with
      | |- context [(0 <=? ?a) && (?a <=? ?b)] =>
          replace ((0 <=? a) && (a <=? b)) with true
            by (symmetry; apply andb_true_iff; split; apply Z.leb_le;
                rewrite ?length_app, ?length_drop, ?length_replicate; lia)
      end;
      repeat (progress (run; heap_simpl));
      intros [= <- <-]; handles_goal Hh Hwf.
  - destruct (readingStream_cases w) as [(l & s & El & Hl & Hr) | Hf];
      [| rewrite (deliver_fault _ _ _ _ _ Hf) in Hstep; discriminate].
    destruct (deliver_eof w l s n Hinv El Hl Hr)
      as (w1 & pre & m & cls & c & Hrun & _ & _ & _ & Ec & Em).
    rewrite Hrun in Hstep. injection Hstep as <- _.
    split; intros x Hx; congruence.
  - rewrite (ioShutdown_explicit w Hinv) in Hstep.
    injection Hstep as <- _.
    split; intros x Hx; discriminate Hx.
Qed.

Lemma runStdin_handles ops :
  forall w w' t,
    StdinInv w -> StdinHandles w -> runStdin host ops w = Ok tt w' t ->
    StdinHandles w'.
Proof.
  induction ops as [| op ops IH]; intros w w' t Hinv Hh Hrun.
  - cbn in Hrun. injection Hrun as <- _. exact Hh.
  - cbn [runStdin] in Hrun.
    apply bind_Ok_inv in Hrun as ([] & w1 & t1 & t2 & Hstep & Hrest & _).
    destruct (stepStdin_inv host op w w1 t1 Hinv Hstep) as (Hinv1 & _).
    exact (IH w1 w' t2 Hinv1
             (stepStdin_handles op w w1 t1 Hinv Hh Hstep) Hrest).
Qed.

(** Whatever the program and the reactor do, starting from a process that
    has not used the module, the handles the subsystem has cached are live
    handles of the [Stdin] class of module [io] and of its [onData_(_)]
    method, and they are two different handles. *)
Theorem cached_handles_are_stdin ops w t :
  runStdin host ops initialWorld = Ok tt w t ->
  (forall c, stdinClass w = Some c ->
             heap w !! c = Some (BHandle (VClass "io" "Stdin"))) /\
  (forall m, stdinOnData w = Some m ->
             heap w !! m = Some (BHandle (VMethod "onData_(_)"))) /\
  (forall c m, stdinClass w = Some c -> stdinOnData w = Some m -> c <> m).
Proof.
  intros Hrun.
  assert (Hh : StdinHandles w).
  { apply (runStdin_handles ops initialWorld w t initial_inv); [| exact Hrun].
    split; intros x Hx; discriminate Hx. }
  split; [exact (handles_class _ Hh) |].
  split; [exact (handles_onData _ Hh) |].
  intros c m Ec Em ->.
  pose proof (handles_class _ Hh _ Ec). pose proof (handles_onData _ Hh _ Em).
  congruence.
Qed.

End StdinHandlesRuns.

Lemma cached_handles_are_stdin_witness :
  exists w t m,
    runStdin linux [OpReadStart; OpData 4 [104; 105]] initialWorld =
      Ok tt w t /\
    stdinOnData w = Some m /\
    heap w !! m = Some (BHandle (VMethod "onData_(_)")).
Proof.
  pose proof (cached_handles_are_stdin linux
                [OpReadStart; OpData 4 [104; 105]]) as H.
  destruct (runStdin linux [OpReadStart; OpData 4 [104; 105]] initialWorld)
    as [[] w t | e] eqn:Hrun; [| vm_compute in Hrun; discriminate Hrun].
  destruct (H w t eq_refl) as (_ & Hm & _).
  assert (Em : exists m, stdinOnData w = Some m).
  { vm_compute in Hrun. injection Hrun as <- _. eexists. reflexivity. }
  destruct Em as (m & Em).
  exists w, t, m. split; [reflexivity |]. split; [exact Em | exact (Hm m Em)].
Defined.

Lemma stdinReadStart_creates_once_witness :
  exists w',
    stdinReadStart linux initialWorld =
      Ok tt w'
         [EvMalloc 1%positive; EvUv (UvPipeInit 1%positive false);
          EvUv (UvPipeOpen 1%positive stdinDescriptor);
          EvUv (UvReadStart 1%positive)] /\
    stdinStream w' = Some 1%positive.
Proof.
  destruct (stdinReadStart_creates_once linux initialWorld initial_inv)
    as [_ H].
  destruct (H eq_refl) as (w' & Hrun & El & _).
  exists w'. split; [exact Hrun | exact El].
Defined.

Lemma stop_then_start_witness :
  exists w',
    (stdinReadStop ;; stdinReadStart linux) readingWorld =
      Ok tt w' [EvUv (UvReadStop 1%positive); EvUv (UvReadStart 1%positive)] /\
    stdinStream w' = Some 1%positive.
Proof.
  destruct (stop_then_start linux readingWorld 1 (mkStream Pipe true)
              readingWorld_inv eq_refl eq_refl)
    as (w' & Hrun & _ & _ & El & _).
  exists w'. split; [exact Hrun | exact El].
Defined.

Lemma chunk_delivery_witness :
  exists w' pre c m,
    stepStdin linux (OpData 4 [104; 105]) readingWorld =
      Ok tt w'
         (pre ++
          [EvSetSlot 0 (VClass "io" "Stdin"); EvSetSlot 1 (VBytes [104; 105]);
           EvCall m (Some (VClass "io" "Stdin")) (Some (VBytes [104; 105]));
           EvFree 2%positive]) /\
    stdinClass w' = Some c /\ stdinOnData w' = Some m /\
    heap w' !! m = Some (BHandle (VMethod "onData_(_)")).
Proof.
  destruct (chunk_delivery linux readingWorld 1 (mkStream Pipe true) 4
              [104; 105] readingWorld_inv readingWorld_handles
              eq_refl eq_refl eq_refl ltac:(cbn; lia))
    as (w' & pre & c & m & Hrun & _ & Ec & Em & _ & Hm & _).
  exists w', pre, c, m. split; [exact Hrun |].
  split; [exact Ec |]. split; [exact Em | exact Hm].
Defined.

Lemma one_stream_at_a_time_witness :
  exists w t,
    runStdin linux [OpReadStart; OpReadStop; OpReadStart] initialWorld =
      Ok tt w t /\
    stdinStream w = Some 1%positive.
Proof.
  pose proof (one_stream_at_a_time linux
                [OpReadStart; OpReadStop; OpReadStart]) as H.
  destruct (runStdin linux [OpReadStart; OpReadStop; OpReadStart]
              initialWorld)
    as [[] w t | e] eqn:Hrun; [| vm_compute in Hrun; discriminate Hrun].
  exists w, t. split; [reflexivity |].
  assert (Hl : heap w !! 1%positive = Some (BStream (mkStream Pipe true))).
  { vm_compute in Hrun. injection Hrun as <- _. reflexivity. }
  exact (proj2 (H w t eq_refl _ _ _ _ Hl Hl)).
Defined.
